(** * http_server.py: process discovery and lifecycle control

    A shallow embedding of [src/http_server.py]: the manager of a background
    static-file HTTP server.  The first part models [discover_servers], which
    cross-references the kernel's socket tables with the descriptors of every
    process; the second part models [server_start], [server_stop],
    [server_status], [server_restart] and [main] as programs of a small
    state-and-exception monad over an abstract operating system. *)

From Stdlib Require Import ZArith Ascii String Lia.
From stdpp Require Import base tactics option list gmap sets strings sorting.

Local Open Scope string_scope.
Local Open Scope Z_scope.
Local Open Scope list_scope.

(** ** Results of Python code *)

(** The exceptions the modelled code can meet. *)
Inductive exn :=
  | StopIteration
  | ValueError
  | IndexError
  | PermissionError
  | OSError
  | UnicodeDecodeError.

(** How a piece of Python code ends: it returns a value, the process ends
    with an exit status, or an exception leaves it.  The process ends with
    status [code] through [sys.exit(code)]; the end of the process by a
    signal is the exit status that is the negated number of the signal,
    as [os.waitstatus_to_exitcode] has it. *)
Inductive res (A : Type) :=
  | Ret (a : A)
  | Exit (code : Z)
  | Raise (e : exn).
Arguments Ret {A} a.
Arguments Exit {A} code.
Arguments Raise {A} e.

Definition res_bind {A B} (r : res A) (k : A → res B) : res B :=
  match r with
  | Ret a => k a
  | Exit c => Exit c
  | Raise e => Raise e
  end.

(** ** Library functions of Python kept abstract

    [bytes.decode('utf-8','ignore')], [int(s)], [int(s, 16)],
    [str.isdigit()] and [str.split()] are not code of the repository, and
    what they do depends on the characters of Unicode.  [None] stands for
    the [ValueError] that [int] raises. *)
Class PyBuiltins := {
  decode_utf8_ignore : string → string;
  py_int : string → option Z;
  py_int16 : string → option Z;
  py_isdigit : string → bool;
  py_split : string → list string;
}.

(** ** Strings

    The functions of this part are exact on strings whose characters are
    below U+0100, a character being its code point. *)

(** The characters below U+0100 that [str.split()] and [str.isspace()]
    treat as white space: the ASCII ones, NEXT LINE and NO-BREAK SPACE. *)
Definition is_space (c : ascii) : bool :=
  let n := nat_of_ascii c in
  ((9 <=? n) && (n <=? 13) || (28 <=? n) && (n <=? 32) ||
   (n =? 133) || (n =? 160))%nat.

(** [split_ws_aux cur s]: [cur] is the token being read, reversed. *)
Fixpoint split_ws_aux (cur : list ascii) (s : string) : list string :=
  match s with
  | EmptyString =>
      match cur with
      | [] => []
      | _ => [string_of_list_ascii (rev cur)]
      end
  | String c s' =>
      if is_space c then
        match cur with
        | [] => split_ws_aux [] s'
        | _ => string_of_list_ascii (rev cur) :: split_ws_aux [] s'
        end
      else split_ws_aux (c :: cur) s'
  end.

(** [line.split()] *)
Definition split_ws (s : string) : list string := split_ws_aux [] s.

Fixpoint split_on_aux (sep : ascii) (cur : list ascii) (s : string) : list string :=
  match s with
  | EmptyString => [string_of_list_ascii (rev cur)]
  | String c s' =>
      if Ascii.eqb c sep then
        string_of_list_ascii (rev cur) :: split_on_aux sep [] s'
      else split_on_aux sep (c :: cur) s'
  end.

(** [s.split(sep)] for a separator of one character. *)
Definition split_on (sep : ascii) (s : string) : list string :=
  split_on_aux sep [] s.

(** The decimal digits [0] to [9]. *)
Definition is_decimal_char (c : ascii) : bool :=
  let n := nat_of_ascii c in ((48 <=? n) && (n <=? 57))%nat.

Fixpoint all_decimal (s : string) : bool :=
  match s with
  | EmptyString => true
  | String c s' => is_decimal_char c && all_decimal s'
  end.

(** A string of decimal digits, not empty. *)
Definition is_decimal (s : string) : bool :=
  match s with
  | EmptyString => false
  | _ => all_decimal s
  end.

(** The characters below U+0100 that [str.isdigit()] accepts: the decimal
    digits and the superscripts two, three and one. *)
Definition is_digit_char (c : ascii) : bool :=
  let n := nat_of_ascii c in
  ((48 <=? n) && (n <=? 57) || (n =? 178) || (n =? 179) || (n =? 185))%nat.

Fixpoint all_digits (s : string) : bool :=
  match s with
  | EmptyString => true
  | String c s' => is_digit_char c && all_digits s'
  end.

(** [s.isdigit()] *)
Definition isdigit (s : string) : bool :=
  match s with
  | EmptyString => false
  | _ => all_digits s
  end.

(** [s.startswith(p)] *)
Definition startswith (p s : string) : bool := String.prefix p s.

(** [needle in s] *)
Fixpoint contains (needle s : string) : bool :=
  String.prefix needle s ||
  match s with
  | EmptyString => false
  | String _ s' => contains needle s'
  end.

Fixpoint drop_last (s : string) : string :=
  match s with
  | EmptyString => EmptyString
  | String c EmptyString => EmptyString
  | String c s' => String c (drop_last s')
  end.

Fixpoint string_drop (n : nat) (s : string) : string :=
  match n, s with
  | O, _ => s
  | S n', String _ s' => string_drop n' s'
  | S _, EmptyString => EmptyString
  end.

(** [target[8:-1]] *)
Definition slice_8_m1 (target : string) : string :=
  drop_last (string_drop 8 target).

Definition nonempty (s : string) : bool :=
  match s with
  | EmptyString => false
  | _ => true
  end.

Definition NUL : ascii := ascii_of_nat 0.

(** ** The kernel state that discovery reads *)

(** What [open(table,'r')] and the reading of the file give. *)
Inductive table_file :=
  | TableMissing                       (* FileNotFoundError *)
  | TableDenied                        (* PermissionError *)
  | TableLines (lines : list string)    (* the lines of the file *)
  | TableUndecodable                   (* the file opens, reading it raises
                                          UnicodeDecodeError *)
  | TableFails.                        (* opening or reading it raises
                                          another OSError *)

(** One entry of [/proc].  [d_cmdline] is [None] when reading
    [cmdline] raises; [d_fd] is [None] when listing [fd] raises; a
    descriptor is [None] when [os.readlink] raises [OSError], and its
    link target otherwise.  Names and link targets are strings of
    characters, a command line is a string of bytes; the listing of
    [/proc] itself is taken to succeed. *)
Record proc_entry := {
  d_name : string;
  d_cmdline : option string;
  d_fd : option (list (option string));
}.

Record procfs := {
  net_tcp : table_file;
  net_tcp6 : table_file;
  proc_dirs : list proc_entry;
}.

(** ** Sorting

    [sorted] on tuples [(pid, port)] compares lexicographically; on
    integers it is the usual order. *)
Definition tuple_le (a b : Z * Z) : Prop :=
  a.1 < b.1 ∨ (a.1 = b.1 ∧ a.2 ≤ b.2).

Global Instance tuple_le_dec a b : Decision (tuple_le a b).
Proof. unfold tuple_le. apply _. Defined.

Definition sorted (l : list (Z * Z)) : list (Z * Z) := merge_sort tuple_le l.
Definition sorted_ints (l : list Z) : list Z := merge_sort Z.le l.

(** ** discover_servers *)

Section Discovery.
Context `{PyBuiltins}.

(** The body of the loop over the rows of a table: the pair
    [(inode_i, port)] the row adds to [inode_map], if it adds one. *)
Definition parse_row (line : string) : option (Z * Z) :=
  let parts := py_split line in
  if (List.length parts <? 10)%nat then None
  else
    match parts !! 1%nat, parts !! 3%nat, parts !! 9%nat with
    | Some local, Some st, Some inode =>
        if negb (String.eqb st "0A") then None
        else
          match split_on ":" local with
          | [_ip; phex] =>
              match py_int16 phex with
              | None => None
              | Some port =>
                  match py_int inode with
                  | None => None
                  | Some inode_i => Some (inode_i, port)
                  end
              end
          | _ => None
          end
    | _, _, _ => None
    end.

Definition add_row (inode_map : gmap Z Z) (line : string) : gmap Z Z :=
  match parse_row line with
  | Some (inode_i, port) => <[inode_i := port]> inode_map
  | None => inode_map
  end.

(** One round of the loop over the two tables.  The clause of line 147
    catches [FileNotFoundError] and [PermissionError] only: the
    [StopIteration] of [next(f)] on a file without a line, the
    [UnicodeDecodeError] of a file that is no text and every other
    [OSError] leave the function. *)
Definition read_table (t : table_file) (inode_map : gmap Z Z) : res (gmap Z Z) :=
  match t with
  | TableMissing | TableDenied => Ret inode_map
  | TableLines [] => Raise StopIteration
  | TableLines (_header :: rows) => Ret (foldl add_row inode_map rows)
  | TableUndecodable => Raise UnicodeDecodeError
  | TableFails => Raise OSError
  end.

(** The body of the loop over the descriptors of a process. *)
Definition add_fd (inode_map : gmap Z Z) (seen : gset Z)
    (fd : option string) : gset Z :=
  match fd with
  | None => seen
  | Some target =>
      if startswith "socket:[" target then
        match py_int (slice_8_m1 target) with
        | None => seen
        | Some inode_i =>
            match inode_map !! inode_i with
            | Some port => if decide (port = 0) then seen else {[port]} ∪ seen
            | None => seen
            end
        end
      else seen
  end.

Definition scan_fds (inode_map : gmap Z Z) (fds : list (option string)) : gset Z :=
  foldl (add_fd inode_map) ∅ fds.

(** [any('http_server.py' in t for t in texts)] *)
Definition is_managed (raw : string) : bool :=
  let cmdline := split_on NUL raw in
  let texts := decode_utf8_ignore <$> filter (λ c, nonempty c = true) cmdline in
  existsb (contains "http_server.py") texts.

(** The body of the loop over [/proc]: the pairs the entry appends to
    [results]. *)
Definition scan_process (inode_map : gmap Z Z) (d : proc_entry) : res (list (Z * Z)) :=
  if negb (py_isdigit (d_name d)) then Ret []
  else
    match py_int (d_name d) with
    | None => Raise ValueError
    | Some pid =>
        match d_cmdline d with
        | None => Ret []
        | Some raw =>
            if negb (is_managed raw) then Ret []
            else
              let seen :=
                match d_fd d with
                | None => ∅
                | Some fds => scan_fds inode_map fds
                end in
              Ret ((λ p, (pid, p)) <$> elements seen)
        end
    end.

Fixpoint scan_processes (inode_map : gmap Z Z) (ds : list proc_entry)
    (results : list (Z * Z)) : res (list (Z * Z)) :=
  match ds with
  | [] => Ret results
  | d :: ds' =>
      res_bind (scan_process inode_map d)
        (λ found, scan_processes inode_map ds' (results ++ found))
  end.

Definition read_tables (fs : procfs) : res (gmap Z Z) :=
  res_bind (read_table (net_tcp fs) ∅) (read_table (net_tcp6 fs)).

Definition discover_servers (fs : procfs) : res (list (Z * Z)) :=
  res_bind (read_tables fs) (λ inode_map,
    if decide (inode_map = ∅) then Ret []
    else
      res_bind (scan_processes inode_map (proc_dirs fs) [])
        (λ results, Ret (sorted results))).

End Discovery.

(** ** A plain instance of the library functions

    Strings of decimal (hexadecimal) digits are read the way [int] reads
    them; everything else is refused, as [int] refuses the superscript
    digits that [isdigit] accepts; decoding is the identity, as it is on
    ASCII. *)
Fixpoint digits_value (acc : Z) (s : string) : Z :=
  match s with
  | EmptyString => acc
  | String c s' => digits_value (10 * acc + (Z.of_nat (nat_of_ascii c) - 48)) s'
  end.

Definition hex_digit (c : ascii) : option Z :=
  let n := Z.of_nat (nat_of_ascii c) in
  if (48 <=? n) && (n <=? 57) then Some (n - 48)
  else if (65 <=? n) && (n <=? 70) then Some (n - 55)
  else if (97 <=? n) && (n <=? 102) then Some (n - 87)
  else None.

Fixpoint hex_value (acc : option Z) (s : string) : option Z :=
  match s with
  | EmptyString => acc
  | String c s' =>
      match acc, hex_digit c with
      | Some a, Some d => hex_value (Some (16 * a + d)) s'
      | _, _ => None
      end
  end.

Definition plain_builtins : PyBuiltins := {|
  decode_utf8_ignore := λ s, s;
  py_int := λ s, if is_decimal s then Some (digits_value 0 s) else None;
  py_int16 := λ s, if nonempty s then hex_value (Some 0) s else None;
  py_isdigit := isdigit;
  py_split := split_ws;
|}.

(** ** The operating system seen by the lifecycle controller *)

Definition path := string.

Inductive signal := Sig0 | SIGTERM | SIGKILL.

(** What [os.kill] does: it returns, or raises [ProcessLookupError] or
    [PermissionError] (both are [OSError]s). *)
Inductive kill_result := KillOk | KillNoProcess | KillDenied.

(** The steps of the detached child, in the order of the source. *)
Inductive child_step :=
  | Setsid
  | Chdir (serve_dir : path)
  | OpenLog (log_file : path)
  | Dup2 (fd : Z)
  | ReopenStdin
  | MkdirLogParent (dir : path)
  | BindServer (bind : string) (port : Z)
  | ServeForever
  | ServerClose.

(** How [httpd.serve_forever()] ends.  It blocks until a signal ends the
    process, as the SIGTERM of [stop] does, for which the program
    installs no handler; or it is left, by [KeyboardInterrupt] or by
    another exception, and the [finally] clause runs. *)
Inductive serve_end :=
  | ServeKilled (signum : positive)
  | ServeLeft.

(** The world outside the program.  Reads of the file system are functions
    of the world; every other operation also moves the world on, to any
    world at all: whatever other processes do in between is part of the
    step.  A [bool] result says whether the call returned ([true]) or
    raised. *)
Class OS (W : Type) := {
  os_resolve : W → string → path;        (* Path(s).expanduser().resolve() *)
  os_parent : path → path;               (* p.parent *)
  os_exists : W → path → bool;           (* p.exists() *)
  os_is_dir : W → path → bool;           (* p.is_dir() *)
  os_mkdir_parents : path → W → bool * W;  (* p.mkdir(parents=True, exist_ok=True) *)
  os_replace : path → path → W → bool * W; (* src.replace(dst) *)
  os_proc : W → procfs * W;              (* what /proc holds during a scan *)
  os_kill : Z → signal → W → kill_result * W;
  os_sleep : W → W;                      (* time.sleep(0.1) *)
  os_connect_ex : string → Z → W → res bool * W;  (* connect_ex(..) == 0 *)
  os_fork : W → res Z * W;
  os_child : child_step → W → bool * W;
  os_serve_forever : W → serve_end * W;
  os_urlopen : string → Z → Z → W → (Z + string) * W;  (* status, or the error *)
}.

(** ** Output *)

(** The attribute of [Color] passed to [cprint]; [NoColor] marks what is
    written with [print] or [sys.stdout.write]. *)
Inductive color := ColorG | ColorR | ColorY | ColorC | NoColor.

(** The messages of the program, one constructor per format string. *)
Inductive message :=
  | MsgDirNotFound (serve_dir : path)        (* Directory not found: .. *)
  | MsgAlreadyRunning (pid : Z) (msg_port : Z + list Z)
                                             (* Server already running (PID ..) on port .. *)
  | MsgPortInUse (port : Z) (bind : string)  (* Port .. already in use on ... Abort start. *)
  | MsgSuggestion (port : Z)                 (* Suggestion: use 'ss -lntp ..' *)
  | MsgWarnAllInterfaces                     (* WARNING: Serving on 0.0.0.0 .. *)
  | MsgStarting (bind : string) (port : Z) (serve_dir : path)
                                             (* Starting HTTP server on .. *)
  | MsgStarted (pid : Z)                     (* Started (PID ..) *)
  | MsgNotConfirmed (pid : Z)                (* Started (child PID ..) but listener not confirmed *)
  | MsgNoRunning                             (* No running server detected *)
  | MsgNoServerOnPort                        (* No server on specified port *)
  | MsgAmbiguousStop                         (* Multiple servers detected (ambiguous stop): *)
  | MsgPidPorts (pid : Z) (ports : list Z)   (*   PID .. ports .. *)
  | MsgHintPort                              (* Hint: specify --port to target a specific one. *)
  | MsgStopping (pid : Z) (ports : list Z)   (* Stopping server PID .. (ports=..) *)
  | MsgForceKilling                          (* Force killing... *)
  | MsgStopped                               (* Stopped *)
  | MsgNotRunning                            (* Not running *)
  | MsgNotRunningOnPort                      (* Not running on specified port *)
  | MsgMultipleServers                       (* Multiple servers detected: *)
  | MsgSpecifyPort                           (* Specify --port for detailed health check. *)
  | MsgRunning (pid : Z) (ports : list Z)    (* Running (PID ..) (ports=..) *)
  | MsgHealthOK (status : Z)                 (* Health OK HTTP .. *)
  | MsgHealthFailed (e : string)             (* Health check failed: .. *)
  | MsgPossibleCauses                        (* Possible causes: .. *)
  | MsgBindFailed (bind : string) (port : Z) (* Failed to bind .. (written to the log) *)
  | MsgUnknownCommand.                       (* Unknown command *)

(** What a run does to the world, in order. *)
Inductive event :=
  | EvPrint (msg : message) (c : color)
  | EvDiscover (r : res (list (Z * Z)))
  | EvKill (pid : Z) (s : signal) (r : kill_result)
  | EvSleep
  | EvMkdir (p : path) (ok : bool)
  | EvReplace (src dst : path) (ok : bool)
  | EvConnect (bind : string) (port : Z) (r : res bool)
  | EvFork (r : res Z)
  | EvChild (s : child_step) (ok : bool)
  | EvUrlopen (bind : string) (port : Z) (r : Z + string).

(** ** The monad of the controller: world passing, exceptions and exits,
    and the events of the run *)

Record run (W A : Type) := Run {
  outcome : res A;
  final : W;
  trace : list event;
}.
Arguments Run {W A} outcome final trace.
Arguments outcome {W A} r.
Arguments final {W A} r.
Arguments trace {W A} r.

Definition M (W A : Type) : Type := W → run W A.

Definition M_ret {W A} (a : A) : M W A := λ w, Run (Ret a) w [].

Definition M_bind {W A B} (m : M W A) (k : A → M W B) : M W B := λ w,
  let r1 := m w in
  match outcome r1 with
  | Ret a =>
      let r2 := k a (final r1) in
      Run (outcome r2) (final r2) (trace r1 ++ trace r2)
  | Exit c => Run (Exit c) (final r1) (trace r1)
  | Raise e => Run (Raise e) (final r1) (trace r1)
  end.

Notation "x ⇐ m ;; k" := (M_bind m (λ x, k))
  (at level 100, m at next level, right associativity, only parsing).
Notation "m ;;; k" := (M_bind m (λ _, k))
  (at level 100, right associativity, only parsing).

(** [sys.exit(code)] *)
Definition sys_exit {W A} (code : Z) : M W A := λ w, Run (Exit code) w [].

(** An exception that nothing catches. *)
Definition raise {W A} (e : exn) : M W A := λ w, Run (Raise e) w [].

(** The exit status of the interpreter: 0 when [main] returns, the
    argument of [sys.exit], 1 after an exception nothing caught. *)
Definition exit_code {A} (r : res A) : Z :=
  match r with
  | Ret _ => 0
  | Exit c => c
  | Raise _ => 1
  end.

Record Args := {
  a_cmd : string;
  a_port : option Z;
  a_bind : string;
  a_dir : string;
  a_log_file : string;
  a_no_color : bool;
  a_timeout : Z;     (* milliseconds; a float of seconds in the source *)
}.

Definition DEFAULT_PORT : Z := 8000.

(** [grouped.setdefault(spid, []).append(port)] on a dict that keeps the
    order of insertion. *)
Fixpoint setdefault_append (grouped : list (Z * list Z)) (spid port : Z)
    : list (Z * list Z) :=
  match grouped with
  | [] => [(spid, [port])]
  | (k, pl) :: rest =>
      if decide (k = spid) then (k, pl ++ [port]) :: rest
      else (k, pl) :: setdefault_append rest spid port
  end.

Definition group_by_pid (servers : list (Z * Z)) : list (Z * list Z) :=
  foldl (λ grouped s, setdefault_append grouped s.1 s.2) [] servers.

(** ** The lifecycle controller *)

Section Lifecycle.
Context `{PyBuiltins} {W : Type} `{OS W}.

Definition cprint (msg : message) (c : color) : M W unit := λ w,
  Run (Ret ()) w [EvPrint msg c].

(** A call of [discover_servers()]. *)
Definition discover : M W (list (Z * Z)) := λ w,
  let '(fs, w') := os_proc w in
  let r := discover_servers fs in
  Run r w' [EvDiscover r].

Definition kill (pid : Z) (s : signal) : M W kill_result := λ w,
  let '(r, w') := os_kill pid s w in
  Run (Ret r) w' [EvKill pid s r].

Definition sleep : M W unit := λ w, Run (Ret ()) (os_sleep w) [EvSleep].

Definition mkdir_parents (p : path) : M W bool := λ w,
  let '(ok, w') := os_mkdir_parents p w in
  Run (Ret ok) w' [EvMkdir p ok].

Definition replace (src dst : path) : M W bool := λ w,
  let '(ok, w') := os_replace src dst w in
  Run (Ret ok) w' [EvReplace src dst ok].

Definition connect_ex (bind : string) (port : Z) : M W bool := λ w,
  let '(r, w') := os_connect_ex bind port w in
  Run r w' [EvConnect bind port r].

Definition fork : M W Z := λ w,
  let '(r, w') := os_fork w in
  Run r w' [EvFork r].

(** A step of the child; a failure is an [OSError]. *)
Definition child (s : child_step) : M W bool := λ w,
  let '(ok, w') := os_child s w in
  Run (Ret ok) w' [EvChild s ok].

Definition child_or_raise (s : child_step) : M W unit :=
  ok ⇐ child s ;; if ok : bool then M_ret () else raise OSError.

(** [httpd.serve_forever()]; the event says whether the call was left. *)
Definition serve_forever : M W serve_end := λ w,
  let '(e, w') := os_serve_forever w in
  Run (Ret e) w'
      [EvChild ServeForever
         match e with ServeLeft => true | ServeKilled _ => false end].

(** The end of the process by a signal: nothing of the program runs
    after it. *)
Definition killed {A} (signum : positive) : M W A := λ w,
  Run (Exit (Z.neg signum)) w [].

Definition urlopen (bind : string) (port : Z) (timeout : Z) : M W (Z + string) := λ w,
  let '(r, w') := os_urlopen bind port timeout w in
  Run (Ret r) w' [EvUrlopen bind port r].

(** Reads of the file system. *)
Definition read {A} (f : W → A) : M W A := λ w, Run (Ret (f w)) w [].

(** [try: os.kill(pid, sig)  except ProcessLookupError: pass] *)
Definition kill_unless_gone (pid : Z) (s : signal) : M W unit :=
  r ⇐ kill pid s ;;
  match r with
  | KillOk | KillNoProcess => M_ret ()
  | KillDenied => raise PermissionError
  end.

(** *** server_start *)

(** The legacy log relocation, lines 182 to 190. *)
Definition migrate_log (args : Args) (log_file : path) : M W unit :=
  old_root_log ⇐ read (λ w, os_resolve w ".images_http.log") ;;
  target_exists ⇐ read (λ w, os_exists w (os_resolve w (a_log_file args))) ;;
  old_exists ⇐ read (λ w, os_exists w old_root_log) ;;
  if negb target_exists && old_exists && negb (String.eqb old_root_log log_file) then
    ok ⇐ mkdir_parents (os_parent log_file) ;;
    if ok : bool then (_ ⇐ replace old_root_log log_file ;; M_ret ())
    else M_ret ()
  else M_ret ().

(** The parent's loop [for _ in range(30): .. else: ..], lines 219 to 226. *)
Fixpoint confirm_poll (n : nat) (port pid : Z) : M W unit :=
  match n with
  | O => cprint (MsgNotConfirmed pid) ColorY
  | S n' =>
      servers ⇐ discover ;;
      let match_ := (filter (λ s, s.2 = port) servers).*1 in
      match match_ with
      | spid :: _ => cprint (MsgStarted spid) ColorG
      | [] => sleep ;;; confirm_poll n' port pid
      end
  end.

(** The detached child, lines 229 to 260.  Whatever ends
    [serve_forever] short of a signal, the [finally] clause closes the
    server and, if that succeeds, calls [sys.exit(0)], which replaces an
    exception on its way. *)
Definition serve_child (args : Args) (port : Z) (serve_dir log_file : path)
    : M W unit :=
  child_or_raise Setsid ;;;
  child_or_raise (Chdir serve_dir) ;;;
  child_or_raise (OpenLog log_file) ;;;
  child_or_raise (Dup2 1) ;;;
  child_or_raise (Dup2 2) ;;;
  child_or_raise ReopenStdin ;;;
  child_or_raise (MkdirLogParent (os_parent log_file)) ;;;
  bound ⇐ child (BindServer (a_bind args) port) ;;
  if bound : bool then
    e ⇐ serve_forever ;;
    match e with
    | ServeKilled signum => killed signum
    | ServeLeft => child_or_raise ServerClose ;;; sys_exit 0
    end
  else
    cprint (MsgBindFailed (a_bind args) port) NoColor ;;;
    sys_exit 1.

(** Lines 203 to 260: the probe of the port, the fork, and what the
    parent and the child do after it. *)
Definition launch (args : Args) (port : Z) (serve_dir log_file : path)
    : M W unit :=
  in_use ⇐ connect_ex (a_bind args) port ;;
  if in_use : bool then
    cprint (MsgPortInUse port (a_bind args)) ColorR ;;;
    cprint (MsgSuggestion port) ColorY
  else
    (if String.eqb (a_bind args) "0.0.0.0"
     then cprint MsgWarnAllInterfaces ColorY else M_ret ()) ;;;
    cprint (MsgStarting (a_bind args) port serve_dir) ColorC ;;;
    pid ⇐ fork ;;
    if pid >? 0 then confirm_poll 30 port pid
    else serve_child args port serve_dir log_file.

Definition server_start (args : Args) : M W unit :=
  (* args.port is set when it was None, so each later test
     [args.port is None] is false *)
  let port := default DEFAULT_PORT (a_port args) in
  let port_is_None := false in
  log_file ⇐ read (λ w, os_resolve w (a_log_file args)) ;;
  serve_dir ⇐ read (λ w, os_resolve w (a_dir args)) ;;
  migrate_log args log_file ;;;
  is_dir ⇐ read (λ w, os_is_dir w serve_dir) ;;
  if negb is_dir then
    cprint (MsgDirNotFound serve_dir) ColorR ;;;
    sys_exit 1
  else
    servers ⇐ discover ;;
    let existing := filter (λ s, port_is_None = true ∨ s.2 = port) servers in
    match existing with
    | (pid0, _) :: _ =>
        if port_is_None || existsb (λ s, bool_decide (s.2 = port)) existing then
          cprint (MsgAlreadyRunning pid0 (inl port)) ColorY
        else launch args port serve_dir log_file
    | [] => launch args port serve_dir log_file
    end.

(** *** server_stop *)

(** [cprint(f"  PID {spid} ports {..sorted(pl)..}")] for every item. *)
Fixpoint print_groups (grouped : list (Z * list Z)) : M W unit :=
  match grouped with
  | [] => M_ret ()
  | (spid, pl) :: rest =>
      cprint (MsgPidPorts spid (sorted_ints pl)) ColorY ;;;
      print_groups rest
  end.

(** The loop [for _ in range(30)] of lines 285 to 290; [true] when it is
    left by [break], [false] when it runs to its end. *)
Fixpoint wait_gone (n : nat) (pid : Z) : M W bool :=
  match n with
  | O => M_ret false
  | S n' =>
      r ⇐ kill pid Sig0 ;;
      match r with
      | KillOk => sleep ;;; wait_gone n' pid
      | KillNoProcess | KillDenied => M_ret true
      end
  end.

(** Lines 282 to 304. *)
Definition stop_pid (pid : Z) (ports : list Z) : M W unit :=
  cprint (MsgStopping pid (sorted_ints ports)) ColorC ;;;
  kill_unless_gone pid SIGTERM ;;;
  left_by_break ⇐ wait_gone 30 pid ;;
  if left_by_break : bool then cprint MsgStopped ColorG
  else
    r ⇐ kill pid Sig0 ;;
    match r with
    | KillOk =>
        cprint MsgForceKilling ColorY ;;;
        kill_unless_gone pid SIGKILL ;;;
        cprint MsgStopped ColorG
    | KillNoProcess | KillDenied => cprint MsgStopped ColorG
    end.

(** [servers=[s for s in servers if s[1]==args.port]] when a port is given. *)
Definition filter_port (port : option Z) (servers : list (Z * Z)) : list (Z * Z) :=
  match port with
  | Some p => filter (λ s, s.2 = p) servers
  | None => servers
  end.

Definition server_stop (args : Args) : M W unit :=
  servers ⇐ discover ;;
  match servers with
  | [] => cprint MsgNoRunning ColorY
  | _ =>
      let servers := filter_port (a_port args) servers in
      match servers with
      | [] => cprint MsgNoServerOnPort ColorY
      | _ =>
          let grouped := group_by_pid servers in
          if (1 <? List.length grouped)%nat then
            cprint MsgAmbiguousStop ColorY ;;;
            print_groups grouped ;;;
            match a_port args with
            | None => cprint MsgHintPort ColorC
            | Some _ => M_ret ()
            end
          else
            match grouped with
            | (pid, ports) :: _ => stop_pid pid ports
            | [] => raise StopIteration
            end
      end
  end.

(** *** server_status *)

(** Lines 324 to 333. *)
Definition report_running (args : Args) (pid : Z) (ports : list Z) : M W unit :=
  cprint (MsgRunning pid (sorted_ints ports)) ColorG ;;;
  match ports with
  | [port] =>
      sleep ;;;
      r ⇐ urlopen (a_bind args) port (a_timeout args) ;;
      match r with
      | inl status => cprint (MsgHealthOK status) ColorG
      | inr e =>
          cprint (MsgHealthFailed e) ColorR ;;;
          cprint MsgPossibleCauses ColorY
      end
  | _ => M_ret ()
  end.

Definition server_status (args : Args) : M W unit :=
  servers ⇐ discover ;;
  match servers with
  | [] => cprint MsgNotRunning ColorR
  | _ =>
      let servers := filter_port (a_port args) servers in
      match servers with
      | [] => cprint MsgNotRunningOnPort ColorR
      | _ =>
          let grouped := group_by_pid servers in
          if (1 <? List.length grouped)%nat && bool_decide (a_port args = None) then
            cprint MsgMultipleServers ColorY ;;;
            print_groups grouped ;;;
            cprint MsgSpecifyPort ColorC
          else
            match grouped with
            | (pid, ports) :: _ => report_running args pid ports
            | [] => raise IndexError
            end
      end
  end.

(** *** server_restart and main *)

Definition server_restart (args : Args) : M W unit :=
  server_stop args ;;; server_start args.

(** [main] from the point where [parse_args] has returned; [--no-color]
    only changes what the attributes of [Color] hold. *)
Definition main (args : Args) : M W unit :=
  if String.eqb (a_cmd args) "start" then server_start args
  else if String.eqb (a_cmd args) "stop" then server_stop args
  else if String.eqb (a_cmd args) "status" then server_status args
  else if String.eqb (a_cmd args) "restart" then server_restart args
  else cprint MsgUnknownCommand NoColor ;;; sys_exit 2.

End Lifecycle.

(** ** What discovery is to compute, in the words of the specification *)

Section DiscoverySpec.
Context `{PyBuiltins}.

(** A row of a socket table that describes a socket in listening state
    with the given inode and local port: at least ten columns, state
    [0A], a local address [ip:port] with the port in hexadecimal, and the
    inode in the tenth column. *)
Definition listening_row (line : string) (inode port : Z) : Prop :=
  ∃ local ino ip phex,
    (10 ≤ List.length (py_split line))%nat ∧
    py_split line !! 1%nat = Some local ∧
    py_split line !! 3%nat = Some "0A" ∧
    py_split line !! 9%nat = Some ino ∧
    split_on ":" local = [ip; phex] ∧
    py_int16 phex = Some port ∧
    py_int ino = Some inode.

(** The rows of a table after its header line. *)
Definition table_rows (t : table_file) : list string :=
  match t with
  | TableLines (_header :: rows) => rows
  | _ => []
  end.

(** The rows of both tables, IPv4 first. *)
Definition all_rows (fs : procfs) : list string :=
  table_rows (net_tcp fs) ++ table_rows (net_tcp6 fs).

(** The listening-socket table maps [inode] to [port]: a row says so, and
    no later row is a listening row of the same inode (last write wins). *)
Definition table_maps (fs : procfs) (inode port : Z) : Prop :=
  ∃ before line after,
    all_rows fs = before ++ line :: after ∧
    listening_row line inode port ∧
    ∀ later p, later ∈ after → ¬ listening_row later inode p.






(** The table is missing or denied, or it is read, as text, and starts
    with its header line. *)
Definition has_header (t : table_file) : Prop :=
  match t with
  | TableMissing | TableDenied | TableLines (_ :: _) => True
  | TableLines [] | TableUndecodable | TableFails => False
  end.

(** [int] reads the name of the entry, if [isdigit] accepts it: the
    kernel names the directory of a process by the decimal digits of its
    pid. *)
Definition name_read (d : proc_entry) : Prop :=
  py_isdigit (d_name d) = true → is_Some (py_int (d_name d)).

Definition names_read (fs : procfs) : Prop := Forall name_read (proc_dirs fs).

(** The state without everything discovery is to skip: a table that is
    missing or denied becomes a table with no rows, rows that add nothing
    (short, malformed, not listening) are dropped, processes whose
    command line or descriptor directory cannot be read are dropped, and
    so are descriptors whose link cannot be read. *)
Definition scrub_table (t : table_file) : table_file :=
  match t with
  | TableMissing | TableDenied => TableLines [""]
  | TableLines [] => TableLines []
  | TableLines (header :: rows) =>
      TableLines (header :: filter (λ r, is_Some (parse_row r)) rows)
  | TableUndecodable => TableUndecodable
  | TableFails => TableFails
  end.

Definition scrub_entry (d : proc_entry) : option proc_entry :=
  match d_cmdline d, d_fd d with
  | Some raw, Some fds =>
      Some {| d_name := d_name d; d_cmdline := Some raw;
              d_fd := Some (filter is_Some fds) |}
  | _, _ => None
  end.

Definition scrub (fs : procfs) : procfs :=
  {| net_tcp := scrub_table (net_tcp fs);
     net_tcp6 := scrub_table (net_tcp6 fs);
     proc_dirs := omap scrub_entry (proc_dirs fs) |}.

End DiscoverySpec.

(** ** A scripted world, on which the controller can be run *)

Record sim := Sim {
  sim_files : list path;          (* the files that exist *)
  sim_dirs : list path;           (* the directories that exist *)
  sim_scans : list procfs;        (* what the coming scans find; the last one stays *)
  sim_kills : list kill_result;   (* the coming answers of os.kill; then no such process *)
  sim_connect : res bool;
  sim_fork : res Z;
  sim_http : Z + string;
}.

Definition empty_procfs : procfs :=
  {| net_tcp := TableMissing; net_tcp6 := TableMissing; proc_dirs := [] |}.

Definition dirname (p : path) : path :=
  let fix skip (l : list ascii) : list ascii :=
    match l with
    | [] => []
    | c :: l' => if Ascii.eqb c "/" then l' else skip l'
    end in
  string_of_list_ascii (rev (skip (rev (list_ascii_of_string p)))).

Definition sim_os : OS sim := {|
  os_resolve := λ _ s, s;
  os_parent := dirname;
  os_exists := λ w p, bool_decide (p ∈ sim_files w) || bool_decide (p ∈ sim_dirs w);
  os_is_dir := λ w p, bool_decide (p ∈ sim_dirs w);
  os_mkdir_parents := λ p w,
    (true, Sim (sim_files w) (p :: sim_dirs w) (sim_scans w) (sim_kills w)
               (sim_connect w) (sim_fork w) (sim_http w));
  os_replace := λ src dst w,
    if bool_decide (src ∈ sim_files w) then
      (true, Sim (dst :: filter (λ f, f ≠ src) (sim_files w)) (sim_dirs w)
                 (sim_scans w) (sim_kills w) (sim_connect w) (sim_fork w) (sim_http w))
    else (false, w);
  os_proc := λ w,
    match sim_scans w with
    | [] => (empty_procfs, w)
    | [fs] => (fs, w)
    | fs :: rest =>
        (fs, Sim (sim_files w) (sim_dirs w) rest (sim_kills w)
                 (sim_connect w) (sim_fork w) (sim_http w))
    end;
  os_kill := λ _ _ w,
    match sim_kills w with
    | [] => (KillNoProcess, w)
    | r :: rest =>
        (r, Sim (sim_files w) (sim_dirs w) (sim_scans w) rest
                (sim_connect w) (sim_fork w) (sim_http w))
    end;
  os_sleep := λ w, w;
  os_connect_ex := λ _ _ w, (sim_connect w, w);
  os_fork := λ w, (sim_fork w, w);
  os_child := λ s w,
    match s with
    | BindServer _ _ => (match sim_connect w with Ret true => false | _ => true end, w)
    | _ => (true, w)
    end;
  os_serve_forever := λ w, (ServeKilled 15, w);
  os_urlopen := λ _ _ _ w, (sim_http w, w);
|}.

(** *** Example states *)

(** A row of [/proc/net/tcp] with the given inode, state and local port. *)
Definition tcp_row (inode st port : string) : string :=
  String.concat ""
    ["   0: 00000000:"; port; " 00000000:0000 "; st;
     " 00000000:00000000 00:00000000 00000000     0        0 "; inode;
     " 1 0000000000000000 100 0 0 10 0"].

Definition tcp_header : string :=
  "  sl  local_address rem_address   st tx_queue rx_queue tr tm->when retrnsmt   uid  timeout inode".

(** The name [²] (U+00B2): [isdigit] accepts it, [int] refuses it. *)
Definition superscript_two : string := String (ascii_of_nat 178) "".

(** The command line of a managed instance, as [/proc/<pid>/cmdline] keeps it. *)
Definition managed_cmdline : string :=
  String.concat (String NUL "") ["python3"; "http_server.py"; "start"; ""].

Definition process (name : string) (fds : list (option string)) : proc_entry :=
  {| d_name := name; d_cmdline := Some managed_cmdline; d_fd := Some fds |}.

(** The table of the specification's example: inode 111 listens on port
    8000, inode 222 has port 8000 in a state that is not listening. *)
Definition example_tables (dirs : list proc_entry) : procfs :=
  {| net_tcp := TableLines [tcp_header; tcp_row "111" "0A" "1F40";
                            tcp_row "222" "01" "1F40"];
     net_tcp6 := TableMissing;
     proc_dirs := dirs |}.

(** One listening socket per given [(inode, port)], and the given processes. *)
Definition listening (socks : list (string * string)) (dirs : list proc_entry) : procfs :=
  {| net_tcp := TableLines (tcp_header :: ((λ s, tcp_row s.1 "0A" s.2) <$> socks));
     net_tcp6 := TableMissing;
     proc_dirs := dirs |}.

Definition example_args (cmd : string) (port : option Z) : Args :=
  {| a_cmd := cmd; a_port := port; a_bind := "0.0.0.0"; a_dir := "/srv/IMAGES";
     a_log_file := "/srv/IMAGES/.images_http.log"; a_no_color := false;
     a_timeout := 3000 |}.

(** Two managed processes, 1 and 2, each listening on port 8000 through a
    socket of its own. *)
Definition two_servers : procfs :=
  listening [("111", "1F40"); ("112", "1F40")]
    [process "1" [Some "socket:[111]"]; process "2" [Some "socket:[112]"]].

(** One managed process, 4242, listening on the port given in hexadecimal. *)
Definition one_server (port : string) : procfs :=
  listening [("111", port)] [process "4242" [Some "/dev/null"; Some "socket:[111]"]].

(** Some other program listens on port 8000; no managed process runs. *)
Definition no_server : procfs :=
  listening [("333", "1F40")]
    [ {| d_name := "900"; d_cmdline := Some "nginx"; d_fd := Some [Some "socket:[333]"] |} ].

(** The controller on the scripted world. *)
Definition sim_main (args : Args) (w : sim) : run sim () :=
  @main plain_builtins sim sim_os args w.
Definition sim_start (args : Args) (w : sim) : run sim () :=
  @server_start plain_builtins sim sim_os args w.
Definition sim_stop (args : Args) (w : sim) : run sim () :=
  @server_stop plain_builtins sim sim_os args w.
Definition sim_status (args : Args) (w : sim) : run sim () :=
  @server_status plain_builtins sim sim_os args w.

(** Arguments that put the log outside the serve directory. *)
Definition log_elsewhere_args : Args :=
  {| a_cmd := "start"; a_port := None; a_bind := "127.0.0.1";
     a_dir := "/srv/IMAGES"; a_log_file := "/var/log/http.log";
     a_no_color := false; a_timeout := 3000 |}.

(** ** Vocabulary of the statements *)

Section DiscoveryVocabulary.
Context `{PyBuiltins}.

(** The pairs an entry contributes. *)
Definition found_in (m : gmap Z Z) (d : proc_entry) : list (Z * Z) :=
  match scan_process m d with
  | Ret found => found
  | _ => []
  end.

(** The last listening row of [inode] among [rows] gives [port]. *)
Definition last_row (rows : list string) (inode port : Z) : Prop :=
  ∃ before line after,
    rows = before ++ line :: after ∧
    listening_row line inode port ∧
    ∀ later p, later ∈ after → ¬ listening_row later inode p.

End DiscoveryVocabulary.

(** The ports a grouping records for a pid. *)
Fixpoint ports_of (grouped : list (Z * list Z)) (pid : Z) : list Z :=
  match grouped with
  | [] => []
  | (k, pl) :: rest => if decide (k = pid) then pl else ports_of rest pid
  end.

(** ** What a trace holds *)

(** The calls of [os.kill] in a trace, the results of its discoveries and
    forks, its sleeps, and what it prints. *)
Definition kills (t : list event) : list (Z * signal * kill_result) :=
  omap (λ e, match e with EvKill pid s k => Some (pid, s, k) | _ => None end) t.
Definition discoveries (t : list event) : list (res (list (Z * Z))) :=
  omap (λ e, match e with EvDiscover r => Some r | _ => None end) t.
Definition forks (t : list event) : list (res Z) :=
  omap (λ e, match e with EvFork r => Some r | _ => None end) t.
Definition sleeps (t : list event) : list () :=
  omap (λ e, match e with EvSleep => Some () | _ => None end) t.
Definition prints (t : list event) : list (message * color) :=
  omap (λ e, match e with EvPrint m c => Some (m, c) | _ => None end) t.
Definition probes (t : list event) : list (res bool) :=
  omap (λ e, match e with EvConnect _ _ r => Some r | _ => None end) t.

(** The line of the listing for one entry of the grouping. *)
Definition listing_line (g : Z * list Z) : event :=
  EvPrint (MsgPidPorts g.1 (sorted_ints g.2)) ColorY.

(** [j] rounds of the disappearance poll that find the process alive. *)
Definition polls (pid : Z) (j : nat) : list event :=
  mjoin (replicate j [EvKill pid Sig0 KillOk; EvSleep]).

(** The runs of [stop_pid] after a SIGTERM that was not refused: the
    process is found gone at one of the 31 liveness checks, or it is alive
    at all of them and SIGKILL is sent. *)
Definition stop_shape (pid : Z) (rest : list event) (out : res ()) : Prop :=
  (∃ j g, (j ≤ 30)%nat ∧ g ≠ KillOk ∧
     rest = polls pid j ++ [EvKill pid Sig0 g; EvPrint MsgStopped ColorG] ∧
     out = Ret ())
  ∨
  (∃ k,
     rest = polls pid 30 ++
            [EvKill pid Sig0 KillOk; EvPrint MsgForceKilling ColorY;
             EvKill pid SIGKILL k] ++
            match k with
            | KillDenied => []
            | _ => [EvPrint MsgStopped ColorG]
            end ∧
     out = match k with
           | KillDenied => Raise PermissionError
           | _ => Ret ()
           end).

(** The liveness checks [os.kill(pid, 0)] of a trace. *)
Definition checks (t : list event) : list kill_result :=
  omap (λ e, match e with EvKill _ Sig0 k => Some k | _ => None end) t.

(** An event of the legacy log relocation. *)
Definition is_migration (e : event) : Prop :=
  match e with
  | EvMkdir _ _ | EvReplace _ _ _ => True
  | _ => False
  end.

(** An event of the detached child. *)
Definition is_child_event (e : event) : Prop :=
  match e with
  | EvChild _ _ | EvPrint (MsgBindFailed _ _) _ => True
  | _ => False
  end.

(** A discovery that returns a list without the port. *)
Definition misses (port : Z) (dr : res (list (Z * Z))) : Prop :=
  ∃ servers, dr = Ret servers ∧ port ∉ servers.*2.

(** ** parse_args, from the point where argparse has returned *)

Definition SUBCOMMANDS : list string :=
  ["start"; "stop"; "status"; "restart"; "help"].

(** What lines 104 to 125 write. *)
Inductive help_output :=
  | OutHelpText                         (* print(HELP_TEXT) *)
  | OutUnknownTopic (topic : string)    (* Unknown topic: .. *)
  | OutHelpUsage                        (* Usage: http_server.py help [subcommand] .. *)
  | OutTopicHelp (topic : string).      (* topic_parser.print_help(sys.stdout) *)

(** The part of the namespace of [parser.parse_args(argv)] that lines 104
    to 127 read: the subcommand, if one was given, and the topic of
    [help], if one was given. *)
Record namespace := {
  n_cmd : option string;
  n_topic : option string;
}.

(** Lines 104 to 127: what is written, and whether the namespace is
    returned or the interpreter exits. *)
Definition parse_args (args : namespace) : list help_output * res namespace :=
  match n_cmd args with
  | None => ([OutHelpText], Exit 0)
  | Some cmd =>
      if String.eqb cmd "help" then
        match n_topic args with
        | None => ([OutHelpText], Exit 0)
        | Some topic =>
            if negb (nonempty topic) then ([OutHelpText], Exit 0)
            else if negb (bool_decide (topic ∈ SUBCOMMANDS)) then
              ([OutUnknownTopic topic], Exit 2)
            else if String.eqb topic "help" then ([OutHelpUsage], Exit 0)
            else ([OutTopicHelp topic], Exit 0)
        end
      else ([], Ret args)
  end.

(** ** More of what a trace holds *)

(** The changes to the file system, the HTTP requests and the steps of the
    child in a trace. *)
Definition moves (t : list event) : list event :=
  omap (λ e, match e with
             | EvMkdir _ _ | EvReplace _ _ _ => Some e
             | _ => None
             end) t.
Definition requests (t : list event) : list (string * Z * (Z + string)) :=
  omap (λ e, match e with EvUrlopen b p r => Some (b, p, r) | _ => None end) t.
Definition child_steps (t : list event) : list (child_step * bool) :=
  omap (λ e, match e with EvChild s ok => Some (s, ok) | _ => None end) t.

(** The steps of the detached child in the order of lines 229 to 259. *)
Definition child_plan (args : Args) (port : Z) (serve_dir log_file : path)
    (parent : path) : list child_step :=
  [Setsid; Chdir serve_dir; OpenLog log_file; Dup2 1; Dup2 2; ReopenStdin;
   MkdirLogParent parent; BindServer (a_bind args) port; ServeForever;
   ServerClose].

(** The pairs a grouping stands for. *)
Definition ungroup (grouped : list (Z * list Z)) : list (Z * Z) :=
  grouped ≫= λ g, (λ port, (g.1, port)) <$> g.2.

(** What a run of [stop] does besides scanning: it prints, sleeps, and
    calls [os.kill] on the one pid. *)
Definition is_stop_event (pid : Z) (e : event) : Prop :=
  match e with
  | EvKill p _ _ => p = pid
  | EvSleep | EvPrint _ _ => True
  | _ => False
  end.

(** What the confirmation poll does: it scans, sleeps and prints. *)
Definition is_poll_event (e : event) : Prop :=
  match e with
  | EvDiscover _ | EvSleep | EvPrint _ _ => True
  | _ => False
  end.

(** What [status] does after its scan: it prints, sleeps and sends a
    request. *)
Definition is_status_event (e : event) : Prop :=
  match e with
  | EvPrint _ _ | EvSleep | EvUrlopen _ _ _ => True
  | _ => False
  end.

(** The report of lines 329 to 333 on the answer to the request. *)
Definition health_report (r : Z + string) : list event :=
  match r with
  | inl status => [EvPrint (MsgHealthOK status) ColorG]
  | inr e => [EvPrint (MsgHealthFailed e) ColorR; EvPrint MsgPossibleCauses ColorY]
  end.

(** What happens after the fork: the parent polls, the child takes its
    steps. *)
Definition is_after_fork_event (e : event) : Prop :=
  is_poll_event e ∨ is_child_event e.

(** The first socket table that is not missing, denied or read with its
    header line is [t]. *)
Definition table_read_fails (fs : procfs) (t : table_file) : Prop :=
  net_tcp fs = t ∨ (has_header (net_tcp fs) ∧ net_tcp6 fs = t).

(** *** More example states *)

(** Inode 222 has port 8000 in a state that is not listening; process 7
    holds it. *)
Definition idle_tables : procfs :=
  {| net_tcp := TableLines [tcp_header; tcp_row "222" "01" "1F40"];
     net_tcp6 := TableMissing;
     proc_dirs := [process "7" [Some "socket:[222]"]] |}.

(** Both tables list inode 111, with port 8000 for IPv4 and port 8080 for
    IPv6; inode 112 is in the IPv4 table only. *)
Definition dual_stack : procfs :=
  {| net_tcp := TableLines [tcp_header; tcp_row "111" "0A" "1F40";
                            tcp_row "112" "0A" "2328"];
     net_tcp6 := TableLines [tcp_header; tcp_row "111" "0A" "1F90"];
     proc_dirs := [process "4242" [Some "socket:[111]"; Some "socket:[112]"]] |}.

(** One managed process, 4242, listening on ports 8080 and 8000. *)
Definition one_server_two_ports : procfs :=
  listening [("111", "1F90"); ("112", "1F40")]
    [process "4242" [Some "socket:[111]"; Some "socket:[112]"]].


(** * Properties of discovery *)

Global Instance tuple_le_total : Total tuple_le.
Proof. intros [a b] [c d]. unfold tuple_le; simpl. lia. Qed.

Global Instance tuple_le_trans : Transitive tuple_le.
Proof. intros [a b] [c d] [e f]. unfold tuple_le; simpl. lia. Qed.

Section DiscoveryProofs.
Context `{PyBuiltins}.

Lemma add_row_skip m line : parse_row line = None → add_row m line = m.
Proof. unfold add_row. by intros ->. Qed.

Lemma foldl_add_row_filter rows : ∀ m,
  foldl add_row m (filter (λ r, is_Some (parse_row r)) rows) = foldl add_row m rows.
Proof.
  induction rows as [|r rows IH]; intros m; [done|].
  rewrite filter_cons. destruct (decide (is_Some (parse_row r))) as [Hs|Hn]; simpl.
  - apply IH.
  - rewrite add_row_skip; [apply IH|].
    destruct (parse_row r); [|done]. exfalso; apply Hn; eauto.
Qed.

Lemma read_table_scrub t m : read_table (scrub_table t) m = read_table t m.
Proof.
  destruct t as [| |[|h rows]| |]; simpl; try done.
  by rewrite foldl_add_row_filter.
Qed.

Lemma read_tables_scrub fs : read_tables (scrub fs) = read_tables fs.
Proof.
  unfold read_tables, scrub; simpl. rewrite read_table_scrub.
  destruct (read_table (net_tcp fs) ∅); simpl; try done.
  apply read_table_scrub.
Qed.

Lemma read_table_header t m :
  has_header t → read_table t m = Ret (foldl add_row m (table_rows t)).
Proof. destruct t as [| |[|h rows]| |]; simpl; done. Qed.

Lemma read_tables_header fs :
  has_header (net_tcp fs) → has_header (net_tcp6 fs) →
  read_tables fs = Ret (foldl add_row ∅ (all_rows fs)).
Proof.
  intros H4 H6. unfold read_tables, all_rows.
  rewrite (read_table_header _ _ H4); simpl.
  rewrite (read_table_header _ _ H6). by rewrite foldl_app.
Qed.

Lemma scan_fds_filter m fds : ∀ seen,
  foldl (add_fd m) seen (filter is_Some fds) = foldl (add_fd m) seen fds.
Proof.
  induction fds as [|fd fds IH]; intros seen; [done|].
  rewrite filter_cons. destruct (decide (is_Some fd)) as [Hs|Hn]; simpl; [apply IH|].
  destruct fd; [exfalso; apply Hn; eauto|]. apply IH.
Qed.

Lemma scan_process_scrub m d d' :
  scrub_entry d = Some d' → scan_process m d' = scan_process m d.
Proof.
  unfold scrub_entry, scan_process.
  destruct (d_cmdline d) as [raw|] eqn:Hc; [|done].
  destruct (d_fd d) as [fds|] eqn:Hf; [|done].
  intros [= <-]; simpl. unfold scan_fds. by rewrite scan_fds_filter.
Qed.

Lemma scan_process_unreadable m d :
  name_read d → scrub_entry d = None → scan_process m d = Ret [].
Proof.
  intros Hint. unfold scrub_entry, scan_process.
  destruct (py_isdigit (d_name d)) eqn:Hd; simpl; [|done].
  destruct (Hint Hd) as [pid ->].
  destruct (d_cmdline d) as [raw|]; [|done].
  destruct (d_fd d) as [fds|]; [done|]. intros _.
  destruct (is_managed raw); simpl; [|done].
  by rewrite elements_empty.
Qed.

Lemma scan_process_total m d :
  name_read d → ∃ found, scan_process m d = Ret found.
Proof.
  intros Hint. unfold scan_process.
  destruct (py_isdigit (d_name d)) eqn:Hd; simpl; [|eauto].
  destruct (Hint Hd) as [pid ->].
  destruct (d_cmdline d) as [raw|]; [|eauto].
  destruct (is_managed raw); simpl; eauto.
Qed.

Lemma scan_processes_found m ds : ∀ results,
  Forall name_read ds →
  scan_processes m ds results = Ret (results ++ ds ≫= found_in m).
Proof.
  induction ds as [|d ds IH]; intros results Hint.
  - simpl. by rewrite app_nil_r.
  - apply Forall_cons in Hint as [Hd Hds].
    rewrite bind_cons. cbn [scan_processes]. unfold found_in at 1.
    destruct (scan_process_total m d Hd) as [found ->]; simpl.
    rewrite IH by done. by rewrite <-(assoc_L (++)).
Qed.

Lemma scan_processes_scrub m ds : ∀ results,
  Forall name_read ds →
  scan_processes m (omap scrub_entry ds) results = scan_processes m ds results.
Proof.
  induction ds as [|d ds IH]; intros results Hint; [done|].
  apply Forall_cons in Hint as [Hname Hds].
  simpl. destruct (scrub_entry d) as [d'|] eqn:Hd; simpl.
  - rewrite (scan_process_scrub _ _ _ Hd).
    destruct (scan_process m d); simpl; try done. by apply IH.
  - rewrite (scan_process_unreadable _ _ Hname Hd); simpl.
    rewrite app_nil_r. by apply IH.
Qed.

Lemma discover_servers_scrub fs :
  names_read fs → discover_servers (scrub fs) = discover_servers fs.
Proof.
  intros Hint. unfold discover_servers. rewrite read_tables_scrub.
  destruct (read_tables fs) as [m| |]; simpl; try done.
  destruct (decide (m = ∅)); [done|].
  by rewrite scan_processes_scrub.
Qed.

Lemma discover_servers_results fs :
  names_read fs → has_header (net_tcp fs) → has_header (net_tcp6 fs) →
  let m := foldl add_row ∅ (all_rows fs) in
  discover_servers fs =
    Ret (if decide (m = ∅) then [] else sorted (proc_dirs fs ≫= found_in m)).
Proof.
  intros Hint H4 H6 m. unfold discover_servers.
  rewrite (read_tables_header _ H4 H6); simpl. fold m.
  destruct (decide (m = ∅)); [done|].
  by rewrite scan_processes_found.
Qed.

End DiscoveryProofs.

Section DiscoveryCharacterisation.
Context `{PyBuiltins}.

Lemma parse_row_spec line inode port :
  parse_row line = Some (inode, port) ↔ listening_row line inode port.
Proof.
  unfold parse_row, listening_row. split.
  - destruct (List.length (py_split line) <? 10)%nat eqn:Hlen; [done|].
    apply Nat.ltb_ge in Hlen.
    destruct (py_split line !! 1%nat) as [local|]; [|done].
    destruct (py_split line !! 3%nat) as [st|]; [|done].
    destruct (py_split line !! 9%nat) as [ino|]; [|done].
    destruct (String.eqb st "0A") eqn:Hst; [|done]. apply String.eqb_eq in Hst as ->.
    simpl. destruct (split_on ":" local) as [|ip [|phex [|]]] eqn:Hsp; try done.
    destruct (py_int16 phex) as [p|] eqn:Hp; [|done].
    destruct (py_int ino) as [i|] eqn:Hi; [|done].
    intros [= <- <-]. exists local, ino, ip, phex. done.
  - intros (local & ino & ip & phex & Hlen & -> & -> & -> & -> & -> & ->).
    apply Nat.ltb_ge in Hlen as ->. done.
Qed.

Lemma parse_row_not_listening line inode :
  (∀ p, ¬ listening_row line inode p) →
  ∀ m, add_row m line !! inode = m !! inode.
Proof.
  intros Hno m. unfold add_row.
  destruct (parse_row line) as [[i p]|] eqn:Hrow; [|done].
  apply parse_row_spec in Hrow.
  rewrite lookup_insert_ne; [done|]. intros ->. by eapply Hno.
Qed.

Lemma last_row_snoc_miss rows r inode port :
  (∀ p, ¬ listening_row r inode p) →
  last_row (rows ++ [r]) inode port ↔ last_row rows inode port.
Proof.
  intros Hno. split.
  - intros (before & line & after & Heq & Hrow & Hlater).
    destruct after as [|a after _] using rev_ind.
    + apply app_inj_tail in Heq as [_ ->]. by destruct (Hno port).
    + rewrite app_comm_cons, (assoc_L (++)) in Heq.
      apply app_inj_tail in Heq as [-> _].
      exists before, line, after. split_and!; [done..|].
      intros later p Hin. apply Hlater. set_solver.
  - intros (before & line & after & -> & Hrow & Hlater).
    exists before, line, (after ++ [r]). split_and!; [|done|].
    + by rewrite <-(assoc_L (++)).
    + intros later p [Hin| ->%list_elem_of_singleton]%elem_of_app; eauto.
Qed.

Lemma last_row_snoc_hit rows r inode port p :
  listening_row r inode p →
  last_row (rows ++ [r]) inode port ↔ p = port.
Proof.
  intros Hr. split.
  - intros (before & line & after & Heq & Hrow & Hlater).
    destruct after as [|a after _] using rev_ind.
    + apply app_inj_tail in Heq as [_ ->].
      apply parse_row_spec in Hr, Hrow. congruence.
    + rewrite app_comm_cons, (assoc_L (++)) in Heq.
      apply app_inj_tail in Heq as [_ <-].
      destruct (Hlater r p); [set_solver|done].
  - intros <-. exists rows, r, []. split_and!; [done..|].
    intros later p' Hin. by apply elem_of_nil in Hin.
Qed.

Lemma inode_map_lookup rows inode port :
  foldl add_row ∅ rows !! inode = Some port ↔ last_row rows inode port.
Proof.
  induction rows as [|r rows IH] using rev_ind.
  - simpl. rewrite lookup_empty. split; [done|].
    intros (before & line & after & Heq & _). by destruct before.
  - rewrite foldl_snoc.
    destruct (parse_row r) as [[i p]|] eqn:Hrow.
    + destruct (decide (i = inode)) as [->|Hne].
      * apply parse_row_spec in Hrow as Hr.
        rewrite (last_row_snoc_hit _ _ _ _ _ Hr).
        unfold add_row. rewrite Hrow, lookup_insert_eq.
        split; [by intros [= ->]|by intros ->].
      * assert (∀ p', ¬ listening_row r inode p') as Hno.
        { intros p' Hr%parse_row_spec. congruence. }
        rewrite (last_row_snoc_miss _ _ _ _ Hno).
        by rewrite parse_row_not_listening.
    + assert (∀ p', ¬ listening_row r inode p') as Hno.
      { intros p' Hr%parse_row_spec. congruence. }
      rewrite (last_row_snoc_miss _ _ _ _ Hno).
      by rewrite parse_row_not_listening.
Qed.

Lemma inode_map_table fs inode port :
  foldl add_row ∅ (all_rows fs) !! inode = Some port ↔ table_maps fs inode port.
Proof. apply inode_map_lookup. Qed.







End DiscoveryCharacterisation.

Section DiscoveryTheorems.
Context `{PyBuiltins}.



(** C2 (amended): when every socket table is missing, denied or read
    with its header line, and [int] reads the name of every entry of
    [/proc] that [isdigit] accepts, discovery returns a list, whatever
    the rows and the processes are; and it returns the very list it
    returns on the state from which everything unreadable has been
    removed: a missing or denied table counts as a table without rows, a
    short or malformed row is skipped, a process whose command line or
    descriptor directory cannot be read is skipped, and so is a
    descriptor whose link cannot be read. *)
Theorem discover_servers_never_aborts (fs : procfs) :
  names_read fs →
  has_header (net_tcp fs) → has_header (net_tcp6 fs) →
  ∃ servers,
    discover_servers fs = Ret servers ∧
    discover_servers (scrub fs) = Ret servers.
Proof.
  intros Hint H4 H6. rewrite (discover_servers_scrub fs Hint).
  rewrite (discover_servers_results fs Hint H4 H6). eauto.
Qed.

End DiscoveryTheorems.

(** The plain [int] reads every string of decimal digits. *)
Lemma plain_name_read name cmdline fds :
  is_decimal name = true →
  @name_read plain_builtins {| d_name := name; d_cmdline := cmdline; d_fd := fds |}.
Proof. intros Hname _. simpl. rewrite Hname. eauto. Qed.

(** The example of the specification: a process holding the listening
    socket 111 is found once, also through two descriptors; a process
    holding only socket 222, which is not listening, is not found. *)
Example discover_example_listening :
  @discover_servers plain_builtins
    (example_tables [process "4242" [Some "/dev/null"; Some "socket:[111]"]])
  = Ret [(4242, 8000)].
Proof. vm_compute. reflexivity. Qed.

Example discover_example_two_descriptors :
  @discover_servers plain_builtins
    (example_tables [process "4242" [Some "socket:[111]"; Some "socket:[111]"]])
  = Ret [(4242, 8000)].
Proof. vm_compute. reflexivity. Qed.

Example discover_example_not_listening :
  @discover_servers plain_builtins
    (example_tables [process "4242" [Some "/dev/null"; Some "socket:[222]"]])
  = Ret [].
Proof. vm_compute. reflexivity. Qed.




(** On a state that meets the conditions of
    [discover_servers_sorted_pairs], a listening row on port 0 adds
    nothing: the guard [if port:] of line 168 takes the port 0 for a
    missing entry of the map. *)
Example discover_example_port_zero :
  @discover_servers plain_builtins
    (listening [("111", "0000")] [process "4242" [Some "socket:[111]"]])
  = Ret [].
Proof. vm_compute. reflexivity. Qed.

(** A state on which [discover_servers_never_aborts] applies. *)
Lemma discover_servers_never_aborts_witness :
  let fs := {| net_tcp := TableDenied;
               net_tcp6 := TableLines [tcp_header; "short row"; tcp_row "111" "0A" "1F40"];
               proc_dirs := [ {| d_name := "7"; d_cmdline := None; d_fd := None |};
                              process "4242" [None; Some "socket:[111]"] ] |} in
  (@names_read plain_builtins fs ∧
   has_header (net_tcp fs) ∧ has_header (net_tcp6 fs)) ∧
  ∃ servers,
    @discover_servers plain_builtins fs = Ret servers ∧
    @discover_servers plain_builtins (@scrub plain_builtins fs) = Ret servers.
Proof.
  intros fs.
  assert (@names_read plain_builtins fs) as Hn
    by (repeat constructor; by apply plain_name_read).
  assert (has_header (net_tcp fs)) as H4 by exact I.
  assert (has_header (net_tcp6 fs)) as H6 by exact I.
  split; [split_and!; done|].
  exact (@discover_servers_never_aborts plain_builtins fs Hn H4 H6).
Defined.

(** C2, as stated, fails: a socket table that opens but holds no line at
    all, not even the header, makes [next(f)] raise [StopIteration]; a
    socket table that is no text makes the reading raise
    [UnicodeDecodeError]; and the name of an entry of [/proc] that
    [isdigit] accepts and [int] refuses makes [int(d.name)] raise
    [ValueError].  Nothing catches any of the three. *)
Lemma discover_servers_aborts :
  @discover_servers plain_builtins
    {| net_tcp := TableLines []; net_tcp6 := TableMissing; proc_dirs := [] |}
  = Raise StopIteration ∧
  @discover_servers plain_builtins
    {| net_tcp := TableMissing; net_tcp6 := TableUndecodable; proc_dirs := [] |}
  = Raise UnicodeDecodeError ∧
  @discover_servers plain_builtins
    (example_tables [ {| d_name := superscript_two; d_cmdline := None;
                         d_fd := None |} ])
  = Raise ValueError.
Proof. split_and!; vm_compute; reflexivity. Qed.

(** * Properties of the lifecycle controller *)

(** ** Grouping by pid *)

Lemma setdefault_append_keys grouped spid port :
  (setdefault_append grouped spid port).*1 =
    if decide (spid ∈ grouped.*1) then grouped.*1 else grouped.*1 ++ [spid].
Proof.
  induction grouped as [|[k pl] rest IH]; cbn [setdefault_append fmap list_fmap fst].
  - case_decide as Hin; [by apply elem_of_nil in Hin|done].
  - destruct (decide (k = spid)) as [->|Hne]; cbn [fmap list_fmap fst].
    + clear IH. case_decide as Hin; [done|]. destruct Hin. left.
    + rewrite IH. clear IH.
      repeat case_decide; try done; exfalso;
        match goal with H : _ |- _ => rewrite elem_of_cons in H end;
        intuition congruence.
Qed.

Lemma setdefault_append_ports grouped spid port pid :
  ports_of (setdefault_append grouped spid port) pid =
    if decide (pid = spid) then ports_of grouped pid ++ [port]
    else ports_of grouped pid.
Proof.
  induction grouped as [|[k pl] rest IH]; cbn [setdefault_append ports_of].
  - repeat case_decide; simpl; congruence.
  - destruct (decide (k = spid)) as [->|Hne]; cbn [ports_of].
    + clear IH. repeat case_decide; simpl; congruence.
    + rewrite IH. clear IH. repeat case_decide; simpl; congruence.
Qed.

Lemma group_fold_keys servers : ∀ grouped pid,
  pid ∈ (foldl (λ g s, setdefault_append g s.1 s.2) grouped servers).*1 ↔
  pid ∈ grouped.*1 ∨ pid ∈ servers.*1.
Proof.
  induction servers as [|[spid port] servers IH]; intros grouped pid; simpl.
  - split; [auto|]. by intros [?|?%elem_of_nil].
  - rewrite IH, setdefault_append_keys, elem_of_cons.
    destruct (decide (spid ∈ grouped.*1)) as [Hin|Hnin].
    + split; [tauto|]. intros [?|[->|?]]; auto.
    + rewrite elem_of_app, list_elem_of_singleton. tauto.
Qed.

Lemma group_fold_NoDup servers : ∀ grouped,
  NoDup grouped.*1 →
  NoDup (foldl (λ g s, setdefault_append g s.1 s.2) grouped servers).*1.
Proof.
  induction servers as [|[spid port] servers IH]; intros grouped Hnd; [done|].
  simpl. apply IH. rewrite setdefault_append_keys.
  destruct (decide (spid ∈ grouped.*1)); [done|].
  apply NoDup_app. split_and!; [done| |apply NoDup_singleton].
  by intros pid Hin ->%list_elem_of_singleton.
Qed.

Lemma group_fold_ports servers pid : ∀ grouped,
  ports_of (foldl (λ g s, setdefault_append g s.1 s.2) grouped servers) pid =
  ports_of grouped pid ++ (filter (λ s, s.1 = pid) servers).*2.
Proof.
  induction servers as [|[spid port] servers IH]; intros grouped; simpl.
  - by rewrite app_nil_r.
  - rewrite IH, setdefault_append_ports, filter_cons; simpl.
    destruct (decide (pid = spid)) as [->|Hne].
    + rewrite decide_True by done. simpl. by rewrite <-(assoc_L (++)).
    + rewrite decide_False; [done|]. by intros ->.
Qed.

Lemma ports_of_elem grouped pid pl :
  NoDup grouped.*1 → (pid, pl) ∈ grouped → ports_of grouped pid = pl.
Proof.
  induction grouped as [|[k pl'] rest IH]; simpl; [by intros _ ?%elem_of_nil|].
  intros [Hk Hnd]%NoDup_cons [[= -> ->]|Hin]%elem_of_cons.
  - by rewrite decide_True.
  - rewrite decide_False; [by apply IH|].
    intros ->. apply Hk. apply list_elem_of_fmap. by exists (pid, pl).
Qed.

Lemma group_by_pid_NoDup servers : NoDup (group_by_pid servers).*1.
Proof. apply group_fold_NoDup. constructor. Qed.

(** The grouping has one entry per pid of the list, holding the ports the
    list pairs with the pid, in order. *)
Lemma group_by_pid_elem servers pid pl :
  (pid, pl) ∈ group_by_pid servers ↔
  pid ∈ servers.*1 ∧ pl = (filter (λ s, s.1 = pid) servers).*2.
Proof.
  split.
  - intros Hin. split.
    + assert (pid ∈ (group_by_pid servers).*1) as Hk.
      { apply list_elem_of_fmap. by exists (pid, pl). }
      apply group_fold_keys in Hk as [?%elem_of_nil|?]; done.
    + rewrite <-(ports_of_elem _ _ _ (group_by_pid_NoDup servers) Hin).
      unfold group_by_pid. by rewrite group_fold_ports.
  - intros [Hin ->].
    assert (pid ∈ (group_by_pid servers).*1) as Hk.
    { apply group_fold_keys. by right. }
    apply list_elem_of_fmap in Hk as ([k pl] & -> & Hk). simpl.
    assert (pl = (filter (λ s, s.1 = k) servers).*2) as <-; [|done].
    rewrite <-(ports_of_elem _ _ _ (group_by_pid_NoDup servers) Hk).
    unfold group_by_pid. by rewrite group_fold_ports.
Qed.

(** Two pairs with different pids make a grouping of more than one entry. *)
Lemma group_by_pid_ambiguous servers s1 s2 :
  s1 ∈ servers → s2 ∈ servers → s1.1 ≠ s2.1 →
  (1 <? List.length (group_by_pid servers))%nat = true.
Proof.
  intros H1 H2 Hne. apply Nat.ltb_lt.
  assert (s1.1 ∈ (group_by_pid servers).*1) as K1.
  { apply group_fold_keys. right. apply list_elem_of_fmap. by exists s1. }
  assert (s2.1 ∈ (group_by_pid servers).*1) as K2.
  { apply group_fold_keys. right. apply list_elem_of_fmap. by exists s2. }
  rewrite <-(length_fmap fst).
  destruct ((group_by_pid servers).*1) as [|a [|b l]]; simpl; [| |lia].
  - by apply elem_of_nil in K1.
  - apply list_elem_of_singleton in K1, K2. congruence.
Qed.

Lemma group_fold_single servers pid : ∀ pl,
  (∀ s, s ∈ servers → s.1 = pid) →
  foldl (λ g s, setdefault_append g s.1 s.2) [(pid, pl)] servers
  = [(pid, pl ++ servers.*2)].
Proof.
  induction servers as [|[spid port] servers IH]; intros pl Hall; simpl.
  - by rewrite app_nil_r.
  - assert (spid = pid) as -> by (apply (Hall (spid, port)); left).
    rewrite decide_True by done. rewrite IH.
    + by rewrite <-(assoc_L (++)).
    + intros s Hs. apply Hall. by right.
Qed.

(** A list whose pairs all have one pid makes a grouping of one entry. *)
Lemma group_by_pid_single servers pid :
  servers ≠ [] → (∀ s, s ∈ servers → s.1 = pid) →
  group_by_pid servers = [(pid, servers.*2)].
Proof.
  destruct servers as [|[spid port] servers]; [done|]. intros _ Hall.
  assert (spid = pid) as -> by (apply (Hall (spid, port)); left).
  unfold group_by_pid. simpl. rewrite group_fold_single; [done|].
  intros s Hs. apply Hall. by right.
Qed.

Lemma omap_step {A B} (f : A → option B) x l :
  omap f (x :: l) = match f x with Some y => y :: omap f l | None => omap f l end.
Proof. done. Qed.

Lemma omap_empty {A B} (f : A → option B) : omap f [] = [].
Proof. done. Qed.

(** Pushes a projection of a trace through its conses and appends. *)
Ltac trace_simpl :=
  repeat first [rewrite omap_app | rewrite omap_step | rewrite omap_empty];
  cbn beta iota; cbn [app].

Lemma polls_S pid j :
  polls pid (S j) = EvKill pid Sig0 KillOk :: EvSleep :: polls pid j.
Proof. done. Qed.

Lemma polls_sleeps pid j : List.length (sleeps (polls pid j)) = j.
Proof. induction j as [|j IH]; [done|]. rewrite polls_S. simpl. by rewrite IH. Qed.

Lemma polls_kills pid j :
  kills (polls pid j) = replicate j (pid, Sig0, KillOk).
Proof. induction j as [|j IH]; [done|]. rewrite polls_S. simpl. by rewrite IH. Qed.

Lemma polls_checks pid j : List.length (checks (polls pid j)) = j.
Proof. induction j as [|j IH]; [done|]. rewrite polls_S. simpl. by rewrite IH. Qed.

Lemma listing_sleeps grouped : sleeps (listing_line <$> grouped) = [].
Proof. by induction grouped. Qed.
Lemma listing_checks grouped : checks (listing_line <$> grouped) = [].
Proof. by induction grouped. Qed.
Lemma listing_kills grouped : kills (listing_line <$> grouped) = [].
Proof. by induction grouped. Qed.

Section StopProofs.
Context `{PyBuiltins} {W : Type} `{OS W}.

Lemma M_bind_unfold {A B} (m : M W A) (k : A → M W B) (w : W) :
  M_bind m k w =
    match outcome (m w) with
    | Ret a =>
        Run (outcome (k a (final (m w)))) (final (k a (final (m w))))
            (trace (m w) ++ trace (k a (final (m w))))
    | Exit c => Run (Exit c) (final (m w)) (trace (m w))
    | Raise e => Run (Raise e) (final (m w)) (trace (m w))
    end.
Proof. reflexivity. Qed.

Lemma print_groups_run grouped (w : W) :
  print_groups grouped w = Run (Ret ()) w (listing_line <$> grouped).
Proof.
  induction grouped as [|[spid pl] rest IH]; [done|].
  simpl. unfold M_bind. simpl. by rewrite IH.
Qed.

Lemma discover_run (w w' : W) fs :
  os_proc w = (fs, w') →
  discover w = Run (discover_servers fs) w' [EvDiscover (discover_servers fs)].
Proof. intros Hp. unfold discover. by rewrite Hp. Qed.

Lemma server_stop_ambiguous_run args (w w' : W) fs servers0 s1 s2 :
  os_proc w = (fs, w') →
  discover_servers fs = Ret servers0 →
  s1 ∈ filter_port (a_port args) servers0 →
  s2 ∈ filter_port (a_port args) servers0 →
  s1.1 ≠ s2.1 →
  server_stop args w =
    Run (Ret ()) w'
      (EvDiscover (Ret servers0) :: EvPrint MsgAmbiguousStop ColorY ::
       (listing_line <$> group_by_pid (filter_port (a_port args) servers0)) ++
       match a_port args with None => [EvPrint MsgHintPort ColorC] | Some _ => [] end).
Proof.
  intros Hp Hd H1 H2 Hne.
  unfold server_stop, M_bind. rewrite (discover_run _ _ _ Hp), Hd. simpl.
  destruct servers0 as [|s0 servers0]; [destruct (a_port args); by apply elem_of_nil in H1|].
  destruct (filter_port (a_port args) (s0 :: servers0)) as [|s servers] eqn:Hf;
    [by apply elem_of_nil in H1|].
  rewrite (group_by_pid_ambiguous _ _ _ H1 H2 Hne).
  simpl. rewrite print_groups_run. simpl.
  destruct (a_port args); simpl; by rewrite ?app_nil_r.
Qed.

Lemma server_status_ambiguous_run args (w w' : W) fs servers0 s1 s2 :
  os_proc w = (fs, w') →
  discover_servers fs = Ret servers0 →
  a_port args = None →
  s1 ∈ servers0 → s2 ∈ servers0 → s1.1 ≠ s2.1 →
  server_status args w =
    Run (Ret ()) w'
      (EvDiscover (Ret servers0) :: EvPrint MsgMultipleServers ColorY ::
       (listing_line <$> group_by_pid servers0) ++ [EvPrint MsgSpecifyPort ColorC]).
Proof.
  intros Hp Hd Hport H1 H2 Hne.
  unfold server_status, M_bind. rewrite (discover_run _ _ _ Hp), Hd, Hport. simpl.
  destruct servers0 as [|s0 servers0]; [by apply elem_of_nil in H1|].
  rewrite (group_by_pid_ambiguous _ _ _ H1 H2 Hne).
  simpl. by rewrite print_groups_run.
Qed.

Lemma kill_run pid s (w w1 : W) k :
  os_kill pid s w = (k, w1) → kill pid s w = Run (Ret k) w1 [EvKill pid s k].
Proof. intros Hk. unfold kill. by rewrite Hk. Qed.

Lemma kill_unless_gone_run pid s (w w1 : W) k :
  os_kill pid s w = (k, w1) →
  kill_unless_gone pid s w =
    Run (match k with KillDenied => Raise PermissionError | _ => Ret () end)
        w1 [EvKill pid s k].
Proof.
  intros Hk. unfold kill_unless_gone. rewrite M_bind_unfold, (kill_run _ _ _ _ _ Hk).
  by destruct k.
Qed.

Lemma wait_gone_run n pid : ∀ w : W,
  let r := wait_gone n pid w in
  (outcome r = Ret false ∧ trace r = polls pid n) ∨
  (∃ j g, (j < n)%nat ∧ g ≠ KillOk ∧
     outcome r = Ret true ∧ trace r = polls pid j ++ [EvKill pid Sig0 g]).
Proof.
  induction n as [|n IH]; intros w; [by left|].
  cbn [wait_gone]. destruct (os_kill pid Sig0 w) as [g w1] eqn:Hk.
  rewrite M_bind_unfold, (kill_run _ _ _ _ _ Hk). cbn [outcome final trace].
  destruct g.
  - rewrite M_bind_unfold. cbn [sleep outcome final trace].
    destruct (IH (os_sleep w1)) as [[Ho Ht]|(j & g & Hj & Hg & Ho & Ht)].
    + left. cbn. rewrite Ho, Ht. done.
    + right. exists (S j), g. cbn. rewrite Ho, Ht. split_and!; [lia|done..].
  - right. exists 0%nat, KillNoProcess. split_and!; [lia|done..].
  - right. exists 0%nat, KillDenied. split_and!; [lia|done..].
Qed.

Lemma stop_pid_run pid ports (w : W) :
  let r := stop_pid pid ports w in
  ∃ k0 rest,
    trace r = EvPrint (MsgStopping pid (sorted_ints ports)) ColorC ::
              EvKill pid SIGTERM k0 :: rest ∧
    (k0 = KillDenied → rest = [] ∧ outcome r = Raise PermissionError) ∧
    (k0 ≠ KillDenied → stop_shape pid rest (outcome r)).
Proof.
  unfold stop_pid. rewrite M_bind_unfold. cbn [cprint outcome final trace].
  destruct (os_kill pid SIGTERM w) as [k0 w1] eqn:Hk0.
  rewrite M_bind_unfold, (kill_unless_gone_run _ _ _ _ _ Hk0).
  cbn [outcome final trace]. exists k0.
  assert (k0 = KillDenied ∨ k0 ≠ KillDenied) as [->|Hk] by (destruct k0; auto).
  { exists []. cbn. split; [done|]. split; [done|]. by intros []. }
  assert (match k0 with KillDenied => Raise PermissionError | _ => Ret () end
          = @Ret () ()) as -> by (by destruct k0).
  rewrite M_bind_unfold.
  destruct (wait_gone_run 30 pid w1) as [[Ho Ht]|(j & g & Hj & Hg & Ho & Ht)];
    rewrite Ho, Ht; cbn [outcome final trace].
  - destruct (os_kill pid Sig0 (final (wait_gone 30 pid w1))) as [g w2] eqn:Hg.
    rewrite M_bind_unfold, (kill_run _ _ _ _ _ Hg). cbn [outcome final trace].
    assert (g = KillOk ∨ g ≠ KillOk) as [->|Hne] by (destruct g; auto).
    + rewrite M_bind_unfold. cbn [cprint outcome final trace].
      destruct (os_kill pid SIGKILL w2) as [k w3] eqn:Hk3.
      rewrite M_bind_unfold, (kill_unless_gone_run _ _ _ _ _ Hk3).
      eexists. split; [reflexivity|]. split; [done|]. intros _. right. exists k.
      destruct k; cbn; by rewrite <-?(assoc_L (++)).
    + eexists. split; [reflexivity|]. split; [done|].
      intros _. left. exists 30%nat, g. split_and!; [lia|done| |].
      * destruct g; try done; cbn; by rewrite <-(assoc_L (++)).
      * by destruct g.
  - eexists. split; [reflexivity|]. split; [done|]. intros _. left.
    exists j, g. split_and!; [lia|done| |done]. cbn. by rewrite <-(assoc_L (++)).
Qed.

Lemma server_stop_single_run args (w w' : W) fs servers0 pid :
  os_proc w = (fs, w') →
  discover_servers fs = Ret servers0 →
  filter_port (a_port args) servers0 ≠ [] →
  (∀ s, s ∈ filter_port (a_port args) servers0 → s.1 = pid) →
  let r := stop_pid pid (filter_port (a_port args) servers0).*2 w' in
  server_stop args w =
    Run (outcome r) (final r) (EvDiscover (Ret servers0) :: trace r).
Proof.
  intros Hp Hd Hne Hall.
  unfold server_stop. rewrite M_bind_unfold, (discover_run _ _ _ Hp), Hd.
  cbn [outcome final trace].
  destruct servers0 as [|s0 servers0]; [by destruct (a_port args)|].
  rewrite (group_by_pid_single _ _ Hne Hall).
  by destruct (filter_port (a_port args) (s0 :: servers0)).
Qed.

Lemma stop_pid_bounded pid ports (w : W) :
  (List.length (sleeps (trace (stop_pid pid ports w))) ≤ 30)%nat ∧
  (List.length (checks (trace (stop_pid pid ports w))) ≤ 31)%nat.
Proof.
  destruct (stop_pid_run pid ports w) as (k0 & rest & -> & Hden & Hok).
  assert (k0 = KillDenied ∨ k0 ≠ KillDenied) as [Hk|Hk] by (destruct k0; auto).
  - destruct (Hden Hk) as [-> _]. subst k0. simpl. lia.
  - destruct (Hok Hk) as [(j & g & Hj & _ & -> & _)|(k & -> & _)].
    + pose proof (polls_sleeps pid j) as Hs. pose proof (polls_checks pid j) as Hc.
      unfold sleeps, checks in *. trace_simpl.
      rewrite ?length_app, Hs, Hc. simpl. lia.
    + pose proof (polls_sleeps pid 30) as Hs. pose proof (polls_checks pid 30) as Hc.
      unfold sleeps, checks in *. trace_simpl.
      rewrite ?length_app, Hs, Hc. destruct k; simpl; lia.
Qed.

Lemma server_stop_bounded args (w : W) :
  (List.length (sleeps (trace (server_stop args w))) ≤ 30)%nat ∧
  (List.length (checks (trace (server_stop args w))) ≤ 31)%nat.
Proof.
  unfold server_stop. rewrite M_bind_unfold.
  destruct (os_proc w) as [fs w'] eqn:Hp. rewrite (discover_run _ _ _ Hp).
  cbn [outcome final trace].
  destruct (discover_servers fs) as [servers0| |]; [|simpl; lia..].
  cbn [outcome final trace].
  destruct servers0 as [|s0 servers0]; [simpl; lia|].
  destruct (filter_port (a_port args) (s0 :: servers0)) as [|s servers]; [simpl; lia|].
  destruct (1 <? List.length (group_by_pid (s :: servers)))%nat.
  - rewrite M_bind_unfold. cbn [cprint outcome final trace].
    rewrite M_bind_unfold, print_groups_run. cbn [outcome final trace].
    pose proof (listing_sleeps (group_by_pid (s :: servers))) as Hs.
    pose proof (listing_checks (group_by_pid (s :: servers))) as Hc.
    unfold sleeps, checks in *. trace_simpl. rewrite Hs, Hc.
    destruct (a_port args); simpl; lia.
  - destruct (group_by_pid (s :: servers)) as [|[pid ports] rest]; [simpl; lia|].
    pose proof (stop_pid_bounded pid ports w') as [Hs Hc].
    unfold sleeps, checks in *. cbn [trace]. by trace_simpl.
Qed.

Lemma report_running_kills args pid ports (w : W) :
  kills (trace (report_running args pid ports w)) = [].
Proof.
  unfold report_running. rewrite M_bind_unfold. cbn [cprint outcome final trace].
  destruct ports as [|port [|]]; [done| |done].
  rewrite M_bind_unfold. cbn [sleep outcome final trace].
  rewrite M_bind_unfold. unfold urlopen.
  destruct (os_urlopen (a_bind args) port (a_timeout args) (os_sleep w)) as [[st|e] w1];
    done.
Qed.

End StopProofs.

Lemma quiet_projection {B} (f : event → option B) (P : event → Prop) t :
  (∀ e, P e → f e = None) → Forall P t → omap f t = [].
Proof.
  intros Hf. induction 1 as [|e t He _ IH]; [done|].
  rewrite omap_step, (Hf e He). done.
Qed.

Lemma migration_quiet t :
  Forall is_migration t →
  discoveries t = [] ∧ forks t = [] ∧ sleeps t = [] ∧ probes t = [] ∧
  kills t = [] ∧ prints t = [].
Proof.
  intros Ht. split_and!; apply (quiet_projection _ is_migration); try done;
    by intros [].
Qed.

Lemma child_quiet t :
  Forall is_child_event t →
  discoveries t = [] ∧ forks t = [] ∧ sleeps t = [] ∧ kills t = [] ∧
  ∀ spid pid c,
    ((MsgStarted spid, c) ∉ prints t) ∧ ((MsgNotConfirmed pid, c) ∉ prints t).
Proof.
  intros Ht. split_and!; try (apply (quiet_projection _ is_child_event); try done;
    by intros []).
  intros spid pid c. induction Ht as [|e t He _ IH]; [split; by intros ?%elem_of_nil|].
  destruct IH as [IH1 IH2]. unfold prints in *. rewrite omap_step.
  destruct e as [m c'| | | | | | | | |]; try done.
  destruct m; try done. split; intros [?|?]%elem_of_cons; done.
Qed.

Section StartProofs.
Context `{PyBuiltins} {W : Type} `{OS W}.

Lemma bind_Forall {A B} (P : event → Prop) (m : M W A) (k : A → M W B) (w : W) :
  Forall P (trace (m w)) → (∀ a w', Forall P (trace (k a w'))) →
  Forall P (trace (M_bind m k w)).
Proof.
  intros Hm Hk. rewrite M_bind_unfold.
  destruct (outcome (m w)); cbn [trace]; [|done..].
  apply Forall_app. split; [done|apply Hk].
Qed.

Lemma migrate_log_run args lf (w : W) :
  outcome (migrate_log args lf w) = Ret () ∧
  Forall is_migration (trace (migrate_log args lf w)).
Proof.
  unfold migrate_log.
  do 3 (rewrite M_bind_unfold; cbn [read outcome final trace app]).
  match goal with |- context [if ?b then _ else _] => destruct b end.
  - rewrite !M_bind_unfold. unfold mkdir_parents.
    destruct (os_mkdir_parents (os_parent lf) w) as [ok w1].
    cbn [outcome final trace]. destruct ok.
    + rewrite M_bind_unfold. unfold replace.
      destruct (os_replace (os_resolve w ".images_http.log") lf w1) as [ok2 w2].
      cbn. split; [done|]. repeat constructor.
    + cbn. split; [done|]. repeat constructor.
  - cbn. split; [done|]. constructor.
Qed.

Lemma child_or_raise_Forall s (w : W) :
  Forall is_child_event (trace (child_or_raise s w)).
Proof.
  unfold child_or_raise. rewrite M_bind_unfold. unfold child.
  destruct (os_child s w) as [[] w1]; cbn; repeat constructor.
Qed.

Lemma child_Forall s (w : W) : Forall is_child_event (trace (child s w)).
Proof. unfold child. destruct (os_child s w) as [ok w1]. repeat constructor. Qed.

Lemma serve_child_Forall args port sd lf (w : W) :
  Forall is_child_event (trace (serve_child args port sd lf w)).
Proof.
  unfold serve_child.
  repeat (apply bind_Forall; [apply child_or_raise_Forall|intros _ ?]).
  apply bind_Forall; [apply child_Forall|intros [] ?].
  - apply bind_Forall.
    + unfold serve_forever. destruct (os_serve_forever _). by repeat constructor.
    + intros [signum|] ?; [constructor|].
      apply bind_Forall; [apply child_or_raise_Forall|intros _ ?]. constructor.
  - apply bind_Forall; [repeat constructor|intros _ ?]. constructor.
Qed.

Lemma confirm_poll_run n port pid : ∀ w : W,
  let r := confirm_poll n port pid w in
  (List.length (sleeps (trace r)) ≤ n)%nat ∧
  (List.length (discoveries (trace r)) ≤ n)%nat ∧
  forks (trace r) = [] ∧
  (Forall (misses port) (discoveries (trace r)) →
     outcome r = Ret () ∧
     last (trace r) = Some (EvPrint (MsgNotConfirmed pid) ColorY) ∧
     List.length (discoveries (trace r)) = n ∧
     ∀ spid c, (MsgStarted spid, c) ∉ prints (trace r)).
Proof.
  induction n as [|n IH]; intros w.
  - cbn. split_and!; try done. intros _. split_and!; try done.
    intros spid c Hin. apply list_elem_of_singleton in Hin. discriminate.
  - cbn [confirm_poll]. rewrite M_bind_unfold.
    destruct (os_proc w) as [fs w1] eqn:Hp. rewrite (discover_run _ _ _ Hp).
    cbn [outcome final trace].
    destruct (discover_servers fs) as [servers|c|e] eqn:Hd.
    + destruct ((filter (λ s, s.2 = port) servers).*1) as [|spid l] eqn:Hm.
      * rewrite M_bind_unfold. cbn [sleep outcome final trace].
        destruct (IH (os_sleep w1)) as (Hs & Hds & Hf & Hmiss).
        unfold sleeps, discoveries, forks, prints in *. trace_simpl.
        cbn [length]. split_and!; [lia|lia|done|].
        intros [_ Hall]%Forall_cons. destruct (Hmiss Hall) as (Ho & Hl & Hlen & Hpr).
        split_and!; [done| |lia|done].
        by rewrite !last_cons, Hl.
      * cbn. split_and!; [lia|lia|done|].
        intros [(servers' & [= <-] & Hnot) _]%Forall_cons. exfalso.
        assert (spid ∈ (filter (λ s, s.2 = port) servers).*1) as Hin
          by (rewrite Hm; left).
        apply list_elem_of_fmap in Hin as (s & _ & [Hs Hin]%list_elem_of_filter).
        apply Hnot, list_elem_of_fmap. by exists s.
    + cbn. split_and!; [lia|lia|done|].
      intros [(servers' & [=] & _) _]%Forall_cons.
    + cbn. split_and!; [lia|lia|done|].
      intros [(servers' & [=] & _) _]%Forall_cons.
Qed.

Lemma launch_run args port sd lf (w : W) :
  let r := launch args port sd lf w in
  (List.length (sleeps (trace r)) ≤ 30)%nat ∧
  (List.length (discoveries (trace r)) ≤ 30)%nat ∧
  ∀ pid, Ret pid ∈ forks (trace r) → pid > 0 →
    Forall (misses port) (discoveries (trace r)) →
    outcome r = Ret () ∧
    last (trace r) = Some (EvPrint (MsgNotConfirmed pid) ColorY) ∧
    List.length (discoveries (trace r)) = 30%nat ∧
    ∀ spid c, (MsgStarted spid, c) ∉ prints (trace r).
Proof.
  unfold launch. rewrite M_bind_unfold. unfold connect_ex.
  destruct (os_connect_ex (a_bind args) port w) as [cr w1].
  cbn [outcome final trace].
  destruct cr as [[]|c|e];
    [|
     |cbn; split_and!; [lia|lia|by intros pid ?%elem_of_nil]..].
  { rewrite M_bind_unfold. cbn. split_and!; [lia|lia|by intros pid ?%elem_of_nil]. }
  rewrite M_bind_unfold.
  set (warn := if (a_bind args =? "0.0.0.0")%string
               then cprint MsgWarnAllInterfaces ColorY else M_ret ()).
  assert (∃ t, warn w1 = Run (Ret ()) w1 t ∧
               sleeps t = [] ∧ discoveries t = [] ∧ forks t = [] ∧
               (∀ spid c, (MsgStarted spid, c) ∉ prints t)) as (t & -> & Hws & Hwd & Hwf & Hwp).
  { unfold warn. destruct (a_bind args =? "0.0.0.0")%string.
    - eexists. split; [reflexivity|]. split_and!; try done.
      intros spid c Hin. apply list_elem_of_singleton in Hin. discriminate.
    - eexists. split; [reflexivity|]. split_and!; try done.
      by intros spid c ?%elem_of_nil. }
  cbn [outcome final trace].
  rewrite M_bind_unfold. cbn [cprint outcome final trace].
  rewrite M_bind_unfold. unfold fork.
  destruct (os_fork w1) as [fr w2]. cbn [outcome final trace].
  destruct fr as [pid'|c|e].
  - destruct (pid' >? 0) eqn:Hpos.
    + destruct (confirm_poll_run 30 port pid' w2) as (Hs & Hd & Hf & Hmiss).
      unfold sleeps, discoveries, forks, prints in *.
      cbn [outcome final trace]. split_and!.
      * trace_simpl. rewrite Hws. cbn [app length]. lia.
      * trace_simpl. rewrite Hwd. cbn [app length]. lia.
      * intros pid. trace_simpl. rewrite Hwf, Hwd, Hf. cbn [app].
        intros [[= <-]|?%elem_of_nil]%elem_of_cons _ Hall; [|done].
        destruct (Hmiss Hall) as (Ho & Hl & Hlen & Hpr).
        split_and!; [done| |done|].
        -- rewrite last_cons, last_app, !last_cons, Hl. done.
        -- intros spid c [Hin|[[=]|Hin]%elem_of_cons]%elem_of_app.
           ++ by apply (Hwp spid c).
           ++ by apply (Hpr spid c).
    + pose proof (child_quiet _ (serve_child_Forall args port sd lf w2))
        as (Hd & Hf & Hs & _ & _).
      unfold sleeps, discoveries, forks, prints in *.
      cbn [outcome final trace]. split_and!.
      * trace_simpl. rewrite Hws, Hs. cbn [app length]. lia.
      * trace_simpl. rewrite Hwd, Hd. cbn [app length]. lia.
      * intros pid. trace_simpl. rewrite Hwf, Hf. cbn [app].
        intros [[= <-]|?%elem_of_nil]%elem_of_cons Hgt; [|done].
        rewrite Z.gtb_ltb in Hpos. apply Z.ltb_ge in Hpos. lia.
  - unfold sleeps, discoveries, forks, prints in *.
      cbn [outcome final trace]. split_and!.
    * trace_simpl. rewrite Hws. cbn [app length]. lia.
    * trace_simpl. rewrite Hwd. cbn [app length]. lia.
    * intros pid. trace_simpl. rewrite Hwf. cbn [app].
      intros [[=]|?%elem_of_nil]%elem_of_cons; done.
  - unfold sleeps, discoveries, forks, prints in *.
      cbn [outcome final trace]. split_and!.
    * trace_simpl. rewrite Hws. cbn [app length]. lia.
    * trace_simpl. rewrite Hwd. cbn [app length]. lia.
    * intros pid. trace_simpl. rewrite Hwf. cbn [app].
      intros [[=]|?%elem_of_nil]%elem_of_cons; done.
Qed.

(** The branches of [server_start] after the log relocation. *)
Lemma server_start_shape args (w : W) :
  let port := default DEFAULT_PORT (a_port args) in
  let lf := os_resolve w (a_log_file args) in
  let sd := os_resolve w (a_dir args) in
  let mig := migrate_log args lf w in
  let w1 := final mig in
  ∃ T,
    trace (server_start args w) = trace mig ++ T ∧
    ((os_is_dir w1 sd = false ∧
      T = [EvPrint (MsgDirNotFound sd) ColorR] ∧
      outcome (server_start args w) = Exit 1 ∧
      final (server_start args w) = w1)
     ∨
     (os_is_dir w1 sd = true ∧ ∃ fs w2, os_proc w1 = (fs, w2) ∧
      (((∀ servers, discover_servers fs ≠ Ret servers) ∧
        T = [EvDiscover (discover_servers fs)] ∧
        ∀ u, outcome (server_start args w) ≠ Ret u)
       ∨
       ∃ servers, discover_servers fs = Ret servers ∧
         ((∃ pid0, (pid0, port) ∈ servers ∧
             T = [EvDiscover (Ret servers);
                  EvPrint (MsgAlreadyRunning pid0 (inl port)) ColorY] ∧
             outcome (server_start args w) = Ret () ∧
             final (server_start args w) = w2)
          ∨
          ((port ∉ servers.*2) ∧
           T = EvDiscover (Ret servers) :: trace (launch args port sd lf w2) ∧
           outcome (server_start args w) = outcome (launch args port sd lf w2) ∧
           final (server_start args w) = final (launch args port sd lf w2)))))).
Proof.
  intros port lf sd mig w1. unfold server_start.
  do 3 (rewrite M_bind_unfold; cbn [read outcome final trace app]).
  fold port lf sd mig.
  destruct (migrate_log_run args lf w) as [Hmo _]. fold mig in Hmo. rewrite Hmo.
  fold w1. cbn [outcome final trace].
  rewrite M_bind_unfold. cbn [read outcome final trace app].
  destruct (os_is_dir w1 sd) eqn:Hdir; cbn [negb].
  - rewrite M_bind_unfold.
    destruct (os_proc w1) as [fs w2] eqn:Hp. rewrite (discover_run _ _ _ Hp).
    cbn [outcome final trace].
    destruct (discover_servers fs) as [servers|c|e] eqn:Hd;
      [|eexists; split; [reflexivity|]; right; split; [done|];
        exists fs, w2; split; [done|]; left; rewrite Hd; by cbn..].
    cbn [outcome final trace].
    destruct (filter (λ s, false = true ∨ s.2 = port) servers)
      as [|[pid0 p0] rest] eqn:Hf.
    + eexists. split; [reflexivity|]. right. split; [done|].
      exists fs, w2. split; [done|]. right. exists servers. split; [done|].
      right. split_and!; try done.
      intros (s & Hs & Hin)%list_elem_of_fmap.
      assert (s ∈ filter (λ s, false = true ∨ s.2 = port) servers) as Hin'.
      { apply list_elem_of_filter. split; [by right|done]. }
      rewrite Hf in Hin'. by apply elem_of_nil in Hin'.
    + assert ((pid0, p0) ∈ filter (λ s, false = true ∨ s.2 = port) servers) as Hin
        by (rewrite Hf; left).
      apply list_elem_of_filter in Hin as [[?|Hp0] Hin]; [done|].
      simpl in Hp0. subst p0.
      cbn [orb existsb]. rewrite bool_decide_true by done. cbn [orb].
      eexists. split; [reflexivity|]. right. split; [done|].
      exists fs, w2. split; [done|]. right. exists servers. split; [done|].
      left. exists pid0. done.
  - rewrite M_bind_unfold. cbn.
    eexists. split; [reflexivity|]. left. done.
Qed.

End StartProofs.

(** ** Theorems about stop and status *)

Section StopTheorems.
Context `{PyBuiltins} {W : Type} `{OS W}.

Lemma main_stop args (w : W) :
  a_cmd args = "stop" → main args w = server_stop args w.
Proof. intros Hc. unfold main. by rewrite Hc. Qed.

Lemma main_start args (w : W) :
  a_cmd args = "start" → main args w = server_start args w.
Proof. intros Hc. unfold main. by rewrite Hc. Qed.

(** C3: when the discovery result, after the optional port filter, holds
    two pairs with different pids, the [stop] invocation prints the
    ambiguity header, one line per pid with the sorted ports the result
    pairs with it, and the hint when no port was given; it calls
    [os.kill] not once, leaves the world as the scan left it, and exits
    with code 0. *)
Theorem server_stop_refuses_ambiguous args (w w' : W) fs servers0 s1 s2 :
  a_cmd args = "stop" →
  os_proc w = (fs, w') →
  discover_servers fs = Ret servers0 →
  let servers := filter_port (a_port args) servers0 in
  s1 ∈ servers → s2 ∈ servers → s1.1 ≠ s2.1 →
  let r := main args w in
  exit_code (outcome r) = 0 ∧ outcome r = Ret () ∧ final r = w' ∧
  kills (trace r) = [] ∧
  trace r =
    EvDiscover (Ret servers0) :: EvPrint MsgAmbiguousStop ColorY ::
    (listing_line <$> group_by_pid servers) ++
    match a_port args with
    | None => [EvPrint MsgHintPort ColorC]
    | Some _ => []
    end ∧
  NoDup (group_by_pid servers).*1 ∧
  ∀ pid pl, (pid, pl) ∈ group_by_pid servers ↔
            pid ∈ servers.*1 ∧ pl = (filter (λ s, s.1 = pid) servers).*2.
Proof.
  intros Hcmd Hp Hd servers H1 H2 Hne r. unfold r.
  rewrite (main_stop _ _ Hcmd).
  rewrite (server_stop_ambiguous_run _ _ _ _ _ _ _ Hp Hd H1 H2 Hne).
  cbn [outcome final trace]. fold servers. split_and!; try done.
  - pose proof (listing_kills (group_by_pid servers)) as Hk.
    unfold kills in *. trace_simpl. rewrite Hk. by destruct (a_port args).
  - apply group_by_pid_NoDup.
  - apply group_by_pid_elem.
Qed.

(** C4 (amended): when every pair of the discovery result, after the
    optional port filter, has the one pid, [stop] announces the stop and
    sends SIGTERM to that pid before anything else.  If that signal is
    refused for lack of permission, [stop] ends there with
    [PermissionError].  Otherwise it checks at most 31 times, sleeping
    between the first 30 checks, whether the process is still there, and
    either finds it gone at one of the checks and reports "Stopped", or
    finds it alive at all of them and only then sends SIGKILL; it then
    reports "Stopped", unless SIGKILL is refused for lack of permission,
    which ends [stop] with [PermissionError]. *)
Theorem server_stop_graceful_then_forceful args (w w' : W) fs servers0 pid :
  os_proc w = (fs, w') →
  discover_servers fs = Ret servers0 →
  let servers := filter_port (a_port args) servers0 in
  servers ≠ [] → (∀ s, s ∈ servers → s.1 = pid) →
  let r := server_stop args w in
  ∃ k0 rest,
    trace r = EvDiscover (Ret servers0) ::
              EvPrint (MsgStopping pid (sorted_ints servers.*2)) ColorC ::
              EvKill pid SIGTERM k0 :: rest ∧
    (k0 = KillDenied → rest = [] ∧ outcome r = Raise PermissionError) ∧
    (k0 ≠ KillDenied → stop_shape pid rest (outcome r)).
Proof.
  intros Hp Hd servers Hne Hall r. unfold r.
  rewrite (server_stop_single_run _ _ _ _ _ _ Hp Hd Hne Hall).
  cbn [outcome final trace]. fold servers.
  destruct (stop_pid_run pid servers.*2 w') as (k0 & rest & Ht & Hden & Hok).
  exists k0, rest. by rewrite Ht.
Qed.

(** C10: when every pair of the filtered discovery result has the one
    pid and no signal is refused for lack of permission, [stop] returns
    normally and its last action is the report "Stopped", whatever the
    calls of [os.kill] answer otherwise: SIGTERM or SIGKILL may find no
    such process, and a liveness check that fails, for whatever reason,
    ends the polling with no SIGKILL sent. *)
Theorem server_stop_survives_races args (w w' : W) fs servers0 pid :
  os_proc w = (fs, w') →
  discover_servers fs = Ret servers0 →
  let servers := filter_port (a_port args) servers0 in
  servers ≠ [] → (∀ s, s ∈ servers → s.1 = pid) →
  let r := server_stop args w in
  (∀ s, s ≠ Sig0 → (pid, s, KillDenied) ∉ kills (trace r)) →
  outcome r = Ret () ∧
  last (trace r) = Some (EvPrint MsgStopped ColorG) ∧
  ∀ g, g ≠ KillOk → g ∈ checks (trace r) →
       ∀ k, (pid, SIGKILL, k) ∉ kills (trace r).
Proof.
  intros Hp Hd servers Hne Hall r. unfold r.
  rewrite (server_stop_single_run _ _ _ _ _ _ Hp Hd Hne Hall).
  cbn [outcome final trace]. fold servers.
  destruct (stop_pid_run pid servers.*2 w') as (k0 & rest & -> & Hden & Hok).
  intros Hperm.
  assert (k0 ≠ KillDenied) as Hk0.
  { intros ->. apply (Hperm SIGTERM); [done|].
    unfold kills. trace_simpl. left. }
  destruct (Hok Hk0) as [(j & g & Hj & Hg & -> & ->)|(k & -> & ->)].
  - split; [done|]. split.
    + rewrite !last_cons, last_app. done.
    + intros g' Hg' _ k. pose proof (polls_kills pid j) as Hpk.
      unfold kills in *. trace_simpl. rewrite Hpk.
      intros [[=]|[[[=] _]%elem_of_replicate|[[=]|?%elem_of_nil]%elem_of_cons]%elem_of_app]%elem_of_cons.
      done.
  - assert (k ≠ KillDenied) as Hk.
    { intros ->. apply (Hperm SIGKILL); [done|].
      unfold kills. trace_simpl. right. apply elem_of_app. right.
      right. left. }
    split; [by destruct k|]. split.
    + rewrite !last_cons, last_app. by destruct k.
    + intros g Hg Hin. exfalso. apply Hg.
      pose proof (polls_kills pid 30) as Hpk.
      assert (checks (polls pid 30) = replicate 30 KillOk) as Hpc.
      { clear. generalize 30%nat. intros n. induction n as [|n IH]; [done|].
        rewrite polls_S. unfold checks in *. trace_simpl. by rewrite IH. }
      unfold checks in *. revert Hin. trace_simpl. rewrite Hpc.
      intros [[? _]%elem_of_replicate|Hin]%elem_of_app; [done|].
      destruct k; apply list_elem_of_singleton in Hin; done.
Qed.

(** C7 (amended): [status] runs the same discovery, port filter and
    grouping as [stop] and sends no signal.  When the filtered result
    holds two pairs with different pids and no port was given, both
    refuse with the same listing of pids and ports; when a port was
    given, [stop] still refuses, while [status] reports the first pid of
    the grouping as running. *)
Theorem server_status_ambiguity args (w w' : W) fs servers0 s1 s2 :
  os_proc w = (fs, w') →
  discover_servers fs = Ret servers0 →
  let servers := filter_port (a_port args) servers0 in
  s1 ∈ servers → s2 ∈ servers → s1.1 ≠ s2.1 →
  let listing := listing_line <$> group_by_pid servers in
  kills (trace (server_status args w)) = [] ∧
  match a_port args with
  | None =>
      trace (server_stop args w) =
        EvDiscover (Ret servers0) :: EvPrint MsgAmbiguousStop ColorY ::
        listing ++ [EvPrint MsgHintPort ColorC] ∧
      trace (server_status args w) =
        EvDiscover (Ret servers0) :: EvPrint MsgMultipleServers ColorY ::
        listing ++ [EvPrint MsgSpecifyPort ColorC]
  | Some _ =>
      trace (server_stop args w) =
        EvDiscover (Ret servers0) :: EvPrint MsgAmbiguousStop ColorY :: listing ∧
      ∃ pid ports others health,
        group_by_pid servers = (pid, ports) :: others ∧
        trace (server_status args w) =
          EvDiscover (Ret servers0) ::
          EvPrint (MsgRunning pid (sorted_ints ports)) ColorG :: health
  end.
Proof.
  intros Hp Hd servers H1 H2 Hne listing.
  pose proof (server_stop_ambiguous_run _ _ _ _ _ _ _ Hp Hd H1 H2 Hne) as Hstop.
  fold servers in Hstop. fold listing in Hstop.
  destruct (a_port args) as [p|] eqn:Hport.
  - (* a port was given *)
    assert (∃ pid ports others health,
              group_by_pid servers = (pid, ports) :: others ∧
              server_status args w =
                Run (outcome (report_running args pid ports w'))
                    (final (report_running args pid ports w'))
                    (EvDiscover (Ret servers0) ::
                     EvPrint (MsgRunning pid (sorted_ints ports)) ColorG :: health) ∧
              kills health = [])
      as (pid & ports & others & health & Hg & Hrun & Hk).
    { unfold server_status. rewrite M_bind_unfold, (discover_run _ _ _ Hp), Hd, Hport.
      cbn [outcome final trace].
      destruct servers0 as [|s0 servers0]; [by apply elem_of_nil in H1|].
      unfold servers in *. try rewrite Hport in *.
      destruct (filter_port (Some p) (s0 :: servers0)) as [|s l] eqn:Hf;
        [by apply elem_of_nil in H1|].
      rewrite (bool_decide_false (Some p = None)) by done. rewrite andb_false_r.
      pose proof (group_by_pid_ambiguous _ _ _ H1 H2 Hne) as Hlen.
      destruct (group_by_pid (s :: l)) as [|[pid ports] others] eqn:Hg; [done|].
      pose proof (report_running_kills args pid ports w') as Hk.
      unfold report_running in *. rewrite M_bind_unfold in *.
      cbn [cprint outcome final trace app] in *.
      eexists pid, ports, others, _. split; [done|]. split; [reflexivity|].
      unfold kills in *. revert Hk. by trace_simpl. }
    rewrite Hrun, Hstop. cbn [trace]. rewrite app_nil_r. split_and!; [|done|].
    + unfold kills in *. trace_simpl. done.
    + by exists pid, ports, others, health.
  - (* no port was given *)
    unfold servers in *. try rewrite Hport in *. cbn [filter_port] in *.
    rewrite (server_status_ambiguous_run _ _ _ _ _ _ _ Hp Hd Hport H1 H2 Hne).
    rewrite Hstop. cbn [trace]. split_and!; [|done..].
    pose proof (listing_kills (group_by_pid servers0)) as Hk.
    unfold kills in *. trace_simpl. by rewrite Hk.
Qed.

End StopTheorems.

(** ** Theorems about start *)

Section StartTheorems.
Context `{PyBuiltins} {W : Type} `{OS W}.

Lemma run_eta {A} (r : run W A) : r = Run (outcome r) (final r) (trace r).
Proof. by destruct r. Qed.

(** C5 (amended): when a port is given and the discovery that follows
    the legacy log relocation and the directory check reports an
    instance on that port, [start] reports "already running" for a pid
    serving the port and returns: apart from that relocation, which comes
    first, it has only scanned and printed; it has neither probed the
    port nor forked. *)
Theorem server_start_already_running args (w w2 : W) p fs servers :
  let lf := os_resolve w (a_log_file args) in
  let sd := os_resolve w (a_dir args) in
  let mig := migrate_log args lf w in
  a_port args = Some p →
  os_is_dir (final mig) sd = true →
  os_proc (final mig) = (fs, w2) →
  discover_servers fs = Ret servers →
  p ∈ servers.*2 →
  ∃ pid0,
    (pid0, p) ∈ servers ∧
    server_start args w =
      Run (Ret ()) w2
        (trace mig ++
         [EvDiscover (Ret servers);
          EvPrint (MsgAlreadyRunning pid0 (inl p)) ColorY]) ∧
    Forall is_migration (trace mig) ∧
    probes (trace (server_start args w)) = [] ∧
    forks (trace (server_start args w)) = [].
Proof.
  intros lf sd mig Hport Hdir Hp Hd Hin.
  destruct (server_start_shape args w) as (T & Ht & Hshape).
  rewrite Hport in Hshape. cbn [default] in Hshape.
  fold lf sd mig in Ht, Hshape.
  destruct (migrate_log_run args lf w) as [_ Hmig]. fold mig in Hmig.
  destruct (migration_quiet _ Hmig) as (_ & Hmf & _ & Hmp & _).
  destruct Hshape as [[Hno _]|(_ & fs' & w2' & Hp' & Hrest)]; [congruence|].
  rewrite Hp in Hp'. injection Hp' as <- <-.
  destruct Hrest as [[Hno _]|(servers' & Hd' & Hrest)]; [by destruct (Hno servers)|].
  rewrite Hd in Hd'. injection Hd' as <-.
  destruct Hrest as [(pid0 & Hpid0 & -> & Ho & Hf)|[Hno _]]; [|done].
  exists pid0. split; [done|]. split_and!.
  - rewrite (run_eta (server_start args w)), Ho, Hf, Ht. done.
  - done.
  - rewrite Ht. unfold probes in *. trace_simpl. by rewrite Hmp.
  - rewrite Ht. unfold forks in *. trace_simpl. by rewrite Hmf.
Qed.

(** C8 (amended): [start] first relocates the legacy log, best effort,
    and then checks the serve directory; when the directory does not
    exist at that point, the invocation reports "Directory not found"
    and exits with code 1, having done nothing but that relocation: no
    discovery, no probe, no fork. *)
Theorem server_start_directory_check args (w : W) :
  let lf := os_resolve w (a_log_file args) in
  let sd := os_resolve w (a_dir args) in
  let mig := migrate_log args lf w in
  a_cmd args = "start" →
  os_is_dir (final mig) sd = false →
  let r := main args w in
  outcome r = Exit 1 ∧ exit_code (outcome r) = 1 ∧
  final r = final mig ∧
  trace r = trace mig ++ [EvPrint (MsgDirNotFound sd) ColorR] ∧
  Forall is_migration (trace mig).
Proof.
  intros lf sd mig Hcmd Hdir r. unfold r. rewrite (main_start _ _ Hcmd).
  destruct (server_start_shape args w) as (T & Ht & Hshape).
  fold lf sd mig in Ht, Hshape.
  destruct (migrate_log_run args lf w) as [_ Hmig]. fold mig in Hmig.
  destruct Hshape as [(_ & -> & Ho & Hf)|[Hyes _]]; [|congruence].
  rewrite Ho. done.
Qed.

Lemma server_start_bounded args (w : W) :
  (List.length (sleeps (trace (server_start args w))) ≤ 30)%nat ∧
  (List.length (discoveries (trace (server_start args w))) ≤ 31)%nat.
Proof.
  destruct (server_start_shape args w) as (T & -> & Hshape).
  destruct (migrate_log_run args (os_resolve w (a_log_file args)) w) as [_ Hmig].
  destruct (migration_quiet _ Hmig) as (Hmd & _ & Hms & _).
  unfold sleeps, discoveries in *. trace_simpl. rewrite Hms, Hmd. cbn [app].
  destruct Hshape as [(_ & -> & _)|(_ & fs & w2 & _ & Hrest)]; [cbn; lia|].
  destruct Hrest as [(_ & -> & _)|(servers & _ & Hrest)]; [cbn; lia|].
  destruct Hrest as [(pid0 & _ & -> & _)|(_ & -> & _)]; [cbn; lia|].
  pose proof (launch_run args (default DEFAULT_PORT (a_port args))
                (os_resolve w (a_dir args)) (os_resolve w (a_log_file args)) w2)
    as (Hs & Hd & _).
  unfold sleeps, discoveries in *. trace_simpl. cbn [length]. lia.
Qed.

Lemma server_start_unconfirmed args (w : W) pid :
  let port := default DEFAULT_PORT (a_port args) in
  let r := server_start args w in
  Ret pid ∈ forks (trace r) → pid > 0 →
  Forall (misses port) (discoveries (trace r)) →
  outcome r = Ret () ∧
  last (trace r) = Some (EvPrint (MsgNotConfirmed pid) ColorY) ∧
  List.length (discoveries (trace r)) = 31%nat ∧
  ∀ spid c, (MsgStarted spid, c) ∉ prints (trace r).
Proof.
  intros port r. unfold r.
  destruct (server_start_shape args w) as (T & -> & Hshape).
  destruct (migrate_log_run args (os_resolve w (a_log_file args)) w) as [_ Hmig].
  destruct (migration_quiet _ Hmig) as (Hmd & Hmf & _ & _ & _ & Hmp).
  unfold forks, discoveries, prints in *. trace_simpl.
  rewrite Hmd, Hmf, Hmp. cbn [app].
  destruct Hshape as [(_ & -> & _)|(_ & fs & w2 & _ & Hrest)];
    [by intros ?%elem_of_nil|].
  destruct Hrest as [(_ & -> & _)|(servers & _ & Hrest)];
    [by intros ?%elem_of_nil|].
  destruct Hrest as [(pid0 & _ & -> & _)|(_ & -> & Ho & _)];
    [by intros ?%elem_of_nil|].
  fold port.
  pose proof (launch_run args port (os_resolve w (a_dir args))
                (os_resolve w (a_log_file args)) w2) as (_ & _ & Hl).
  unfold forks, discoveries, prints in *. trace_simpl.
  intros Hfork Hpos [_ Hall]%Forall_cons.
  destruct (Hl pid Hfork Hpos Hall) as (Ho' & Hlast & Hlen & Hpr).
  rewrite Ho. split_and!; [exact Ho'| |cbn [length]; lia|done].
  rewrite last_app, last_cons, Hlast. done.
Qed.

(** C9: the polling loops are capped: a run of [stop] sleeps at most 30
    times and checks the pid at most 31 times, a run of [start] sleeps at
    most 30 times and runs discovery at most 31 times, once before the
    fork and at most 30 times after it; and when, in the parent of a
    fork, no discovery of the run reports the requested port, [start]
    has run all 30 confirmation rounds, never prints "Started (PID ..)",
    and returns after printing, last of all, "Started (child PID ..) but
    listener not confirmed". *)
Theorem polling_is_bounded args (w : W) :
  let port := default DEFAULT_PORT (a_port args) in
  let stop := server_stop args w in
  let start := server_start args w in
  ((List.length (sleeps (trace stop)) ≤ 30)%nat ∧
   (List.length (checks (trace stop)) ≤ 31)%nat) ∧
  ((List.length (sleeps (trace start)) ≤ 30)%nat ∧
   (List.length (discoveries (trace start)) ≤ 31)%nat) ∧
  ∀ pid, Ret pid ∈ forks (trace start) → pid > 0 →
    Forall (misses port) (discoveries (trace start)) →
    outcome start = Ret () ∧
    last (trace start) = Some (EvPrint (MsgNotConfirmed pid) ColorY) ∧
    List.length (discoveries (trace start)) = 31%nat ∧
    ∀ spid c, (MsgStarted spid, c) ∉ prints (trace start).
Proof.
  intros port stop start. split; [|split].
  - apply server_stop_bounded.
  - apply server_start_bounded.
  - intros pid. apply server_start_unconfirmed.
Qed.

End StartTheorems.

(** ** The controller on example worlds *)

Ltac not_in_list H :=
  repeat (apply elem_of_cons in H as [H|H]; [discriminate H|]);
  by apply elem_of_nil in H.

(** A world on which [server_stop_refuses_ambiguous] applies: processes 1
    and 2 both serve port 8000. *)
Lemma server_stop_refuses_ambiguous_witness :
  let args := example_args "stop" None in
  let w := Sim [] [] [two_servers] [] (Ret false) (Ret 77) (inl 200) in
  let servers := [(1, 8000); (2, 8000)] in
  (a_cmd args = "stop" ∧
   @os_proc sim sim_os w = (two_servers, w) ∧
   @discover_servers plain_builtins two_servers = Ret servers ∧
   (1, 8000) ∈ filter_port (a_port args) servers ∧
   (2, 8000) ∈ filter_port (a_port args) servers ∧
   (1, 8000).1 ≠ (2, 8000).1) ∧
  exit_code (outcome (sim_main args w)) = 0 ∧
  kills (trace (sim_main args w)) = [] ∧
  prints (trace (sim_main args w)) =
    [(MsgAmbiguousStop, ColorY); (MsgPidPorts 1 [8000], ColorY);
     (MsgPidPorts 2 [8000], ColorY); (MsgHintPort, ColorC)].
Proof.
  intros args w servers.
  assert (@discover_servers plain_builtins two_servers = Ret servers) as Hd
    by (vm_compute; reflexivity).
  assert ((1, 8000) ∈ filter_port (a_port args) servers) as H1 by left.
  assert ((2, 8000) ∈ filter_port (a_port args) servers) as H2 by (right; left).
  assert ((1, 8000).1 ≠ (2, 8000).1) as Hne by (simpl; lia).
  split; [split_and!; done|].
  destruct (@server_stop_refuses_ambiguous plain_builtins sim sim_os
              args w w two_servers servers (1, 8000) (2, 8000)
              eq_refl eq_refl Hd H1 H2 Hne)
    as (Hexit & _ & _ & Hkills & Htrace & _).
  split; [exact Hexit|]. split; [exact Hkills|].
  unfold sim_main. rewrite Htrace. vm_compute. reflexivity.
Defined.

(** A world on which [server_stop_graceful_then_forceful] applies: the
    server is gone at the third liveness check. *)
Lemma server_stop_graceful_then_forceful_witness :
  let args := example_args "stop" None in
  let w := Sim [] [] [one_server "1F40"]
             [KillOk; KillOk; KillOk; KillNoProcess] (Ret false) (Ret 77) (inl 200) in
  let servers := [(4242, 8000)] in
  (@os_proc sim sim_os w = (one_server "1F40", w) ∧
   @discover_servers plain_builtins (one_server "1F40") = Ret servers ∧
   filter_port (a_port args) servers ≠ [] ∧
   ∀ s, s ∈ filter_port (a_port args) servers → s.1 = 4242) ∧
  ∃ k0 rest,
    trace (sim_stop args w) =
      EvDiscover (Ret servers) ::
      EvPrint (MsgStopping 4242 (sorted_ints (filter_port (a_port args) servers).*2)) ColorC ::
      EvKill 4242 SIGTERM k0 :: rest ∧
    (k0 = KillDenied → rest = [] ∧ outcome (sim_stop args w) = Raise PermissionError) ∧
    (k0 ≠ KillDenied → stop_shape 4242 rest (outcome (sim_stop args w))).
Proof.
  intros args w servers.
  assert (@discover_servers plain_builtins (one_server "1F40") = Ret servers) as Hd
    by (vm_compute; reflexivity).
  assert (filter_port (a_port args) servers ≠ []) as Hne by done.
  assert (∀ s, s ∈ filter_port (a_port args) servers → s.1 = 4242) as Hall.
  { intros s Hs. apply list_elem_of_singleton in Hs. by subst s. }
  split; [split_and!; done|].
  exact (@server_stop_graceful_then_forceful plain_builtins sim sim_os
           args w w (one_server "1F40") servers 4242 eq_refl Hd Hne Hall).
Defined.

(** C4, as stated, fails where [os.kill] refuses a signal for lack of
    permission, as it does for the process of another user: the clauses
    of lines 283 and 302 catch [ProcessLookupError] only.  After a
    refused SIGTERM nothing is polled, after a refused SIGKILL nothing is
    reported, and [stop] ends with [PermissionError] both times. *)
Lemma server_stop_refused_signal :
  let args := example_args "stop" None in
  let refused_term :=
    Sim [] [] [one_server "1F40"] [KillDenied] (Ret false) (Ret 77) (inl 200) in
  let refused_kill :=
    Sim [] [] [one_server "1F40"] (replicate 32 KillOk ++ [KillDenied])
        (Ret false) (Ret 77) (inl 200) in
  (trace (sim_stop args refused_term) =
     [EvDiscover (Ret [(4242, 8000)]);
      EvPrint (MsgStopping 4242 [8000]) ColorC;
      EvKill 4242 SIGTERM KillDenied] ∧
   outcome (sim_stop args refused_term) = Raise PermissionError) ∧
  (kills (trace (sim_stop args refused_kill)) =
     (4242, SIGTERM, KillOk) :: replicate 31 (4242, Sig0, KillOk) ++
     [(4242, SIGKILL, KillDenied)] ∧
   prints (trace (sim_stop args refused_kill)) =
     [(MsgStopping 4242 [8000], ColorC); (MsgForceKilling, ColorY)] ∧
   outcome (sim_stop args refused_kill) = Raise PermissionError).
Proof. split_and!; vm_compute; reflexivity. Qed.

(** A world on which [server_stop_survives_races] applies: the server has
    disappeared before SIGTERM is sent. *)
Lemma server_stop_survives_races_witness :
  let args := example_args "stop" (Some 8000) in
  let w := Sim [] [] [one_server "1F40"] [KillNoProcess; KillNoProcess]
             (Ret false) (Ret 77) (inl 200) in
  let servers := [(4242, 8000)] in
  (@os_proc sim sim_os w = (one_server "1F40", w) ∧
   @discover_servers plain_builtins (one_server "1F40") = Ret servers ∧
   filter_port (a_port args) servers ≠ [] ∧
   (∀ s, s ∈ filter_port (a_port args) servers → s.1 = 4242) ∧
   ∀ s, s ≠ Sig0 → (4242, s, KillDenied) ∉ kills (trace (sim_stop args w))) ∧
  outcome (sim_stop args w) = Ret () ∧
  last (trace (sim_stop args w)) = Some (EvPrint MsgStopped ColorG) ∧
  ∀ g, g ≠ KillOk → g ∈ checks (trace (sim_stop args w)) →
       ∀ k, (4242, SIGKILL, k) ∉ kills (trace (sim_stop args w)).
Proof.
  intros args w servers.
  assert (@discover_servers plain_builtins (one_server "1F40") = Ret servers) as Hd
    by (vm_compute; reflexivity).
  assert (filter_port (a_port args) servers ≠ []) as Hne by (vm_compute; discriminate).
  assert (∀ s, s ∈ filter_port (a_port args) servers → s.1 = 4242) as Hall.
  { intros s Hs. vm_compute in Hs. apply list_elem_of_singleton in Hs. by subst s. }
  assert (∀ s, s ≠ Sig0 → (4242, s, KillDenied) ∉ kills (trace (sim_stop args w)))
    as Hperm.
  { intros s _ Hin. vm_compute in Hin. not_in_list Hin. }
  split; [split_and!; done|].
  exact (@server_stop_survives_races plain_builtins sim sim_os
           args w w (one_server "1F40") servers 4242 eq_refl Hd Hne Hall Hperm).
Defined.

(** A world on which [server_status_ambiguity] applies, with no port given. *)
Lemma server_status_ambiguity_witness :
  let args := example_args "status" None in
  let w := Sim [] [] [two_servers] [] (Ret false) (Ret 77) (inl 200) in
  let servers := [(1, 8000); (2, 8000)] in
  (@os_proc sim sim_os w = (two_servers, w) ∧
   @discover_servers plain_builtins two_servers = Ret servers ∧
   (1, 8000) ∈ filter_port (a_port args) servers ∧
   (2, 8000) ∈ filter_port (a_port args) servers ∧
   (1, 8000).1 ≠ (2, 8000).1) ∧
  kills (trace (sim_status args w)) = [] ∧
  trace (sim_stop args w) =
    EvDiscover (Ret servers) :: EvPrint MsgAmbiguousStop ColorY ::
    (listing_line <$> group_by_pid servers) ++ [EvPrint MsgHintPort ColorC] ∧
  trace (sim_status args w) =
    EvDiscover (Ret servers) :: EvPrint MsgMultipleServers ColorY ::
    (listing_line <$> group_by_pid servers) ++ [EvPrint MsgSpecifyPort ColorC].
Proof.
  intros args w servers.
  assert (@discover_servers plain_builtins two_servers = Ret servers) as Hd
    by (vm_compute; reflexivity).
  assert ((1, 8000) ∈ filter_port (a_port args) servers) as H1 by left.
  assert ((2, 8000) ∈ filter_port (a_port args) servers) as H2 by (right; left).
  assert ((1, 8000).1 ≠ (2, 8000).1) as Hne by (simpl; lia).
  split; [split_and!; done|].
  exact (@server_status_ambiguity plain_builtins sim sim_os
           args w w two_servers servers (1, 8000) (2, 8000) eq_refl Hd H1 H2 Hne).
Defined.

(** C7, as stated, fails: with [--port 8000] and two processes serving
    port 8000, [stop] refuses with the ambiguity report, while [status]
    reports process 1 as running and probes its health. *)
Lemma server_status_selects_pid_where_stop_refuses :
  let args := example_args "status" (Some 8000) in
  let w := Sim [] [] [two_servers] [] (Ret false) (Ret 77) (inl 200) in
  trace (sim_stop args w) =
    [EvDiscover (Ret [(1, 8000); (2, 8000)]);
     EvPrint MsgAmbiguousStop ColorY;
     EvPrint (MsgPidPorts 1 [8000]) ColorY;
     EvPrint (MsgPidPorts 2 [8000]) ColorY] ∧
  trace (sim_status args w) =
    [EvDiscover (Ret [(1, 8000); (2, 8000)]);
     EvPrint (MsgRunning 1 [8000]) ColorG;
     EvSleep;
     EvUrlopen "0.0.0.0" 8000 (inl 200);
     EvPrint (MsgHealthOK 200) ColorG].
Proof. split; vm_compute; reflexivity. Qed.

(** A world on which [server_start_already_running] applies. *)
Lemma server_start_already_running_witness :
  let args := example_args "start" (Some 8000) in
  let w := Sim ["/srv/IMAGES/.images_http.log"] ["/srv/IMAGES"]
             [one_server "1F40"] [] (Ret false) (Ret 77) (inl 200) in
  let mig := @migrate_log sim sim_os args "/srv/IMAGES/.images_http.log" w in
  (a_port args = Some 8000 ∧
   @os_is_dir sim sim_os (final mig) "/srv/IMAGES" = true ∧
   @os_proc sim sim_os (final mig) = (one_server "1F40", w) ∧
   @discover_servers plain_builtins (one_server "1F40") = Ret [(4242, 8000)] ∧
   8000 ∈ [(4242, 8000)].*2) ∧
  ∃ pid0,
    (pid0, 8000) ∈ [(4242, 8000)] ∧
    sim_start args w =
      Run (Ret ()) w
        (trace mig ++
         [EvDiscover (Ret [(4242, 8000)]);
          EvPrint (MsgAlreadyRunning pid0 (inl 8000)) ColorY]) ∧
    Forall is_migration (trace mig) ∧
    probes (trace (sim_start args w)) = [] ∧
    forks (trace (sim_start args w)) = [].
Proof.
  intros args w mig.
  assert (@discover_servers plain_builtins (one_server "1F40") = Ret [(4242, 8000)])
    as Hd by (vm_compute; reflexivity).
  assert (8000 ∈ [(4242, 8000)].*2) as Hin by left.
  split; [split_and!; done|].
  exact (@server_start_already_running plain_builtins sim sim_os
           args w w 8000 (one_server "1F40") [(4242, 8000)]
           eq_refl eq_refl eq_refl Hd Hin).
Defined.

(** C5, as stated, fails twice.  With no port given and an instance
    serving port 9000, [start] takes 8000 as the port, finds no instance on
    it, probes the port and forks.  With an instance serving the requested
    port, [start] has already moved the legacy log file into place before
    it reports "already running". *)
Lemma server_start_not_idempotent :
  let running_9000 :=
    Sim [] ["/srv/IMAGES"] [one_server "2328"] [] (Ret false) (Ret 77) (inl 200) in
  let legacy_log :=
    Sim [".images_http.log"] ["/srv/IMAGES"] [one_server "1F40"] []
        (Ret false) (Ret 77) (inl 200) in
  (head (discoveries (trace (sim_start (example_args "start" None) running_9000)))
     = Some (Ret [(4242, 9000)]) ∧
   probes (trace (sim_start (example_args "start" None) running_9000)) = [Ret false] ∧
   forks (trace (sim_start (example_args "start" None) running_9000)) = [Ret 77]) ∧
  (trace (sim_start (example_args "start" (Some 8000)) legacy_log) =
     [EvMkdir "/srv/IMAGES" true;
      EvReplace ".images_http.log" "/srv/IMAGES/.images_http.log" true;
      EvDiscover (Ret [(4242, 8000)]);
      EvPrint (MsgAlreadyRunning 4242 (inl 8000)) ColorY] ∧
   sim_files (final (sim_start (example_args "start" (Some 8000)) legacy_log)) =
     ["/srv/IMAGES/.images_http.log"]).
Proof. split_and!; vm_compute; reflexivity. Qed.

(** C6: the code at the failing input.  Another program answers on
    0.0.0.0:8000; [start] reports the port as in use and does not fork, but
    it returns normally, so the invocation exits with code 0, not 1. *)
Lemma server_start_port_in_use_exits_0 :
  let args := example_args "start" (Some 8000) in
  let w := Sim [] ["/srv/IMAGES"] [no_server] [] (Ret true) (Ret 77) (inl 200) in
  trace (sim_main args w) =
    [EvDiscover (Ret []);
     EvConnect "0.0.0.0" 8000 (Ret true);
     EvPrint (MsgPortInUse 8000 "0.0.0.0") ColorR;
     EvPrint (MsgSuggestion 8000) ColorY] ∧
  outcome (sim_main args w) = Ret () ∧
  exit_code (outcome (sim_main args w)) = 0.
Proof. split_and!; vm_compute; reflexivity. Qed.

(** A world on which [server_start_directory_check] applies. *)
Lemma server_start_directory_check_witness :
  let args := log_elsewhere_args in
  let w := Sim [] [] [no_server] [] (Ret false) (Ret 77) (inl 200) in
  let mig := @migrate_log sim sim_os args "/var/log/http.log" w in
  (a_cmd args = "start" ∧
   @os_is_dir sim sim_os (final mig) "/srv/IMAGES" = false) ∧
  outcome (sim_main args w) = Exit 1 ∧
  exit_code (outcome (sim_main args w)) = 1 ∧
  final (sim_main args w) = final mig ∧
  trace (sim_main args w) =
    trace mig ++ [EvPrint (MsgDirNotFound "/srv/IMAGES") ColorR] ∧
  Forall is_migration (trace mig).
Proof.
  intros args w mig. split; [split; reflexivity|].
  exact (@server_start_directory_check plain_builtins sim sim_os args w
           eq_refl eq_refl).
Defined.

(** C8, as stated, fails: the serve directory is missing, the legacy log
    exists and its new place is outside the serve directory; [start] moves
    the log file and only then finds the directory missing and exits. *)
Lemma server_start_moves_log_before_directory_check :
  let w := Sim [".images_http.log"] [] [no_server] [] (Ret false) (Ret 77) (inl 200) in
  trace (sim_main log_elsewhere_args w) =
    [EvMkdir "/var/log" true;
     EvReplace ".images_http.log" "/var/log/http.log" true;
     EvPrint (MsgDirNotFound "/srv/IMAGES") ColorR] ∧
  outcome (sim_main log_elsewhere_args w) = Exit 1 ∧
  sim_files (final (sim_main log_elsewhere_args w)) = ["/var/log/http.log"].
Proof. split_and!; vm_compute; reflexivity. Qed.

(** A world on which the last part of [polling_is_bounded] applies: the
    fork gives the parent pid 77 and no discovery ever shows port 8000. *)
Lemma polling_is_bounded_witness :
  let args := example_args "start" None in
  let w := Sim [] ["/srv/IMAGES"] [no_server] [] (Ret false) (Ret 77) (inl 200) in
  (Ret 77 ∈ forks (trace (sim_start args w)) ∧ 77 > 0 ∧
   Forall (misses 8000) (discoveries (trace (sim_start args w)))) ∧
  outcome (sim_start args w) = Ret () ∧
  last (trace (sim_start args w)) = Some (EvPrint (MsgNotConfirmed 77) ColorY) ∧
  List.length (discoveries (trace (sim_start args w))) = 31%nat ∧
  ∀ spid c, (MsgStarted spid, c) ∉ prints (trace (sim_start args w)).
Proof.
  intros args w.
  assert (Ret 77 ∈ forks (trace (sim_start args w))) as Hfork by (vm_compute; left).
  assert (77 > 0) as Hpos by lia.
  assert (Forall (misses 8000) (discoveries (trace (sim_start args w)))) as Hmiss.
  { vm_compute discoveries. repeat constructor; (exists []; split; [reflexivity|]);
      by intros ?%elem_of_nil. }
  split; [split_and!; done|].
  exact (proj2 (proj2 (@polling_is_bounded plain_builtins sim sim_os args w))
           77 Hfork Hpos Hmiss).
Defined.

(** * Further properties of discovery *)

Global Instance tuple_le_antisymm : AntiSymm (=) tuple_le.
Proof.
  intros [a b] [c d]. unfold tuple_le; simpl. intros ? ?.
  f_equal; lia.
Qed.

Section DiscoveryFurther.
Context `{PyBuiltins}.

Lemma read_table_cases t m :
  (has_header t ∧ read_table t m = Ret (foldl add_row m (table_rows t))) ∨
  (t = TableLines [] ∧ read_table t m = Raise StopIteration) ∨
  (t = TableUndecodable ∧ read_table t m = Raise UnicodeDecodeError) ∨
  (t = TableFails ∧ read_table t m = Raise OSError).
Proof. destruct t as [| |[|h rows]| |]; naive_solver. Qed.

Lemma has_header_read t :
  has_header t → t ≠ TableLines [] ∧ t ≠ TableUndecodable ∧ t ≠ TableFails.
Proof. by destruct t as [| |[|h rows]| |]. Qed.

Lemma scan_process_cases m d :
  scan_process m d = Ret (found_in m d) ∨
  (py_isdigit (d_name d) = true ∧ py_int (d_name d) = None ∧
   scan_process m d = Raise ValueError).
Proof.
  unfold found_in, scan_process.
  destruct (py_isdigit (d_name d)) eqn:Hd; simpl; [|by left].
  destruct (py_int (d_name d)) as [pid|] eqn:Hi; [|by right].
  left. destruct (d_cmdline d); [|done]. by destruct (negb _).
Qed.

Lemma scan_processes_cases m ds : ∀ results,
  (Forall name_read ds ∧
   scan_processes m ds results = Ret (results ++ ds ≫= found_in m)) ∨
  (Exists (λ d, py_isdigit (d_name d) = true ∧ py_int (d_name d) = None) ds ∧
   scan_processes m ds results = Raise ValueError).
Proof.
  induction ds as [|d ds IH]; intros results.
  - left. split; [constructor|]. simpl. by rewrite app_nil_r.
  - rewrite bind_cons. cbn [scan_processes].
    destruct (scan_process_cases m d) as [Hr|(Hd & Hi & Hr)]; rewrite Hr; simpl.
    + destruct (IH (results ++ found_in m d)) as [[Hall ->]|[Hex ->]].
      * left. split; [|by rewrite <-(assoc_L (++))].
        constructor; [|done]. intros Hd.
        unfold scan_process in Hr. rewrite Hd in Hr. simpl in Hr.
        destruct (py_int (d_name d)); [eauto|done].
      * right. split; [by right|done].
    + right. split; [by left|done].
Qed.

(** How discovery ends once both tables have been read. *)
Lemma discover_servers_read fs :
  has_header (net_tcp fs) → has_header (net_tcp6 fs) →
  (discover_servers fs = Raise ValueError ∧
   (∃ inode port, table_maps fs inode port) ∧
   ∃ d, d ∈ proc_dirs fs ∧ py_isdigit (d_name d) = true ∧ py_int (d_name d) = None)
  ∨
  ((∃ servers, discover_servers fs = Ret servers) ∧
   ((∀ inode port, ¬ table_maps fs inode port) ∨ names_read fs)).
Proof.
  intros H4 H6. unfold discover_servers.
  rewrite (read_tables_header _ H4 H6). simpl.
  destruct (decide (foldl add_row ∅ (all_rows fs) = ∅)) as [Hempty|Hmap].
  { right. split; [eauto|]. left. intros i p Hip%inode_map_table.
    by rewrite Hempty, lookup_empty in Hip. }
  destruct (scan_processes_cases (foldl add_row ∅ (all_rows fs)) (proc_dirs fs) [])
    as [[Hall ->]|[Hex ->]]; simpl.
  - right. split; [eauto|]. by right.
  - left. split_and!; [done| |].
    + destruct (map_choose _ Hmap) as (i & p & Hip).
      exists i, p. by apply inode_map_table.
    + apply Exists_exists in Hex as (d & Hd & Hdig & Hint). eauto.
Qed.

(** X1: discovery never ends through [sys.exit], and an exception leaves
    it in these cases only.  The first of the two socket tables that is
    neither missing, denied nor read with its header line decides: a file
    without a line gives [StopIteration], a file that is no text
    [UnicodeDecodeError], another failure of opening or reading
    [OSError].  When both tables are read, [ValueError] leaves it exactly
    when some row is a listening row and [int] refuses the name of some
    entry of [/proc] that [isdigit] accepts.  In every other state it
    returns a list. *)
Theorem discover_servers_outcomes (fs : procfs) :
  (discover_servers fs = Raise StopIteration ↔
     table_read_fails fs (TableLines [])) ∧
  (discover_servers fs = Raise UnicodeDecodeError ↔
     table_read_fails fs TableUndecodable) ∧
  (discover_servers fs = Raise OSError ↔ table_read_fails fs TableFails) ∧
  (discover_servers fs = Raise ValueError ↔
     has_header (net_tcp fs) ∧ has_header (net_tcp6 fs) ∧
     (∃ inode port, table_maps fs inode port) ∧
     ∃ d, d ∈ proc_dirs fs ∧ py_isdigit (d_name d) = true ∧ py_int (d_name d) = None) ∧
  (∀ e, discover_servers fs = Raise e →
     e = StopIteration ∨ e = UnicodeDecodeError ∨ e = OSError ∨ e = ValueError) ∧
  (∀ code, discover_servers fs ≠ Exit code).
Proof.
  unfold table_read_fails.
  destruct (read_table_cases (net_tcp fs) ∅)
    as [[H4 Hr4]|[[E4 Hr4]|[[E4 Hr4]|[E4 Hr4]]]].
  2-4: unfold discover_servers, read_tables; rewrite Hr4, E4; cbn;
       split_and!; naive_solver.
  destruct (has_header_read _ H4) as (? & ? & ?).
  destruct (read_table_cases (net_tcp6 fs) (foldl add_row ∅ (table_rows (net_tcp fs))))
    as [[H6 Hr6]|[[E6 Hr6]|[[E6 Hr6]|[E6 Hr6]]]].
  2-4: unfold discover_servers, read_tables; rewrite Hr4; cbn [res_bind];
       rewrite Hr6, E6; cbn; split_and!; naive_solver.
  destruct (has_header_read _ H6) as (? & ? & ?).
  destruct (discover_servers_read fs H4 H6)
    as [(-> & Hmap & Hname)|[[servers ->] Hok]].
  - split_and!; naive_solver.
  - split_and!; try naive_solver.
    split; [done|]. intros (_ & _ & (i & p & Hip) & d & Hd & Hdig & Hint).
    destruct Hok as [Hnone|Hnames]; [by destruct (Hnone i p)|].
    unfold names_read in Hnames. rewrite Forall_forall in Hnames.
    destruct (Hnames d Hd Hdig) as [? ?]. congruence.
Qed.

Lemma discover_servers_no_exit (fs : procfs) code :
  discover_servers fs ≠ Exit code.
Proof.
  unfold discover_servers, read_tables.
  destruct (read_table_cases (net_tcp fs) ∅)
    as [[_ ->]|[[_ ->]|[[_ ->]|[_ ->]]]]; simpl; [|done..].
  destruct (read_table_cases (net_tcp6 fs) (foldl add_row ∅ (table_rows (net_tcp fs))))
    as [[_ ->]|[[_ ->]|[[_ ->]|[_ ->]]]]; simpl; [|done..].
  destruct (decide _); [done|].
  by destruct (scan_processes_cases
                 (foldl add_row (foldl add_row ∅ (table_rows (net_tcp fs)))
                    (table_rows (net_tcp6 fs))) (proc_dirs fs) [])
    as [[_ ->]|[_ ->]].
Qed.

End DiscoveryFurther.

Section DiscoveryOrder.
Context `{PyBuiltins}.

Lemma foldl_add_row_union rows (m : gmap Z Z) :
  foldl add_row m rows = foldl add_row ∅ rows ∪ m.
Proof.
  induction rows as [|r rows IH] using rev_ind.
  - simpl. by rewrite (left_id_L ∅ (∪)).
  - rewrite !foldl_snoc, IH. unfold add_row.
    destruct (parse_row r) as [[i p]|]; [|done]. by rewrite insert_union_l.
Qed.

(** X2: when no socket table is headerless and no row of either table is a
    listening row, discovery returns the empty list without looking at a
    single process: whatever [/proc] holds, also names [int] would refuse. *)
Theorem discover_servers_no_listening_socket (fs : procfs) :
  has_header (net_tcp fs) → has_header (net_tcp6 fs) →
  (∀ row inode port, row ∈ all_rows fs → ¬ listening_row row inode port) →
  discover_servers fs = Ret [].
Proof.
  intros H4 H6 Hnone. unfold discover_servers.
  rewrite (read_tables_header _ H4 H6). simpl.
  rewrite decide_True; [done|].
  apply map_empty. intros i.
  destruct (foldl add_row ∅ (all_rows fs) !! i) as [p|] eqn:Hip; [|done].
  apply inode_map_lookup in Hip as (before & line & after & Heq & Hrow & _).
  destruct (Hnone line i p); [|done]. rewrite Heq. set_solver.
Qed.

(** X3: the order in which [/proc] lists its entries does not matter:
    discovery gives the same result, or raises the same exception, on any
    permutation of the entries. *)
Theorem discover_servers_order_independent (t4 t6 : table_file)
    (ds ds' : list proc_entry) :
  ds ≡ₚ ds' →
  discover_servers {| net_tcp := t4; net_tcp6 := t6; proc_dirs := ds |} =
  discover_servers {| net_tcp := t4; net_tcp6 := t6; proc_dirs := ds' |}.
Proof.
  intros Hperm. unfold discover_servers, read_tables. simpl.
  destruct (read_table t4 ∅) as [m4| |]; simpl; [|done..].
  destruct (read_table t6 m4) as [m| |]; simpl; [|done..].
  destruct (decide (m = ∅)); [done|].
  destruct (scan_processes_cases m ds []) as [[Hall ->]|[Hex ->]];
    destruct (scan_processes_cases m ds' []) as [[Hall' ->]|[Hex' ->]]; simpl.
  - f_equal. unfold sorted.
    apply (Sorted_unique tuple_le).
    + apply (Sorted_merge_sort tuple_le).
    + apply (Sorted_merge_sort tuple_le).
    + rewrite !merge_sort_Permutation. by rewrite Hperm.
  - exfalso. rewrite <-Hperm in Hex'.
    apply Exists_exists in Hex' as (d & Hd & Hdig & Hint).
    rewrite Forall_forall in Hall. destruct (Hall d Hd Hdig) as [? ?]. congruence.
  - exfalso. rewrite Hperm in Hex.
    apply Exists_exists in Hex as (d & Hd & Hdig & Hint).
    rewrite Forall_forall in Hall'. destruct (Hall' d Hd Hdig) as [? ?]. congruence.
  - done.
Qed.

(** X4: the two socket tables are merged with the IPv6 table winning: when
    neither is headerless, the inode map is the map of the rows of
    [/proc/net/tcp6] completed, for the inodes it does not list, by the
    map of the rows of [/proc/net/tcp]. *)
Theorem read_tables_ipv6_wins (fs : procfs) :
  has_header (net_tcp fs) → has_header (net_tcp6 fs) →
  read_tables fs =
    Ret (foldl add_row ∅ (table_rows (net_tcp6 fs)) ∪
         foldl add_row ∅ (table_rows (net_tcp fs))).
Proof.
  intros H4 H6. unfold read_tables.
  rewrite (read_table_header _ _ H4). simpl.
  rewrite (read_table_header _ _ H6). by rewrite foldl_add_row_union.
Qed.

End DiscoveryOrder.

(** * Further properties of the lifecycle controller *)

(** ** Grouping *)

Lemma ungroup_setdefault_append grouped spid port :
  ungroup (setdefault_append grouped spid port) ≡ₚ ungroup grouped ++ [(spid, port)].
Proof.
  unfold ungroup. induction grouped as [|[k pl] rest IH]; [done|].
  cbn [setdefault_append]. destruct (decide (k = spid)) as [->|Hne].
  - rewrite !bind_cons. cbn [fst snd]. rewrite fmap_app. cbn [fmap list_fmap].
    rewrite <-!(assoc_L (++)). f_equiv. apply Permutation_app_comm.
  - rewrite !bind_cons, IH. by rewrite (assoc_L (++)).
Qed.

Lemma ungroup_fold servers : ∀ grouped,
  ungroup (foldl (λ g s, setdefault_append g s.1 s.2) grouped servers)
  ≡ₚ ungroup grouped ++ servers.
Proof.
  induction servers as [|[spid port] servers IH]; intros grouped; simpl.
  - by rewrite app_nil_r.
  - rewrite IH, ungroup_setdefault_append. by rewrite <-(assoc_L (++)).
Qed.

Lemma setdefault_append_nonempty grouped spid port :
  Forall (λ g, g.2 ≠ []) grouped →
  Forall (λ g, g.2 ≠ []) (setdefault_append grouped spid port).
Proof.
  induction 1 as [|[k pl] rest Hk Hrest IH]; cbn [setdefault_append].
  - by repeat constructor.
  - destruct (decide (k = spid)) as [->|Hne].
    + constructor; [|done]. simpl. by destruct pl.
    + by constructor.
Qed.

Lemma group_by_pid_head servers :
  head (group_by_pid servers).*1 = head servers.*1.
Proof.
  destruct servers as [|[spid port] servers]; [done|].
  unfold group_by_pid. simpl.
  assert (∀ l g, head (foldl (λ g s, setdefault_append g s.1 s.2) g l).*1 = head g.*1 ∨ g = [])
    as Hhead.
  { clear. induction l as [|[p q] l IH]; intros g; [by left|].
    simpl. destruct g as [|[k pl] rest]; [by right|].
    destruct (IH (setdefault_append ((k, pl) :: rest) p q)) as [->|Hnil].
    - left. simpl. by destruct (decide (k = p)).
    - simpl in Hnil. by destruct (decide (k = p)). }
  by destruct (Hhead servers [(spid, [port])]) as [->|?].
Qed.

(** X5: the grouping by pid neither loses nor invents a pair: its entries,
    taken apart again, are a permutation of the discovery result; no pid
    has two entries, no entry has an empty list of ports, and the first
    entry is that of the first pair. *)
Theorem group_by_pid_keeps_pairs (servers : list (Z * Z)) :
  ungroup (group_by_pid servers) ≡ₚ servers ∧
  NoDup (group_by_pid servers).*1 ∧
  Forall (λ g, g.2 ≠ []) (group_by_pid servers) ∧
  head (group_by_pid servers).*1 = head servers.*1.
Proof.
  split_and!.
  - unfold group_by_pid. by rewrite ungroup_fold.
  - apply group_fold_NoDup. constructor.
  - unfold group_by_pid.
    assert (∀ l grouped, Forall (λ g : Z * list Z, g.2 ≠ []) grouped →
              Forall (λ g, g.2 ≠ [])
                (foldl (λ g s, setdefault_append g s.1 s.2) grouped l)) as Hfold.
    { clear. induction l as [|s l IH]; intros grouped Hg; [exact Hg|].
      simpl. apply IH. by apply setdefault_append_nonempty. }
    apply Hfold. constructor.
  - apply group_by_pid_head.
Qed.

(** ** stop *)

Lemma group_by_pid_cons_nonempty s servers : group_by_pid (s :: servers) ≠ [].
Proof.
  intros Hnil.
  assert (s.1 ∈ (group_by_pid (s :: servers)).*1) as Hin.
  { apply group_fold_keys. right. simpl. left. }
  rewrite Hnil in Hin. by apply elem_of_nil in Hin.
Qed.

Lemma group_by_pid_one_entry servers pid ports :
  group_by_pid servers = [(pid, ports)] → ∀ x, x ∈ servers → x.1 = pid.
Proof.
  intros Hg x Hx.
  assert (x.1 ∈ (group_by_pid servers).*1) as Hin.
  { apply group_fold_keys. right. apply list_elem_of_fmap. by exists x. }
  rewrite Hg in Hin. simpl in Hin. by apply list_elem_of_singleton in Hin.
Qed.

Section StopFurther.
Context `{PyBuiltins} {W : Type} `{OS W}.

Lemma kill_Forall pid s (w : W) : Forall (is_stop_event pid) (trace (kill pid s w)).
Proof. unfold kill. destruct (os_kill pid s w). by repeat constructor. Qed.

Lemma kill_unless_gone_Forall pid s (w : W) :
  Forall (is_stop_event pid) (trace (kill_unless_gone pid s w)).
Proof.
  unfold kill_unless_gone. apply bind_Forall; [apply kill_Forall|].
  intros [] w'; constructor.
Qed.

Lemma wait_gone_Forall n pid : ∀ w : W,
  Forall (is_stop_event pid) (trace (wait_gone n pid w)).
Proof.
  induction n as [|n IH]; intros w; [constructor|].
  cbn [wait_gone]. apply bind_Forall; [apply kill_Forall|].
  intros [] w'; [|constructor..].
  apply bind_Forall; [by repeat constructor|]. intros _ w''. apply IH.
Qed.

Lemma stop_pid_Forall pid ports (w : W) :
  Forall (is_stop_event pid) (trace (stop_pid pid ports w)).
Proof.
  unfold stop_pid.
  apply bind_Forall; [by repeat constructor|intros _ ?].
  apply bind_Forall; [apply kill_unless_gone_Forall|intros _ ?].
  apply bind_Forall; [apply wait_gone_Forall|intros [] ?]; [by repeat constructor|].
  apply bind_Forall; [apply kill_Forall|intros [] ?]; [|by repeat constructor..].
  apply bind_Forall; [by repeat constructor|intros _ ?].
  apply bind_Forall; [apply kill_unless_gone_Forall|intros _ ?].
  by repeat constructor.
Qed.

Lemma stop_events_quiet pid t :
  Forall (is_stop_event pid) t →
  forks t = [] ∧ probes t = [] ∧ moves t = [] ∧ requests t = [] ∧
  discoveries t = [] ∧ ∀ p s k, (p, s, k) ∈ kills t → p = pid.
Proof.
  intros Ht. split_and!;
    try (apply (quiet_projection _ (is_stop_event pid)); [by intros []|done]).
  intros p s k (e & He & Heq)%list_elem_of_omap.
  rewrite Forall_forall in Ht. specialize (Ht e He).
  destruct e; try done. simpl in Ht. by injection Heq as <- _ _.
Qed.

(** X6: when discovery returns nothing, or nothing on the port given,
    [stop] says so ("No running server detected", "No server on specified
    port"), calls [os.kill] not once and returns normally, the world being
    as the scan left it. *)
Theorem server_stop_nothing_to_stop args (w w' : W) fs servers0 :
  os_proc w = (fs, w') →
  discover_servers fs = Ret servers0 →
  filter_port (a_port args) servers0 = [] →
  server_stop args w =
    Run (Ret ()) w'
      [EvDiscover (Ret servers0);
       EvPrint (match servers0 with
                | [] => MsgNoRunning
                | _ => MsgNoServerOnPort
                end) ColorY].
Proof.
  intros Hp Hd Hf. unfold server_stop.
  rewrite M_bind_unfold, (discover_run _ _ _ Hp), Hd. cbn [outcome final trace].
  destruct servers0 as [|s0 servers0]; [done|]. by rewrite Hf.
Qed.

Lemma scan_then_stop_events pid dr t :
  Forall (is_stop_event pid) t →
  discoveries (EvDiscover dr :: t) = [dr] ∧
  forks (EvDiscover dr :: t) = [] ∧ probes (EvDiscover dr :: t) = [] ∧
  moves (EvDiscover dr :: t) = [] ∧ requests (EvDiscover dr :: t) = [] ∧
  kills (EvDiscover dr :: t) = kills t.
Proof.
  intros (Hfk & Hpr & Hmv & Hrq & Hds & _)%stop_events_quiet.
  unfold discoveries, forks, probes, moves, requests, kills in *.
  rewrite !omap_step. cbn beta iota. by rewrite Hfk, Hpr, Hmv, Hrq, Hds.
Qed.

(** X7: whatever the world does, [stop] scans once and then only prints,
    sleeps and calls [os.kill]: it never forks, probes a port, moves a file
    or sends a request; and every call of [os.kill] is on one pid, the pid
    of every pair that discovery returned for the port filter. *)
Theorem server_stop_signals_only_discovered args (w : W) :
  let r := server_stop args w in
  List.length (discoveries (trace r)) = 1%nat ∧
  forks (trace r) = [] ∧ probes (trace r) = [] ∧
  moves (trace r) = [] ∧ requests (trace r) = [] ∧
  ∀ pid s k, (pid, s, k) ∈ kills (trace r) →
    ∃ servers0,
      discoveries (trace r) = [Ret servers0] ∧
      filter_port (a_port args) servers0 ≠ [] ∧
      ∀ x, x ∈ filter_port (a_port args) servers0 → x.1 = pid.
Proof.
  intros r. unfold r, server_stop. rewrite M_bind_unfold.
  destruct (os_proc w) as [fs w'] eqn:Hp. rewrite (discover_run _ _ _ Hp).
  cbn [outcome final trace].
  destruct (discover_servers fs) as [servers0| |];
    [|split_and!; try done; by intros ? ? ? ?%elem_of_nil..].
  cbn [outcome final trace].
  destruct servers0 as [|s0 servers0];
    [split_and!; try done; by intros ? ? ? ?%elem_of_nil|].
  destruct (filter_port (a_port args) (s0 :: servers0)) as [|s servers] eqn:Hf;
    [split_and!; try done; by intros ? ? ? ?%elem_of_nil|].
  destruct (1 <? List.length (group_by_pid (s :: servers)))%nat eqn:Hlen.
  - rewrite M_bind_unfold. cbn [cprint outcome final trace].
    rewrite M_bind_unfold, print_groups_run. cbn [outcome final trace app].
    set (t := EvPrint MsgAmbiguousStop ColorY :: _).
    assert (Forall (is_stop_event 0) t ∧ kills t = []) as [Hall Hkills].
    { unfold t. split.
      - constructor; [done|]. apply Forall_app. split.
        + apply Forall_fmap, Forall_true. done.
        + destruct (a_port args); by repeat constructor.
      - pose proof (listing_kills (group_by_pid (s :: servers))) as Hlk.
        unfold kills in *. rewrite omap_step. cbn beta iota.
        rewrite omap_app, Hlk. by destruct (a_port args). }
    destruct (scan_then_stop_events 0 (Ret (s0 :: servers0)) t Hall)
      as (-> & -> & -> & -> & -> & ->).
    rewrite Hkills. split_and!; try done. by intros ? ? ? ?%elem_of_nil.
  - destruct (group_by_pid (s :: servers)) as [|[pid ports] rest] eqn:Hg;
      [by destruct (group_by_pid_cons_nonempty s servers)|].
    assert (rest = []) as ->.
    { apply Nat.ltb_ge in Hlen. destruct rest; [done|simpl in Hlen; lia]. }
    cbn [outcome final trace app].
    pose proof (stop_pid_Forall pid ports w') as Hall.
    destruct (scan_then_stop_events pid (Ret (s0 :: servers0)) _ Hall)
      as (-> & -> & -> & -> & -> & ->).
    split_and!; try done.
    intros p sg k Hin. exists (s0 :: servers0). split; [done|].
    rewrite Hf. split; [done|]. intros x Hx.
    destruct (stop_events_quiet _ _ Hall) as (_ & _ & _ & _ & _ & Hk).
    rewrite (Hk p sg k Hin). by apply (group_by_pid_one_entry _ _ _ Hg).
Qed.

(** X19: [stop] never ends through [sys.exit], and it fails in two ways
    only: the scan raised, and then nothing else was done; or the process
    refused [SIGTERM] or [SIGKILL] with [PermissionError], the refused call
    being the last action.  Whenever it returns, the scan had returned and
    the last action was a message. *)
Theorem server_stop_failure_modes args (w : W) :
  let r := server_stop args w in
  (∀ c, outcome r ≠ Exit c) ∧
  (∀ e, outcome r = Raise e →
     trace r = [EvDiscover (Raise e)] ∨
     e = PermissionError ∧
     ∃ pid s, s ≠ Sig0 ∧ last (trace r) = Some (EvKill pid s KillDenied)) ∧
  (∀ u, outcome r = Ret u →
     ∃ servers0 m c, discoveries (trace r) = [Ret servers0] ∧
                     last (trace r) = Some (EvPrint m c)).
Proof.
  intros r. unfold r, server_stop. rewrite M_bind_unfold.
  destruct (os_proc w) as [fs w'] eqn:Hp. rewrite (discover_run _ _ _ Hp).
  cbn [outcome final trace].
  destruct (discover_servers fs) as [servers0|c|e] eqn:Hd;
    [|by destruct (discover_servers_no_exit fs c)
     |split_and!; [done| |done]; intros ? [= <-]; by left].
  cbn [outcome final trace].
  destruct servers0 as [|s0 servers0];
    [cbn; split_and!; [done|done|]; intros _ _; by eexists _, _, _|].
  destruct (filter_port (a_port args) (s0 :: servers0)) as [|s servers] eqn:Hf;
    [cbn; split_and!; [done|done|]; intros _ _; by eexists _, _, _|].
  destruct (1 <? List.length (group_by_pid (s :: servers)))%nat eqn:Hlen.
  - rewrite M_bind_unfold. cbn [cprint outcome final trace].
    rewrite M_bind_unfold, print_groups_run. cbn [outcome final trace app].
    destruct (group_by_pid (s :: servers)) as [|g grouped _] eqn:Hg
      using rev_ind; [by destruct (group_by_pid_cons_nonempty s servers)|].
    assert (∃ m c, last (EvDiscover (Ret (s0 :: servers0)) ::
                         EvPrint MsgAmbiguousStop ColorY ::
                         (listing_line <$> grouped ++ [g]) ++
                         trace (match a_port args with
                                | Some _ => M_ret ()
                                | None => cprint MsgHintPort ColorC
                                end w')) = Some (EvPrint m c)) as (m & c & Hlast).
    { rewrite fmap_app. destruct g as [spid pl].
      destruct (a_port args); cbn [M_ret cprint trace fmap list_fmap listing_line].
      - rewrite app_nil_r, !last_cons, last_snoc. eauto.
      - rewrite !last_cons, last_app. cbn. eauto. }
    assert (outcome (match a_port args with
                     | Some _ => M_ret ()
                     | None => cprint MsgHintPort ColorC
                     end w') = Ret ()) as Hout by by destruct (a_port args).
    rewrite Hout. split_and!; [done|done|].
    intros _ _. exists (s0 :: servers0), m, c. split; [|done].
    unfold discoveries. rewrite !omap_step. cbn beta iota.
    rewrite omap_app.
    pose proof (quiet_projection
                  (λ e, match e with EvDiscover r => Some r | _ => None end)
                  (is_stop_event 0)) as Hq.
    rewrite !Hq; [done|by intros []| |by intros []|].
    + destruct (a_port args); by repeat constructor.
    + apply Forall_fmap, Forall_true. done.
  - destruct (group_by_pid (s :: servers)) as [|[pid ports] rest] eqn:Hg;
      [by destruct (group_by_pid_cons_nonempty s servers)|].
    cbn [outcome final trace app].
    pose proof (stop_pid_Forall pid ports w') as Hall.
    destruct (scan_then_stop_events pid (Ret (s0 :: servers0)) _ Hall)
      as (Hdisc & _).
    destruct (stop_pid_run pid ports w') as (k0 & tail & Ht & Hdenied & Hshape).
    rewrite Hdisc. rewrite Ht in *.
    assert (k0 = KillDenied ∨ k0 ≠ KillDenied) as [->|Hk0]
      by (destruct k0; auto).
    { destruct (Hdenied eq_refl) as [-> ->].
      split_and!; [done| |done].
      intros e [= <-]. right. split; [done|]. by exists pid, SIGTERM. }
    destruct (Hshape Hk0) as [(j & g & _ & _ & -> & ->)|(k & -> & ->)].
    + split_and!; [done|done|]. intros _ _.
      exists (s0 :: servers0), MsgStopped, ColorG. split; [done|].
      rewrite !last_cons, last_app. done.
    + destruct k.
      * split_and!; [done|done|]. intros _ _.
        exists (s0 :: servers0), MsgStopped, ColorG. split; [done|].
        rewrite !last_cons, !last_app. done.
      * split_and!; [done|done|]. intros _ _.
        exists (s0 :: servers0), MsgStopped, ColorG. split; [done|].
        rewrite !last_cons, !last_app. done.
      * split_and!; [done| |done]. intros e [= <-]. right. split; [done|].
        exists pid, SIGKILL. split; [done|].
        rewrite !last_cons, !last_app. done.
Qed.

End StopFurther.

(** ** status *)

Lemma StronglySorted_filter_keep {A} (R : relation A) (P : A → Prop)
    `{∀ x, Decision (P x)} l :
  StronglySorted R l → StronglySorted R (filter P l).
Proof.
  induction 1 as [|x l Hl IH Hx]; [constructor|].
  rewrite filter_cons. destruct (decide (P x)); [|done].
  constructor; [done|]. apply Forall_forall.
  intros y [_ Hy]%list_elem_of_filter. rewrite Forall_forall in Hx. by apply Hx.
Qed.

Lemma listing_requests grouped : requests (listing_line <$> grouped) = [].
Proof. by induction grouped. Qed.

Section StatusFurther.
Context `{PyBuiltins} {W : Type} `{OS W}.

Lemma discover_servers_sorted fs servers :
  discover_servers fs = Ret servers → Sorted tuple_le servers.
Proof.
  unfold discover_servers.
  destruct (read_tables fs) as [m| |]; simpl; [|done..].
  destruct (decide (m = ∅)); [intros [= <-]; constructor|].
  destruct (scan_processes m (proc_dirs fs) []) as [results| |]; simpl; [|done..].
  intros [= <-]. apply (Sorted_merge_sort tuple_le).
Qed.

Lemma report_running_run args pid ports (w : W) :
  report_running args pid ports w =
    match ports with
    | [port] =>
        Run (Ret ())
          (os_urlopen (a_bind args) port (a_timeout args) (os_sleep w)).2
          (EvPrint (MsgRunning pid (sorted_ints ports)) ColorG :: EvSleep ::
           EvUrlopen (a_bind args) port
             (os_urlopen (a_bind args) port (a_timeout args) (os_sleep w)).1 ::
           health_report
             (os_urlopen (a_bind args) port (a_timeout args) (os_sleep w)).1)
    | _ => Run (Ret ()) w [EvPrint (MsgRunning pid (sorted_ints ports)) ColorG]
    end.
Proof.
  unfold report_running. rewrite M_bind_unfold. cbn [cprint outcome final trace].
  destruct ports as [|port [|]]; [done| |done].
  rewrite M_bind_unfold. cbn [sleep outcome final trace].
  rewrite M_bind_unfold. unfold urlopen.
  destruct (os_urlopen (a_bind args) port (a_timeout args) (os_sleep w)) as [[st|e] w1];
    done.
Qed.

Lemma report_running_Forall args pid ports (w : W) :
  outcome (report_running args pid ports w) = Ret () ∧
  Forall is_status_event (trace (report_running args pid ports w)) ∧
  (List.length (sleeps (trace (report_running args pid ports w))) ≤ 1)%nat ∧
  (List.length (requests (trace (report_running args pid ports w))) ≤ 1)%nat.
Proof.
  rewrite report_running_run. destruct ports as [|port [|]].
  - split_and!; [done|by repeat constructor|simpl; lia..].
  - cbn [outcome trace].
    destruct (os_urlopen (a_bind args) port (a_timeout args) (os_sleep w)) as [[st|e] w1];
      (split_and!; [done|by repeat constructor|simpl; lia..]).
  - split_and!; [done|by repeat constructor|simpl; lia..].
Qed.

Lemma status_events_quiet t :
  Forall is_status_event t →
  kills t = [] ∧ forks t = [] ∧ probes t = [] ∧ moves t = [] ∧ discoveries t = [].
Proof.
  intros Ht. split_and!;
    apply (quiet_projection _ is_status_event); try done; by intros [].
Qed.

Lemma listing_status grouped : Forall is_status_event (listing_line <$> grouped).
Proof. apply Forall_fmap, Forall_true. done. Qed.

(** X8: [status] is read-only, whatever the world does: it scans once,
    calls [os.kill] not once, never forks, never probes a port and moves no
    file; it sleeps at most once and sends at most one request; and it
    returns normally whenever the scan returns. *)
Theorem server_status_read_only args (w : W) :
  let r := server_status args w in
  List.length (discoveries (trace r)) = 1%nat ∧
  kills (trace r) = [] ∧ forks (trace r) = [] ∧
  probes (trace r) = [] ∧ moves (trace r) = [] ∧
  (List.length (sleeps (trace r)) ≤ 1)%nat ∧
  (List.length (requests (trace r)) ≤ 1)%nat ∧
  ∀ servers0, discoveries (trace r) = [Ret servers0] → outcome r = Ret ().
Proof.
  intros r.
  assert (∃ dr t,
            trace r = EvDiscover dr :: t ∧ Forall is_status_event t ∧
            (List.length (sleeps t) ≤ 1)%nat ∧ (List.length (requests t) ≤ 1)%nat ∧
            ∀ servers0, dr = Ret servers0 → outcome r = Ret ())
    as (dr & t & -> & Hall & Hs & Hr & Ho).
  { unfold r, server_status. rewrite M_bind_unfold.
    destruct (os_proc w) as [fs w'] eqn:Hp. rewrite (discover_run _ _ _ Hp).
    cbn [outcome final trace].
    destruct (discover_servers fs) as [servers0| |];
      [|eexists _, []; split_and!; [done|constructor|simpl; lia|simpl; lia|done]..].
    cbn [outcome final trace app].
    destruct servers0 as [|s0 servers0];
      [eexists _, _; split_and!; [done|by repeat constructor|simpl; lia|simpl; lia|done]|].
    destruct (filter_port (a_port args) (s0 :: servers0)) as [|s servers];
      [eexists _, _; split_and!; [done|by repeat constructor|simpl; lia|simpl; lia|done]|].
    destruct ((1 <? List.length (group_by_pid (s :: servers)))%nat &&
              bool_decide (a_port args = None)).
    - rewrite M_bind_unfold. cbn [cprint outcome final trace].
      rewrite M_bind_unfold, print_groups_run. cbn [cprint outcome final trace app].
      eexists _, _. split; [reflexivity|].
      pose proof (listing_sleeps (group_by_pid (s :: servers))) as Hls.
      pose proof (listing_requests (group_by_pid (s :: servers))) as Hlr.
      split_and!; [| | |done].
      + constructor; [done|]. apply Forall_app. split; [apply listing_status|].
        by repeat constructor.
      + unfold sleeps in *. rewrite omap_step. cbn beta iota.
        rewrite omap_app, Hls. simpl. lia.
      + unfold requests in *. rewrite omap_step. cbn beta iota.
        rewrite omap_app, Hlr. simpl. lia.
    - destruct (group_by_pid (s :: servers)) as [|[pid ports] rest] eqn:Hg;
        [by destruct (group_by_pid_cons_nonempty s servers)|].
      destruct (report_running_Forall args pid ports w') as (Ho & Hall & Hs & Hr).
      cbn [outcome final trace]. eexists _, _. split; [reflexivity|]. done. }
  destruct (status_events_quiet _ Hall) as (Hk & Hf & Hp & Hm & Hd).
  unfold discoveries, kills, forks, probes, moves, sleeps, requests in *.
  rewrite !omap_step. cbn beta iota. rewrite Hk, Hf, Hp, Hm, Hd.
  split_and!; try done. intros servers0 [= ->]. by eapply Ho.
Qed.

(** X9: with one instance on one port (the filtered discovery result is a
    single pair), [status] reports it as running, sleeps once, sends one
    request to the bind address and that port with the timeout given, and
    reports the health: "Health OK" with the HTTP status, or "Health check
    failed" with the error and the possible causes; either way it returns
    normally, the process having been reported as running before. *)
Theorem server_status_health_check args (w w' w'' : W) fs servers0 pid port r :
  os_proc w = (fs, w') →
  discover_servers fs = Ret servers0 →
  filter_port (a_port args) servers0 = [(pid, port)] →
  os_urlopen (a_bind args) port (a_timeout args) (os_sleep w') = (r, w'') →
  server_status args w =
    Run (Ret ()) w''
      (EvDiscover (Ret servers0) ::
       EvPrint (MsgRunning pid [port]) ColorG :: EvSleep ::
       EvUrlopen (a_bind args) port r :: health_report r).
Proof.
  intros Hp Hd Hf Hu. unfold server_status.
  rewrite M_bind_unfold, (discover_run _ _ _ Hp), Hd. cbn [outcome final trace].
  destruct servers0 as [|s0 servers0]; [by destruct (a_port args)|].
  rewrite Hf. change (group_by_pid [(pid, port)]) with [(pid, [port])].
  cbn [length Nat.ltb Nat.leb andb]. rewrite report_running_run, Hu. done.
Qed.

(** X10: an instance that serves several ports is reported as running with
    all its ports in increasing order, and its health is not probed: no
    request is sent. *)
Theorem server_status_several_ports args (w w' : W) fs servers0 pid :
  os_proc w = (fs, w') →
  discover_servers fs = Ret servers0 →
  let servers := filter_port (a_port args) servers0 in
  (∀ x, x ∈ servers → x.1 = pid) →
  (2 ≤ List.length servers)%nat →
  Sorted Z.le (sorted_ints servers.*2) ∧
  sorted_ints servers.*2 ≡ₚ servers.*2 ∧
  server_status args w =
    Run (Ret ()) w'
      [EvDiscover (Ret servers0);
       EvPrint (MsgRunning pid (sorted_ints servers.*2)) ColorG].
Proof.
  intros Hp Hd servers Hall Hlen. split; [apply (Sorted_merge_sort Z.le)|].
  split; [apply merge_sort_Permutation|].
  unfold server_status.
  rewrite M_bind_unfold, (discover_run _ _ _ Hp), Hd. cbn [outcome final trace].
  destruct servers0 as [|s0 servers0];
    [unfold servers in Hlen; destruct (a_port args); simpl in Hlen; lia|].
  fold servers.
  assert (servers ≠ []) as Hne by (intros Heq; rewrite Heq in Hlen; simpl in Hlen; lia).
  rewrite (group_by_pid_single _ _ Hne Hall).
  destruct servers as [|s1 [|s2 rest]] eqn:Hs; [done|simpl in Hlen; lia|].
  cbn [length Nat.ltb Nat.leb andb]. rewrite report_running_run. done.
Qed.

(** X11: with a port given, [status] never refuses: among the processes
    that discovery returned for that port it reports the one with the
    smallest pid as running. *)
Theorem server_status_reports_smallest_pid args (w w' : W) fs servers0 p :
  a_port args = Some p →
  os_proc w = (fs, w') →
  discover_servers fs = Ret servers0 →
  filter_port (Some p) servers0 ≠ [] →
  ∃ pid ports health,
    trace (server_status args w) =
      EvDiscover (Ret servers0) ::
      EvPrint (MsgRunning pid (sorted_ints ports)) ColorG :: health ∧
    outcome (server_status args w) = Ret () ∧
    pid ∈ (filter_port (Some p) servers0).*1 ∧
    Forall (λ port, port = p) ports ∧
    ∀ x, x ∈ filter_port (Some p) servers0 → pid ≤ x.1.
Proof.
  intros Hport Hp Hd Hne. unfold server_status.
  rewrite M_bind_unfold, (discover_run _ _ _ Hp), Hd, Hport. cbn [outcome final trace].
  destruct servers0 as [|s0 servers0]; [done|].
  destruct (filter_port (Some p) (s0 :: servers0)) as [|s servers] eqn:Hf; [done|].
  rewrite (bool_decide_false (Some p = None)) by done. rewrite andb_false_r.
  destruct (group_by_pid (s :: servers)) as [|[pid ports] rest] eqn:Hg;
    [by destruct (group_by_pid_cons_nonempty s servers)|].
  destruct (report_running_Forall args pid ports w') as (Ho & _).
  assert (pid = s.1) as ->.
  { pose proof (group_by_pid_head (s :: servers)) as Hh. rewrite Hg in Hh.
    by injection Hh. }
  assert (ports = (filter (λ x, x.1 = s.1) (s :: servers)).*2) as Hports.
  { assert ((s.1, ports) ∈ group_by_pid (s :: servers)) as Hin by (rewrite Hg; left).
    by apply group_by_pid_elem in Hin as [_ ->]. }
  assert (∀ x, x ∈ s :: servers → x.2 = p) as Hallp.
  { intros x Hx. rewrite <-Hf in Hx. simpl in Hx.
    by apply list_elem_of_filter in Hx as [? _]. }
  unfold report_running in *. rewrite M_bind_unfold in *.
  cbn [cprint outcome final trace app] in *.
  eexists s.1, ports, _. split; [reflexivity|]. split; [done|].
  split; [simpl; left|]. split.
  - rewrite Hports. apply Forall_fmap, Forall_forall.
    intros x [_ Hx]%list_elem_of_filter. by apply Hallp.
  - assert (StronglySorted tuple_le (s :: servers)) as Hsorted.
    { rewrite <-Hf. simpl. apply StronglySorted_filter_keep.
      apply Sorted_StronglySorted; [apply _|]. by eapply discover_servers_sorted. }
    apply StronglySorted_inv in Hsorted as [_ Hle].
    intros x [->|Hx]%elem_of_cons; [lia|].
    rewrite Forall_forall in Hle. specialize (Hle x Hx).
    unfold tuple_le in Hle. lia.
Qed.

(** X12: when discovery returns nothing, or nothing on the port given,
    [status] reports "Not running" ("Not running on specified port") and
    returns normally, so the exit code is 0; it sends no request. *)
Theorem server_status_not_running args (w w' : W) fs servers0 :
  os_proc w = (fs, w') →
  discover_servers fs = Ret servers0 →
  filter_port (a_port args) servers0 = [] →
  server_status args w =
    Run (Ret ()) w'
      [EvDiscover (Ret servers0);
       EvPrint (match servers0 with
                | [] => MsgNotRunning
                | _ => MsgNotRunningOnPort
                end) ColorR].
Proof.
  intros Hp Hd Hf. unfold server_status.
  rewrite M_bind_unfold, (discover_run _ _ _ Hp), Hd. cbn [outcome final trace].
  destruct servers0 as [|s0 servers0]; [done|]. by rewrite Hf.
Qed.

End StatusFurther.

(** ** start *)

Lemma after_fork_quiet t :
  Forall is_after_fork_event t →
  kills t = [] ∧ forks t = [] ∧ probes t = [] ∧ moves t = [] ∧ requests t = [].
Proof.
  intros Ht. split_and!;
    apply (quiet_projection _ is_after_fork_event); try done;
    by intros [] [? | ?].
Qed.

Section StartFurther.
Context `{PyBuiltins} {W : Type} `{OS W}.

Lemma confirm_poll_Forall n port pid : ∀ w : W,
  Forall is_poll_event (trace (confirm_poll n port pid w)).
Proof.
  induction n as [|n IH]; intros w; [by repeat constructor|].
  cbn [confirm_poll]. apply bind_Forall.
  - unfold discover. destruct (os_proc w). by repeat constructor.
  - intros servers w'. destruct ((filter (λ s, s.2 = port) servers).*1);
      [|by repeat constructor].
    apply bind_Forall; [by repeat constructor|]. intros _ w''. apply IH.
Qed.

Lemma launch_guard args port sd lf (w : W) :
  let r := launch args port sd lf w in
  kills (trace r) = [] ∧ moves (trace r) = [] ∧ requests (trace r) = [] ∧
  List.length (probes (trace r)) = 1%nat ∧
  (List.length (forks (trace r)) ≤ 1)%nat ∧
  (forks (trace r) ≠ [] → probes (trace r) = [Ret false]).
Proof.
  unfold launch. rewrite M_bind_unfold. unfold connect_ex.
  destruct (os_connect_ex (a_bind args) port w) as [cr w1].
  cbn [outcome final trace].
  destruct cr as [[]|c|e]; [|
                            |split_and!; try done; simpl; lia..].
  { rewrite M_bind_unfold. cbn. split_and!; try done. lia. }
  rewrite M_bind_unfold.
  set (warn := if (a_bind args =? "0.0.0.0")%string
               then cprint MsgWarnAllInterfaces ColorY else M_ret ()).
  assert (∃ t, warn w1 = Run (Ret ()) w1 t ∧ Forall is_poll_event t)
    as (t & -> & Hw).
  { unfold warn. destruct (a_bind args =? "0.0.0.0")%string;
      eexists; (split; [reflexivity|]); by repeat constructor. }
  cbn [outcome final trace].
  rewrite M_bind_unfold. cbn [cprint outcome final trace].
  rewrite M_bind_unfold. unfold fork.
  destruct (os_fork w1) as [fr w2]. cbn [outcome final trace].
  assert (∃ tail,
            Forall is_after_fork_event tail ∧
            trace (match fr with
                   | Ret a =>
                       Run (outcome ((if a >? 0 then confirm_poll 30 port a
                                      else serve_child args port sd lf) w2))
                           (final ((if a >? 0 then confirm_poll 30 port a
                                    else serve_child args port sd lf) w2))
                           ([EvFork fr] ++
                            trace ((if a >? 0 then confirm_poll 30 port a
                                    else serve_child args port sd lf) w2))
                   | Exit c => Run (Exit c) w2 [EvFork fr]
                   | Raise e => Run (Raise e) w2 [EvFork fr]
                   end) = EvFork fr :: tail) as (tail & Htail & Heq).
  { destruct fr as [pid| |]; [|by exists []..].
    eexists. split; [|reflexivity]. destruct (pid >? 0).
    - eapply Forall_impl; [apply confirm_poll_Forall|]. by left.
    - eapply Forall_impl; [apply serve_child_Forall|]. by right. }
  assert (Forall is_after_fork_event (t ++ [EvPrint (MsgStarting (a_bind args) port sd) ColorC]))
    as Hpre.
  { apply Forall_app. split; [|by repeat constructor; left].
    eapply Forall_impl; [exact Hw|]. by left. }
  destruct (after_fork_quiet _ Hpre) as (Hk1 & Hf1 & Hp1 & Hm1 & Hr1).
  destruct (after_fork_quiet _ Htail) as (Hk2 & Hf2 & Hp2 & Hm2 & Hr2).
  match goal with |- context [trace ?x] =>
    match x with context [EvFork] => change (trace x) with (trace x); rewrite Heq end end.
  rewrite (assoc_L (++) t).
  unfold kills, forks, probes, moves, requests in *.
  cbn [app]. rewrite !omap_step. cbn beta iota.
  rewrite !(omap_app _ (t ++ _)), !omap_step. cbn beta iota.
  rewrite Hk1, Hf1, Hp1, Hm1, Hr1, Hk2, Hf2, Hp2, Hm2, Hr2.
  split_and!; done.
Qed.

Lemma server_start_no_signal args (w : W) :
  kills (trace (server_start args w)) = [].
Proof.
  destruct (server_start_shape args w) as (T & -> & Hshape).
  destruct (migrate_log_run args (os_resolve w (a_log_file args)) w) as [_ Hmig].
  destruct (migration_quiet _ Hmig) as (_ & _ & _ & _ & Hmk & _).
  unfold kills in *. rewrite omap_app, Hmk. cbn [app].
  destruct Hshape as [(_ & -> & _)|(_ & fs & w2 & _ & Hrest)]; [done|].
  destruct Hrest as [(_ & -> & _)|(servers & _ & Hrest)]; [done|].
  destruct Hrest as [(pid0 & _ & -> & _)|(_ & -> & _)]; [done|].
  destruct (launch_guard args (default DEFAULT_PORT (a_port args))
              (os_resolve w (a_dir args)) (os_resolve w (a_log_file args)) w2)
    as (Hk & _).
  unfold kills in Hk. rewrite omap_step. cbn beta iota. exact Hk.
Qed.

(** X13: [start] forks at most once, and only after one probe of the port
    that found nothing answering, which it makes only after a discovery
    that reported no instance on the port; it never calls [os.kill] and
    never sends a request. *)
Theorem server_start_fork_guard args (w : W) :
  let port := default DEFAULT_PORT (a_port args) in
  let r := server_start args w in
  kills (trace r) = [] ∧ requests (trace r) = [] ∧
  (List.length (probes (trace r)) ≤ 1)%nat ∧
  (List.length (forks (trace r)) ≤ 1)%nat ∧
  (probes (trace r) ≠ [] →
     ∃ servers, head (discoveries (trace r)) = Some (Ret servers) ∧
                port ∉ servers.*2) ∧
  (forks (trace r) ≠ [] → probes (trace r) = [Ret false]).
Proof.
  intros port r. unfold r.
  destruct (server_start_shape args w) as (T & -> & Hshape).
  destruct (migrate_log_run args (os_resolve w (a_log_file args)) w) as [_ Hmig].
  destruct (migration_quiet _ Hmig) as (Hmd & Hmf & _ & Hmp & Hmk & _).
  assert (requests (trace (migrate_log args (os_resolve w (a_log_file args)) w)) = [])
    as Hmr by (apply (quiet_projection _ is_migration); [by intros []|done]).
  unfold kills, requests, probes, forks, discoveries in *.
  rewrite !omap_app, Hmd, Hmf, Hmp, Hmk, Hmr. cbn [app].
  destruct Hshape as [(_ & -> & _)|(_ & fs & w2 & _ & Hrest)];
    [split_and!; try done; simpl; lia|].
  destruct Hrest as [(_ & -> & _)|(servers & _ & Hrest)];
    [split_and!; try done; simpl; lia|].
  destruct Hrest as [(pid0 & _ & -> & _)|(Hnot & -> & _)];
    [split_and!; try done; simpl; lia|].
  fold port in Hnot |- *.
  destruct (launch_guard args port (os_resolve w (a_dir args))
              (os_resolve w (a_log_file args)) w2) as (Hk & _ & Hr & Hp & Hf & Hfp).
  unfold kills, requests, probes, forks in *.
  rewrite !omap_step. cbn beta iota. split_and!; try done; [lia|].
  intros _. by exists servers.
Qed.

Lemma filter_port_misses port (servers : list (Z * Z)) :
  (filter (λ s, s.2 = port) servers).*1 = [] → port ∉ servers.*2.
Proof.
  intros Hnil Hin. apply list_elem_of_fmap in Hin as ([pid p] & Heq & Hin).
  cbn in Heq. subst port.
  assert ((pid, p) ∈ filter (λ s, s.2 = p) servers) as Hf
    by by apply list_elem_of_filter.
  apply fmap_nil_inv in Hnil. rewrite Hnil in Hf. by apply elem_of_nil in Hf.
Qed.

(** X16: when the parent reports [Started (PID n)], the report is its last
    action and it returns; every discovery before the last one reported
    nothing on the port, each followed by one sleep, and [n] is the pid of
    the first pair with the port in the last discovery, whatever pid the
    fork returned. *)
Theorem confirm_poll_reports_discovered_pid n port pid : ∀ (w : W) spid c,
  (MsgStarted spid, c) ∈ prints (trace (confirm_poll n port pid w)) →
  let r := confirm_poll n port pid w in
  ∃ earlier servers,
    discoveries (trace r) = earlier ++ [Ret servers] ∧
    Forall (misses port) earlier ∧
    head (filter (λ s, s.2 = port) servers) = Some (spid, port) ∧
    List.length (sleeps (trace r)) = List.length earlier ∧
    last (trace r) = Some (EvPrint (MsgStarted spid) ColorG) ∧
    outcome r = Ret () ∧ c = ColorG.
Proof.
  induction n as [|n IH]; intros w spid c Hin; cbv zeta.
  { cbn in Hin. apply list_elem_of_singleton in Hin. discriminate Hin. }
  revert Hin. cbn [confirm_poll]. rewrite M_bind_unfold. unfold discover.
  destruct (os_proc w) as [fs w1]. cbn [outcome final trace].
  destruct (discover_servers fs) as [servers|code|e];
    [|intros Hin; cbn in Hin; by apply elem_of_nil in Hin..].
  destruct (filter (λ s, s.2 = port) servers) as [|[spid' p'] rest] eqn:Hf.
  - cbn [fmap list_fmap]. rewrite M_bind_unfold.
    cbn [sleep outcome final trace app]. intros Hin.
    unfold prints in Hin. rewrite !omap_step in Hin. cbn beta iota in Hin.
    destruct (IH (os_sleep w1) spid c Hin)
      as (earlier & servers' & Hd & Hm & Hh & Hs & Hl & Ho & Hc).
    exists (Ret servers :: earlier), servers'.
    unfold discoveries, sleeps in *. rewrite !omap_step. cbn beta iota.
    rewrite Hd. cbn [length]. rewrite Hs. split_and!; try done.
    + constructor; [|done]. exists servers. split; [done|].
      apply filter_port_misses. by rewrite Hf.
    + rewrite !last_cons, Hl. done.
  - cbn [fmap list_fmap fst cprint outcome final trace app]. intros Hin.
    unfold prints in Hin. rewrite !omap_step in Hin. cbn beta iota in Hin.
    rewrite omap_empty in Hin.
    apply list_elem_of_singleton in Hin. injection Hin as <- ->.
    assert (p' = port) as ->.
    { assert ((spid, p') ∈ filter (λ s, s.2 = port) servers) as Hx
        by (rewrite Hf; left).
      by apply list_elem_of_filter in Hx as [? _]. }
    exists [], servers. rewrite Hf. by split_and!.
Qed.

End StartFurther.

(** ** The detached child and the log relocation *)

Section ChildFurther.
Context `{PyBuiltins} {W : Type} `{OS W}.

Lemma child_or_raise_unfold s (w : W) :
  child_or_raise s w =
    Run (if (os_child s w).1 then Ret () else Raise OSError)
        (os_child s w).2 [EvChild s (os_child s w).1].
Proof.
  unfold child_or_raise. rewrite M_bind_unfold. unfold child.
  by destruct (os_child s w) as [[] w1].
Qed.

Lemma child_unfold s (w : W) :
  child s w = Run (Ret (os_child s w).1) (os_child s w).2 [EvChild s (os_child s w).1].
Proof. unfold child. by destruct (os_child s w). Qed.

Lemma serve_forever_unfold (w : W) :
  serve_forever w =
    Run (Ret (os_serve_forever w).1) (os_serve_forever w).2
        [EvChild ServeForever
           match (os_serve_forever w).1 with
           | ServeLeft => true
           | ServeKilled _ => false
           end].
Proof. unfold serve_forever. by destruct (os_serve_forever w). Qed.

Ltac steps_in H :=
  repeat (apply elem_of_cons in H as [H|H]; [try discriminate H|]);
  try (apply elem_of_nil in H; destruct H).

Ltac steps_elem :=
  repeat first [apply list_elem_of_here | apply list_elem_of_further].

Ltac child_side :=
  first
    [ done
    | solve [intros _; steps_elem]
    | solve [intros _; eexists; split; [|steps_elem]; done]
    | solve [intros _; by eexists]
    | solve [intros Hin; steps_in Hin; simplify_eq]
    | solve [intros (? & Hx); discriminate Hx]
    | solve [intros (s & Hne & Hin); steps_in Hin; simplify_eq; done] ].

Ltac child_goal :=
  first
    [ done
    | by eexists
    | solve [intros ? [=]; subst; auto]
    | solve [intros s Hs Hin; cbn [take] in Hs; steps_in Hin; simplify_eq;
             first [done | not_in_list Hs]]
    | solve [intros Hin; steps_in Hin; done]
    | solve [split; child_side] ].

Ltac child_leaf :=
  unfold child_steps, prints; trace_simpl;
  cbn [fmap list_fmap fst last exit_code];
  split_and!; child_goal.

(** X14: the detached child never returns to the caller.  Its steps are
    an initial part of the plan (new session, change of directory, log
    file, standard streams, log directory, bind, serve, close), in that
    order.  A failure of one of the seven steps before the bind ends it
    there with an [OSError].  It calls [sys.exit(1)] exactly when binding
    the server failed, which is also exactly when it writes the bind
    failure.  Once bound it serves until a signal ends the process, which
    then is its last step: the server is not closed and the exit status
    is that of the signal; or until [serve_forever] is left, and only
    then it closes the server, calls [sys.exit(0)] exactly when the
    closing succeeded and lets the [OSError] of a failed closing pass.
    The exit status is 1 exactly when a step other than the serving
    failed. *)
Theorem serve_child_never_returns args port sd lf (w : W) :
  let r := serve_child args port sd lf w in
  let steps := child_steps (trace r) in
  let plan := child_plan args port sd lf (os_parent lf) in
  (∀ u, outcome r ≠ Ret u) ∧
  steps.*1 `prefix_of` plan ∧
  (∀ s, s ∈ take 7 plan → (s, false) ∈ steps →
     outcome r = Raise OSError ∧ last steps = Some (s, false)) ∧
  (outcome r = Exit 1 ↔ (BindServer (a_bind args) port, false) ∈ steps) ∧
  (outcome r = Exit 1 ↔
     prints (trace r) = [(MsgBindFailed (a_bind args) port, NoColor)]) ∧
  ((∃ signum, outcome r = Exit (Z.neg signum)) ↔
     last steps = Some (ServeForever, false)) ∧
  (outcome r = Exit 0 ↔ last steps = Some (ServerClose, true)) ∧
  ((ServerClose, false) ∈ steps → outcome r = Raise OSError) ∧
  (exit_code (outcome r) = 1 ↔ ∃ s, s ≠ ServeForever ∧ (s, false) ∈ steps).
Proof.
  cbv zeta. unfold serve_child, child_plan.
  do 7 (rewrite M_bind_unfold, child_or_raise_unfold;
        cbn [outcome final trace];
        match goal with |- context [os_child ?s ?w'] =>
          destruct (os_child s w') as [[] ?] end;
        cbn [fst snd outcome final trace app];
        [|child_leaf]).
  rewrite M_bind_unfold, child_unfold. cbn [outcome final trace].
  match goal with |- context [os_child ?s ?w'] =>
    destruct (os_child s w') as [[] ?] end;
    cbn [fst snd outcome final trace app].
  - rewrite M_bind_unfold, serve_forever_unfold. cbn [outcome final trace].
    match goal with |- context [os_serve_forever ?w'] =>
      destruct (os_serve_forever w') as [[signum|] ?] end;
      cbn [fst snd outcome final trace app killed].
    + child_leaf.
    + rewrite M_bind_unfold, child_or_raise_unfold. cbn [outcome final trace].
      match goal with |- context [os_child ?s ?w'] =>
        destruct (os_child s w') as [[] ?] end;
        cbn [fst snd outcome final trace app sys_exit]; child_leaf.
  - rewrite M_bind_unfold. cbn [cprint sys_exit outcome final trace app].
    child_leaf.
Qed.

(** X15: what the log relocation does once the two tests of line 185
    have answered.  It does nothing at all when the new log file exists,
    when no old log file exists or when both are the same file;
    otherwise it creates the directory of the new log file and, only if
    that succeeded, makes one attempt to move the old file there; a
    failure of either is swallowed, and the relocation returns. *)
Theorem migrate_log_mkdir_then_replace args lf (w : W) :
  let old := os_resolve w ".images_http.log" in
  let r := migrate_log args lf w in
  (os_exists w (os_resolve w (a_log_file args)) = true ∨
   os_exists w old = false ∨ old = lf → r = Run (Ret ()) w []) ∧
  (os_exists w (os_resolve w (a_log_file args)) = false →
   os_exists w old = true → old ≠ lf →
   ∃ made, head (trace r) = Some (EvMkdir (os_parent lf) made) ∧
     (made = false → r = Run (Ret ()) (os_mkdir_parents (os_parent lf) w).2
                             [EvMkdir (os_parent lf) false]) ∧
     (made = true →
        ∃ moved, trace r = [EvMkdir (os_parent lf) true;
                            EvReplace old lf moved] ∧
                 (moved, final r) =
                   os_replace old lf (os_mkdir_parents (os_parent lf) w).2 ∧
                 outcome r = Ret ())).
Proof.
  intros old. cbv zeta. unfold migrate_log.
  do 3 (rewrite M_bind_unfold; cbn [read outcome final trace app]).
  fold old.
  destruct (os_exists w (os_resolve w (a_log_file args))) eqn:Ht;
    [cbn [negb andb M_ret outcome]; split_and!; [done|done]|].
  destruct (os_exists w old) eqn:Ho;
    [|cbn [negb andb M_ret outcome]; split_and!; [done|done]].
  destruct (String.eqb_spec old lf) as [Heq|Hne];
    [cbn [negb andb M_ret outcome]; split_and!; [done|done]|].
  cbn [negb andb]. rewrite M_bind_unfold. unfold mkdir_parents.
  destruct (os_mkdir_parents (os_parent lf) w) as [[] w1];
    cbn [fst snd outcome final trace app].
  - rewrite M_bind_unfold. unfold replace.
    destruct (os_replace old lf w1) as [moved w2] eqn:Hmv.
    cbn [outcome final trace app M_ret].
    split_and!; [by intros [|[|]]|].
    intros _ _ _. exists true. split_and!; [done|done|].
    intros _. by exists moved.
  - cbn [outcome final trace app M_ret].
    split_and!; [by intros [|[|]]|].
    intros _ _ _. exists false. by split_and!.
Qed.

End ChildFurther.

(** ** The command line *)

(** X18: [parse_args] hands the arguments on exactly when a subcommand
    other than [help] was given.  It exits with status 2 exactly for
    [help] with a non-empty topic that is no subcommand, and with status
    0 in every other case in which it does not return; the general help
    text is printed exactly when no subcommand was given or [help] came
    without a topic. *)
Theorem parse_args_help args :
  (∀ args', (parse_args args).2 = Ret args' ↔
     args' = args ∧ ∃ cmd, n_cmd args = Some cmd ∧ cmd ≠ "help") ∧
  ((parse_args args).2 = Exit 2 ↔
     n_cmd args = Some "help" ∧
     ∃ topic, n_topic args = Some topic ∧ topic ≠ "" ∧ topic ∉ SUBCOMMANDS) ∧
  (∀ c, (parse_args args).2 = Exit c → c = 0 ∨ c = 2) ∧
  (∀ e, (parse_args args).2 ≠ Raise e) ∧
  (OutHelpText ∈ (parse_args args).1 ↔
     n_cmd args = None ∨
     n_cmd args = Some "help" ∧ (n_topic args = None ∨ n_topic args = Some "")) ∧
  ((parse_args args).1 = [] ↔ ∃ a, (parse_args args).2 = Ret a).
Proof.
  destruct args as [cmd topic]. unfold parse_args. cbn [n_cmd n_topic].
  destruct cmd as [cmd|]; [destruct (String.eqb_spec cmd "help") as [->|Hcmd];
    [destruct topic as [[|a topic]|]; [| |]|]|];
  cbn [nonempty negb]; try case_bool_decide; cbn [negb];
  try (destruct (String.eqb_spec (String a topic) "help") as [Heq|Htopic]);
  cbn [fst snd]; (split_and!; try done; try naive_solver).
  all: try (split; [intros Hx; set_solver|naive_solver]).
  all: try (by intros ? [= <-]; left).
  all: try (by intros ? [= <-]; right).
  all: split; [intros _|intros _; by left]; auto.
Qed.

(** ** restart *)

Section RestartFurther.
Context `{PyBuiltins} {W : Type} `{OS W}.

(** X17: when the instances that discovery reports belong to more than one
    process, [restart] stops none of them: it prints the report of [stop]
    and then runs [start] all the same, on the world the scan left, and
    ends as [start] ends.  No signal is sent in the whole run. *)
Theorem server_restart_ambiguous args (w w' : W) fs servers0 s1 s2 :
  os_proc w = (fs, w') →
  discover_servers fs = Ret servers0 →
  s1 ∈ filter_port (a_port args) servers0 →
  s2 ∈ filter_port (a_port args) servers0 →
  s1.1 ≠ s2.1 →
  let start := server_start args w' in
  server_restart args w =
    Run (outcome start) (final start)
      ((EvDiscover (Ret servers0) :: EvPrint MsgAmbiguousStop ColorY ::
        (listing_line <$> group_by_pid (filter_port (a_port args) servers0)) ++
        match a_port args with None => [EvPrint MsgHintPort ColorC] | Some _ => [] end)
       ++ trace start) ∧
  kills (trace (server_restart args w)) = [].
Proof.
  intros Hw Hd H1 H2 Hne start.
  assert (server_restart args w =
    Run (outcome start) (final start)
      ((EvDiscover (Ret servers0) :: EvPrint MsgAmbiguousStop ColorY ::
        (listing_line <$> group_by_pid (filter_port (a_port args) servers0)) ++
        match a_port args with None => [EvPrint MsgHintPort ColorC] | Some _ => [] end)
       ++ trace start)) as Hrun.
  { unfold server_restart. rewrite M_bind_unfold.
    by rewrite (server_stop_ambiguous_run args w w' fs servers0 s1 s2). }
  split; [done|]. rewrite Hrun. cbn [trace].
  pose proof (server_start_no_signal args w') as Hk. fold start in Hk.
  pose proof (listing_kills (group_by_pid (filter_port (a_port args) servers0)))
    as Hl.
  unfold kills in *. rewrite omap_app, Hk, app_nil_r.
  cbn [app]. rewrite !omap_step. cbn beta iota. rewrite omap_app, Hl.
  by destruct (a_port args).
Qed.

End RestartFurther.

(** ** The further properties on the example states *)

(** A state on which [discover_servers_no_listening_socket] applies. *)
Lemma discover_servers_no_listening_socket_witness :
  (has_header (net_tcp idle_tables) ∧ has_header (net_tcp6 idle_tables) ∧
   ∀ row inode port, row ∈ all_rows idle_tables →
     ¬ @listening_row plain_builtins row inode port) ∧
  @discover_servers plain_builtins idle_tables = Ret [].
Proof.
  assert (has_header (net_tcp idle_tables)) as H4 by exact I.
  assert (has_header (net_tcp6 idle_tables)) as H6 by exact I.
  assert (∀ row inode port, row ∈ all_rows idle_tables →
            ¬ @listening_row plain_builtins row inode port) as Hrows.
  { intros row inode port Hin (local & ino & ip & phex & _ & _ & Hst & _).
    apply list_elem_of_singleton in Hin. subst row.
    vm_compute in Hst. discriminate Hst. }
  split; [done|].
  exact (@discover_servers_no_listening_socket plain_builtins idle_tables
           H4 H6 Hrows).
Defined.

(** Two listings of [/proc] on which
    [discover_servers_order_independent] applies. *)
Lemma discover_servers_order_independent_witness :
  let p1 := process "1" [Some "socket:[111]"] in
  let p2 := process "2" [Some "socket:[112]"] in
  [p1; p2] ≡ₚ [p2; p1] ∧
  @discover_servers plain_builtins
    {| net_tcp := net_tcp two_servers; net_tcp6 := net_tcp6 two_servers;
       proc_dirs := [p1; p2] |} =
  @discover_servers plain_builtins
    {| net_tcp := net_tcp two_servers; net_tcp6 := net_tcp6 two_servers;
       proc_dirs := [p2; p1] |}.
Proof.
  intros p1 p2.
  assert ([p1; p2] ≡ₚ [p2; p1]) as Hp by apply perm_swap.
  split; [exact Hp|].
  exact (@discover_servers_order_independent plain_builtins
           (net_tcp two_servers) (net_tcp6 two_servers) [p1; p2] [p2; p1] Hp).
Defined.

(** A state on which [read_tables_ipv6_wins] applies: inode 111 is mapped
    to the port of the IPv6 table. *)
Lemma read_tables_ipv6_wins_witness :
  (has_header (net_tcp dual_stack) ∧ has_header (net_tcp6 dual_stack)) ∧
  @read_tables plain_builtins dual_stack =
    Ret (foldl (@add_row plain_builtins) ∅ (table_rows (net_tcp6 dual_stack)) ∪
         foldl (@add_row plain_builtins) ∅ (table_rows (net_tcp dual_stack))).
Proof.
  assert (has_header (net_tcp dual_stack)) as H4 by exact I.
  assert (has_header (net_tcp6 dual_stack)) as H6 by exact I.
  split; [done|].
  exact (@read_tables_ipv6_wins plain_builtins dual_stack H4 H6).
Defined.

(** A world on which [server_stop_nothing_to_stop] applies: the only
    instance serves port 8000, and port 9000 is asked for. *)
Lemma server_stop_nothing_to_stop_witness :
  let args := example_args "stop" (Some 9000) in
  let fs := one_server "1F40" in
  let w := Sim [] [] [fs] [] (Ret false) (Ret 77) (inl 200) in
  (@os_proc sim sim_os w = (fs, w) ∧
   @discover_servers plain_builtins fs = Ret [(4242, 8000)] ∧
   filter_port (a_port args) [(4242, 8000)] = []) ∧
  sim_stop args w =
    Run (Ret ()) w
      [EvDiscover (Ret [(4242, 8000)]); EvPrint MsgNoServerOnPort ColorY].
Proof.
  intros args fs w.
  assert (@discover_servers plain_builtins fs = Ret [(4242, 8000)]) as Hd
    by (vm_compute; reflexivity).
  assert (filter_port (a_port args) [(4242, 8000)] = []) as Hf
    by (vm_compute; reflexivity).
  split; [done|].
  exact (@server_stop_nothing_to_stop plain_builtins sim sim_os
           args w w fs [(4242, 8000)] eq_refl Hd Hf).
Defined.

(** A world on which [server_status_health_check] applies: the request
    times out. *)
Lemma server_status_health_check_witness :
  let args := example_args "status" None in
  let fs := one_server "1F40" in
  let w := Sim [] [] [fs] [] (Ret false) (Ret 77) (inr "timed out") in
  (@os_proc sim sim_os w = (fs, w) ∧
   @discover_servers plain_builtins fs = Ret [(4242, 8000)] ∧
   filter_port (a_port args) [(4242, 8000)] = [(4242, 8000)] ∧
   @os_urlopen sim sim_os (a_bind args) 8000 (a_timeout args)
     (@os_sleep sim sim_os w) = (inr "timed out", w)) ∧
  sim_status args w =
    Run (Ret ()) w
      [EvDiscover (Ret [(4242, 8000)]);
       EvPrint (MsgRunning 4242 [8000]) ColorG; EvSleep;
       EvUrlopen "0.0.0.0" 8000 (inr "timed out");
       EvPrint (MsgHealthFailed "timed out") ColorR;
       EvPrint MsgPossibleCauses ColorY].
Proof.
  intros args fs w.
  assert (@discover_servers plain_builtins fs = Ret [(4242, 8000)]) as Hd
    by (vm_compute; reflexivity).
  assert (filter_port (a_port args) [(4242, 8000)] = [(4242, 8000)]) as Hf
    by (vm_compute; reflexivity).
  split; [done|].
  exact (@server_status_health_check plain_builtins sim sim_os
           args w w w fs [(4242, 8000)] 4242 8000 (inr "timed out")
           eq_refl Hd Hf eq_refl).
Defined.

(** A world on which [server_status_several_ports] applies. *)
Lemma server_status_several_ports_witness :
  let args := example_args "status" None in
  let fs := one_server_two_ports in
  let w := Sim [] [] [fs] [] (Ret false) (Ret 77) (inl 200) in
  let servers0 := [(4242, 8000); (4242, 8080)] in
  (@os_proc sim sim_os w = (fs, w) ∧
   @discover_servers plain_builtins fs = Ret servers0 ∧
   (∀ x, x ∈ filter_port (a_port args) servers0 → x.1 = 4242) ∧
   (2 ≤ List.length (filter_port (a_port args) servers0))%nat) ∧
  sim_status args w =
    Run (Ret ()) w
      [EvDiscover (Ret servers0); EvPrint (MsgRunning 4242 [8000; 8080]) ColorG].
Proof.
  intros args fs w servers0.
  assert (@discover_servers plain_builtins fs = Ret servers0) as Hd
    by (vm_compute; reflexivity).
  assert (∀ x, x ∈ filter_port (a_port args) servers0 → x.1 = 4242) as Hp.
  { intros x Hx. change (filter_port (a_port args) servers0) with servers0 in Hx.
    apply elem_of_cons in Hx as [->|Hx]; [done|].
    apply list_elem_of_singleton in Hx as ->. done. }
  assert (2 ≤ List.length (filter_port (a_port args) servers0))%nat as Hl
    by (vm_compute; lia).
  split; [done|].
  destruct (@server_status_several_ports plain_builtins sim sim_os
              args w w fs servers0 4242 eq_refl Hd Hp Hl) as (_ & _ & Hrun).
  exact Hrun.
Defined.

(** A world on which [server_status_reports_smallest_pid] applies:
    processes 1 and 2 both serve port 8000. *)
Lemma server_status_reports_smallest_pid_witness :
  let args := example_args "status" (Some 8000) in
  let w := Sim [] [] [two_servers] [] (Ret false) (Ret 77) (inl 200) in
  let servers0 := [(1, 8000); (2, 8000)] in
  (a_port args = Some 8000 ∧
   @os_proc sim sim_os w = (two_servers, w) ∧
   @discover_servers plain_builtins two_servers = Ret servers0 ∧
   filter_port (Some 8000) servers0 ≠ []) ∧
  ∃ pid ports health,
    trace (sim_status args w) =
      EvDiscover (Ret servers0) ::
      EvPrint (MsgRunning pid (sorted_ints ports)) ColorG :: health ∧
    outcome (sim_status args w) = Ret () ∧
    pid ∈ (filter_port (Some 8000) servers0).*1 ∧
    Forall (λ port, port = 8000) ports ∧
    ∀ x, x ∈ filter_port (Some 8000) servers0 → pid ≤ x.1.
Proof.
  intros args w servers0.
  assert (@discover_servers plain_builtins two_servers = Ret servers0) as Hd
    by (vm_compute; reflexivity).
  assert (filter_port (Some 8000) servers0 ≠ []) as Hne
    by (vm_compute; discriminate).
  split; [done|].
  exact (@server_status_reports_smallest_pid plain_builtins sim sim_os
           args w w two_servers servers0 8000 eq_refl eq_refl Hd Hne).
Defined.

(** A world on which [server_status_not_running] applies: no managed
    process runs. *)
Lemma server_status_not_running_witness :
  let args := example_args "status" None in
  let w := Sim [] [] [no_server] [] (Ret true) (Ret 77) (inl 200) in
  (@os_proc sim sim_os w = (no_server, w) ∧
   @discover_servers plain_builtins no_server = Ret [] ∧
   filter_port (a_port args) [] = []) ∧
  sim_status args w =
    Run (Ret ()) w [EvDiscover (Ret []); EvPrint MsgNotRunning ColorR].
Proof.
  intros args w.
  assert (@discover_servers plain_builtins no_server = Ret []) as Hd
    by (vm_compute; reflexivity).
  split; [done|].
  exact (@server_status_not_running plain_builtins sim sim_os
           args w w no_server [] eq_refl Hd eq_refl).
Defined.

(** A world on which [confirm_poll_reports_discovered_pid] applies: the
    fork returned 77, the second scan finds process 4242 on the port. *)
Lemma confirm_poll_reports_discovered_pid_witness :
  let w := Sim [] [] [no_server; one_server "1F40"] [] (Ret false) (Ret 77)
               (inl 200) in
  let r := @confirm_poll plain_builtins sim sim_os 30 8000 77 w in
  (MsgStarted 4242, ColorG) ∈ prints (trace r) ∧
  ∃ earlier servers,
    discoveries (trace r) = earlier ++ [Ret servers] ∧
    Forall (misses 8000) earlier ∧
    head (filter (λ s, s.2 = 8000) servers) = Some (4242, 8000) ∧
    List.length (sleeps (trace r)) = List.length earlier ∧
    last (trace r) = Some (EvPrint (MsgStarted 4242) ColorG) ∧
    outcome r = Ret () ∧ ColorG = ColorG.
Proof.
  intros w r.
  assert ((MsgStarted 4242, ColorG) ∈ prints (trace r)) as Hin
    by (vm_compute; left).
  split; [exact Hin|].
  exact (@confirm_poll_reports_discovered_pid plain_builtins sim sim_os
           30 8000 77 w 4242 ColorG Hin).
Defined.

(** A world on which [server_restart_ambiguous] applies: processes 1 and
    2 both serve port 8000. *)
Lemma server_restart_ambiguous_witness :
  let args := example_args "restart" None in
  let w := Sim [] ["/srv/IMAGES"] [two_servers] [] (Ret false) (Ret 77)
               (inl 200) in
  let servers := [(1, 8000); (2, 8000)] in
  (@os_proc sim sim_os w = (two_servers, w) ∧
   @discover_servers plain_builtins two_servers = Ret servers ∧
   (1, 8000) ∈ filter_port (a_port args) servers ∧
   (2, 8000) ∈ filter_port (a_port args) servers ∧
   (1, 8000).1 ≠ (2, 8000).1) ∧
  kills (trace (@server_restart plain_builtins sim sim_os args w)) = [].
Proof.
  intros args w servers.
  assert (@discover_servers plain_builtins two_servers = Ret servers) as Hd
    by (vm_compute; reflexivity).
  assert ((1, 8000) ∈ filter_port (a_port args) servers) as H1 by left.
  assert ((2, 8000) ∈ filter_port (a_port args) servers) as H2 by (right; left).
  assert ((1, 8000).1 ≠ (2, 8000).1) as Hne by (simpl; lia).
  split; [split_and!; done|].
  destruct (@server_restart_ambiguous plain_builtins sim sim_os
              args w w two_servers servers (1, 8000) (2, 8000)
              eq_refl Hd H1 H2 Hne) as [_ Hk].
  exact Hk.
Defined.
